(** * FastAPI sample: deployment workflow and App Runner stack

    A shallow embedding of
      - [infra/lib/stacks/apprunner-stack.ts]  (class [AppRunnerStack]),
      - [infra/bin/app.ts]                     (the CDK app entry point),
      - [scripts/deploy.sh]                    (variant A, local Docker build),
      - [scripts/deploy-no-docker.sh]          (variant B, CodeBuild and polling),
    followed by the properties of the deployment workflow. *)

From Stdlib Require Import String Ascii List Bool Arith NArith Lia.
From Stdlib Require Import DecimalString.
Import ListNotations.
Open Scope string_scope.

(* ================================================================= *)
(** ** Strings as the shell and JavaScript use them *)

Module Str.

Definition LF : ascii := ascii_of_nat 10.
Definition nl : string := String LF "".

(** Bash [[ $x == *needle* ]]: [needle] occurs somewhere in [hay]. *)
Fixpoint contains (needle hay : string) : bool :=
  if String.prefix needle hay then true
  else match hay with
       | EmptyString => false
       | String _ rest => contains needle rest
       end.

(** [String.prototype.startsWith]. *)
Definition startsWith (s pre : string) : bool := String.prefix pre s.

Definition is_empty (s : string) : bool :=
  match s with EmptyString => true | _ => false end.

(** Command substitution [$(...)] deletes every trailing newline. *)
Fixpoint chomp (s : string) : string :=
  match s with
  | EmptyString => EmptyString
  | String c rest =>
      let rest' := chomp rest in
      if is_empty rest' && Ascii.eqb c LF then EmptyString
      else String c rest'
  end.

(** White space removed by [String.prototype.trim] (ASCII range). *)
Definition is_space (c : ascii) : bool :=
  let n := nat_of_ascii c in
  ((n =? 32) || ((9 <=? n) && (n <=? 13)))%nat.

Fixpoint trimStart (s : string) : string :=
  match s with
  | String c rest => if is_space c then trimStart rest else s
  | EmptyString => EmptyString
  end.

Fixpoint trimEnd (s : string) : string :=
  match s with
  | EmptyString => EmptyString
  | String c rest =>
      let rest' := trimEnd rest in
      if is_empty rest' && is_space c then EmptyString
      else String c rest'
  end.

Definition trim (s : string) : string := trimEnd (trimStart s).

(** [String.prototype.toLowerCase] on ASCII text; stack ids are ASCII
    (letters, digits and hyphens). *)
Definition lower (c : ascii) : ascii :=
  let n := nat_of_ascii c in
  if ((65 <=? n) && (n <=? 90))%nat then ascii_of_nat (n + 32) else c.

Fixpoint toLowerCase (s : string) : string :=
  match s with
  | EmptyString => EmptyString
  | String c rest => String (lower c) (toLowerCase rest)
  end.

(** [Number.prototype.toString] on a non-negative integer. *)
Definition toString (n : N) : string :=
  NilZero.string_of_uint (N.to_uint n).

(** JavaScript truthiness of an optional string: [undefined] and the
    empty string are falsy. *)
Definition truthy (v : option string) : bool :=
  match v with
  | Some s => negb (is_empty s)
  | None => false
  end.

(** [a || b] where [a] is an optional string and [b] a string. *)
Definition or_else (a : option string) (b : string) : string :=
  match a with
  | Some s => if is_empty s then b else s
  | None => b
  end.

(** Lookup in a string-keyed object given as its list of entries. *)
Fixpoint lookup (k : string) (m : list (string * string)) : option string :=
  match m with
  | [] => None
  | (k', v) :: rest => if String.eqb k k' then Some v else lookup k rest
  end.

End Str.

(* ================================================================= *)
(** ** infra/lib/stacks/apprunner-stack.ts *)

Module Stack.

(** A CloudFormation attribute of a construct of the stack, as it
    appears inside a string ([repository.repositoryUri],
    [accessRole.roleArn], ...): an unresolved token. *)
Definition attr (logicalId name : string) : string :=
  "${Token[" ++ logicalId ++ "." ++ name ++ "]}".

Record KeyValue := { name : string; value : string }.

Record LifecycleRule := {
  rule_description : string;
  maxImageCount : nat
}.

Record RepositoryProps := {
  repositoryName : string;
  removalPolicy : string;
  emptyOnDelete : bool;
  imageScanOnPush : bool;
  lifecycleRules : list LifecycleRule
}.

Record RoleProps := {
  assumedBy : string;
  role_description : option string;
  managedPolicies : list string;
  (** secrets on which [grantRead] was called for this role *)
  readableSecrets : list string
}.

(** The object built by the [imageConfiguration] closure;
    [runtimeEnvironmentSecrets = None] is the key left unset. *)
Record ImageConfiguration := {
  config_port : string;
  runtimeEnvironmentVariables : list KeyValue;
  runtimeEnvironmentSecrets : option (list KeyValue)
}.

Record HealthCheckConfiguration := {
  protocol : string;
  path : string;
  interval : nat;
  timeout : nat;
  healthyThreshold : nat;
  unhealthyThreshold : nat
}.

Record ServiceProps := {
  serviceName : string;
  accessRoleArn : string;
  autoDeploymentsEnabled : bool;
  imageRepositoryType : string;
  imageIdentifier : string;
  imageConfiguration : ImageConfiguration;
  instance_cpu : string;
  instance_memory : string;
  instanceRoleArn : string;
  healthCheckConfiguration : HealthCheckConfiguration;
  autoScalingConfigurationArn : option string
}.

(** The resources the constructor adds to the stack, under their
    construct ids. *)
Inductive Resource :=
| Repository (id : string) (p : RepositoryProps)
| Role (id : string) (p : RoleProps)
| Service (id : string) (p : ServiceProps).

Record CfnOutput := {
  output_id : string;
  output_value : string;
  output_description : string;
  exportName : string
}.

(** [AppRunnerStackProps]; an optional field that is left out is [None]. *)
Record AppRunnerStackProps := {
  env_account : option string;
  env_region : string;
  stack_description : option string;
  environment : string;
  cpu : option string;
  memory : option string;
  port : option N;
  (** entries of the object, in [Object.entries] order *)
  environmentVariables : option (list (string * string));
  secretsArn : option string;
  createService : option bool
}.

Record AppRunnerStack := {
  stack_id : string;
  stack_props : AppRunnerStackProps;
  serviceUrl : string;
  resources : list Resource;
  outputs : list CfnOutput;
  tags : list (string * string)
}.

Definition default {A} (d : A) (o : option A) : A :=
  match o with Some a => a | None => d end.

Definition repositoryProps (id : string) : RepositoryProps :=
  {| repositoryName := Str.toLowerCase id;
     removalPolicy := "DESTROY";
     emptyOnDelete := true;
     imageScanOnPush := true;
     lifecycleRules :=
       [ {| rule_description := "Keep last 25 images";
            maxImageCount := 25 |} ] |}.

Definition repository (id : string) : Resource :=
  Repository "Repository" (repositoryProps id).

Definition instanceRole (id : string) (secretsArn : option string) : Resource :=
  Role "InstanceRole"
    {| assumedBy := "tasks.apprunner.amazonaws.com";
       role_description := Some ("App Runner instance role for " ++ id);
       managedPolicies := [];
       readableSecrets :=
         match secretsArn with
         | Some arn => if Str.truthy secretsArn then [arn] else []
         | None => []
         end |}.

Definition accessRole : Resource :=
  Role "AccessRole"
    {| assumedBy := "build.apprunner.amazonaws.com";
       role_description := None;
       managedPolicies :=
         ["service-role/AWSAppRunnerServicePolicyForECRAccess"];
       readableSecrets := [] |}.

Definition secretRef (arn key : string) : KeyValue :=
  {| name := key; value := arn ++ ":" ++ key ++ "::" |}.

(** The immediately-invoked closure that builds [imageConfiguration]. *)
Definition imageConfig (environment : string) (port : N)
    (environmentVariables : list (string * string))
    (secretsArn : option string) : ImageConfiguration :=
  let config :=
    {| config_port := Str.toString port;
       runtimeEnvironmentVariables :=
         {| name := "ENVIRONMENT"; value := environment |}
         :: {| name := "PORT"; value := Str.toString port |}
         :: map (fun nv => {| name := fst nv; value := snd nv |})
                environmentVariables;
       runtimeEnvironmentSecrets := None |} in
  match secretsArn with
  | Some arn =>
      if Str.truthy secretsArn then
        {| config_port := config_port config;
           runtimeEnvironmentVariables := runtimeEnvironmentVariables config;
           runtimeEnvironmentSecrets :=
             Some [ secretRef arn "MYSQL_USER";
                    secretRef arn "MYSQL_PASSWORD";
                    secretRef arn "MYSQL_HOST";
                    secretRef arn "MYSQL_DATABASE" ] |}
      else config
  | None => config
  end.

Definition service (id : string) (props : AppRunnerStackProps) : Resource :=
  let port := default 8080%N (port props) in
  Service "Service"
    {| serviceName := id;
       accessRoleArn := attr "AccessRole" "Arn";
       autoDeploymentsEnabled := true;
       imageRepositoryType := "ECR";
       imageIdentifier := attr "Repository" "RepositoryUri" ++ ":latest";
       imageConfiguration :=
         imageConfig (environment props) port
           (default [] (environmentVariables props)) (secretsArn props);
       instance_cpu := default "1 vCPU" (cpu props);
       instance_memory := default "2 GB" (memory props);
       instanceRoleArn := attr "InstanceRole" "Arn";
       healthCheckConfiguration :=
         {| protocol := "HTTP"; path := "/health"; interval := 10;
            timeout := 5; healthyThreshold := 1; unhealthyThreshold := 5 |};
       autoScalingConfigurationArn := None |}.

(** [new AppRunnerStack(scope, id, props)]. *)
Definition newAppRunnerStack (id : string) (props : AppRunnerStackProps)
    : AppRunnerStack :=
  let createService := default true (createService props) in
  let url := "https://" ++ attr "Service" "ServiceUrl" in
  {| stack_id := id;
     stack_props := props;
     serviceUrl := if createService then url else "";
     resources :=
       repository id
       :: (if createService
           then [ instanceRole id (secretsArn props);
                  accessRole;
                  service id props ]
           else []);
     outputs :=
       (if createService
        then [ {| output_id := "ServiceUrl";
                  output_value := url;
                  output_description := "App Runner service URL";
                  exportName := id ++ "-ServiceUrl" |};
               {| output_id := "ServiceId";
                  output_value := attr "Service" "ServiceId";
                  output_description := "App Runner service ID";
                  exportName := id ++ "-ServiceId" |} ]
        else [])
       ++ [ {| output_id := "RepositoryUri";
               output_value := attr "Repository" "RepositoryUri";
               output_description := "ECR repository URI";
               exportName := id ++ "-RepositoryUri" |} ];
     tags := [ ("Stack", "AppRunner");
               ("Environment", environment props) ] |}.

(** Observations on a synthesized stack. *)

Definition is_repository (r : Resource) : bool :=
  match r with Repository _ _ => true | _ => false end.
Definition is_role (r : Resource) : bool :=
  match r with Role _ _ => true | _ => false end.
Definition is_service (r : Resource) : bool :=
  match r with Service _ _ => true | _ => false end.

Definition output_ids (s : AppRunnerStack) : list string :=
  map output_id (outputs s).

(** The [imageConfiguration] of each hosting-service declaration. *)
Definition imageConfigurations (s : AppRunnerStack) : list ImageConfiguration :=
  flat_map (fun r => match r with
                     | Service _ p => [imageConfiguration p]
                     | _ => []
                     end) (resources s).

Definition variable_names (c : ImageConfiguration) : list string :=
  map name (runtimeEnvironmentVariables c).

End Stack.

(* ================================================================= *)
(** ** infra/bin/app.ts *)

Module App.

Import Stack.

(** What the entry point reads: the CDK context ([--context k=v] and
    [cdk.json]), the process environment, and the outcome of
    [execSync("whoami")], [None] when it throws. *)
Record Inputs := {
  context : list (string * string);
  env : list (string * string);
  whoami : option string
}.

Definition tryGetContext (i : Inputs) (key : string) : option string :=
  Str.lookup key (context i).

Definition process_env (i : Inputs) (key : string) : option string :=
  Str.lookup key (env i).

Definition getDefaultEnvironment (i : Inputs) : string :=
  if Str.truthy (process_env i "USER")
  then "preview-" ++ Str.or_else (process_env i "USER") ""
  else match whoami i with
       | Some stdout => "preview-" ++ Str.trim stdout
       | None => "preview-local"
       end.

Definition environment (i : Inputs) : string :=
  if Str.truthy (tryGetContext i "environment")
  then Str.or_else (tryGetContext i "environment") ""
  else getDefaultEnvironment i.

Definition is_literal (v : option string) (lit : string) : bool :=
  match v with Some s => String.eqb s lit | None => false end.

Definition codeConnectionArn (i : Inputs) : string :=
  Str.or_else (tryGetContext i "codeConnectionArn")
    (Str.or_else (process_env i "CODE_CONNECTION_ARN") "").
Definition repositoryName (i : Inputs) : string :=
  Str.or_else (tryGetContext i "repositoryName")
    (Str.or_else (process_env i "REPOSITORY_NAME")
       "maria-raluca-st/fastapi-sample-testing").
Definition branchName (i : Inputs) : string :=
  Str.or_else (tryGetContext i "branchName")
    (Str.or_else (process_env i "BRANCH_NAME") "main").
Definition pipelineOnly (i : Inputs) : bool :=
  is_literal (tryGetContext i "pipelineOnly") "true".

Definition account (i : Inputs) : option string :=
  process_env i "CDK_DEFAULT_ACCOUNT".
Definition region (i : Inputs) : string :=
  Str.or_else (process_env i "CDK_DEFAULT_REGION") "us-east-1".
Definition createService (i : Inputs) : bool :=
  negb (is_literal (tryGetContext i "createService") "false").
Definition secretsArn (i : Inputs) : option string :=
  tryGetContext i "secretsArn".

Record PipelineStackProps := {
  pipeline_description : string;
  pipeline_codeConnectionArn : string;
  pipeline_repositoryName : string;
  pipeline_branchName : string
}.

(** The stacks the app instantiates; [PipelineStack] is kept opaque. *)
Inductive StackDecl :=
| AppRunner (s : AppRunnerStack)
| Pipeline (id : string) (p : PipelineStackProps).

Record CdkApp := {
  stacks : list StackDecl;
  warnings : list string;
  globalTags : list (string * string)
}.

Definition appEnvironmentVariables : list (string * string) :=
  [ ("NODE_ENV", "production"); ("LOG_LEVEL", "info") ].

(** The single stack of a preview environment. *)
Definition previewStack (i : Inputs) : AppRunnerStack :=
  newAppRunnerStack ("FastApiRunner-" ++ environment i)
    {| env_account := account i;
       env_region := region i;
       stack_description :=
         Some ("App Runner service for FastAPI sample - " ++ environment i);
       Stack.environment := environment i;
       cpu := Some "1 vCPU";
       memory := Some "2 GB";
       port := Some 8080%N;
       environmentVariables := Some appEnvironmentVariables;
       Stack.secretsArn := secretsArn i;
       Stack.createService := Some (createService i) |}.

(** One stack of the [for (const env of environments)] loop. *)
Definition fixedStack (i : Inputs) (e : string) : AppRunnerStack :=
  newAppRunnerStack ("FastApiRunner-" ++ e)
    {| env_account := account i;
       env_region := region i;
       stack_description :=
         Some ("App Runner service for FastAPI sample - " ++ e);
       Stack.environment := e;
       cpu := Some "1 vCPU";
       memory := Some "2 GB";
       port := Some 8080%N;
       environmentVariables := Some appEnvironmentVariables;
       Stack.secretsArn := None;
       Stack.createService := Some true |}.

Definition appRunnerStacks (i : Inputs) : list AppRunnerStack :=
  if negb (pipelineOnly i) then
    if Str.startsWith (environment i) "preview-"
    then [ previewStack i ]
    else map (fixedStack i) [ "dev"; "prod" ]
  else [].

Definition pipelineStacks (i : Inputs) : list StackDecl :=
  if negb (Str.is_empty (codeConnectionArn i))
  then [ Pipeline "FastApiSamplePipelineStack"
           {| pipeline_description := "CI/CD Pipeline for FastAPI Sample";
              pipeline_codeConnectionArn := codeConnectionArn i;
              pipeline_repositoryName := repositoryName i;
              pipeline_branchName := branchName i |} ]
  else [].

(** Running [bin/app.ts]. *)
Definition app (i : Inputs) : CdkApp :=
  {| stacks := map AppRunner (appRunnerStacks i) ++ pipelineStacks i;
     warnings :=
       if negb (Str.is_empty (codeConnectionArn i)) then []
       else if negb (pipelineOnly i)
       then [ "CodeConnection ARN not provided. Pipeline stack will not be created.";
              "   Create connection: aws codestar-connections create-connection --provider-type GitHub" ]
       else [];
     globalTags :=
       [ ("Project", "FastApiSample"); ("ManagedBy", "CDK") ]
       ++ (if negb (pipelineOnly i)
           then [ ("Environment", environment i) ] else []) |}.

(** The App Runner stack of the app with the given id, if any: the
    deployment unit the scripts look up as [FastApiRunner-<env>]. *)
Definition findStack (a : CdkApp) (id : string) : option AppRunnerStack :=
  find (fun s => String.eqb (stack_id s) id)
       (flat_map (fun d => match d with
                           | AppRunner s => [s]
                           | Pipeline _ _ => []
                           end) (stacks a)).

(** [cdk deploy --context environment=<e> --context createService=false],
    the bootstrap invocation of the scripts, on top of whatever else the
    context, the environment and [whoami] hold. *)
Definition bootstrapInputs (e : string) (i : Inputs) : Inputs :=
  {| context := ("environment", e) :: ("createService", "false") :: context i;
     env := env i;
     whoami := whoami i |}.

(** [cdk deploy --context environment=<e>], the full deployment. *)
Definition deployInputs (e : string) (i : Inputs) : Inputs :=
  {| context := ("environment", e) :: context i;
     env := env i;
     whoami := whoami i |}.

End App.

(* ================================================================= *)
(** ** The shell: external commands, [set -e], traces *)

Module Sh.

(** External commands of the two scripts, with the arguments the
    workflow depends on (before word splitting). *)
Inductive Cmd :=
| Whoami
| StsGetCallerIdentity
| DockerInfo
| CommandV (tool : string)
| NpmInstallGlobal (package : string)
| Cd (dir : string)
| NpmInstall
| NpmRunBuild
| CdkBootstrap
| DescribeStacks (stack region : string)
| CdkDeploy (environment : string) (createService : option string)
| DescribeStackOutput (stack key region : string)
| DockerBuild (tag : string)
| EcrGetLoginPassword (region : string)
| DockerLogin (registry : string)
| DockerTag (src dst : string)
| DockerPush (ref : string)
| Mktemp
| Cp (src dst : string)
| WriteFile (file : string)
| Zip (archive : string)
| ListProjects (project region : string)
| Cut (input : string) (field : nat)
| IamGetRole (role : string)
| IamCreateRole (role : string)
| IamAttachRolePolicy (role policy : string)
| DateSeconds
| S3Mb (bucket region : string)
| S3Cp (src dst : string)
| CreateProject (project location role region : string)
| BatchGetProjects (project region : string)
| StartBuild (project uri region : string)
| BatchGetBuilds (build region : string)
| RmRf (dir : string).

(** Exit status and captured output of one command. Where the script
    writes [2>&1] the output includes standard error. *)
Record Result := { rc : nat; out : string }.

Inductive Event :=
| Ran (c : Cmd) (r : Result)
| Echo (line : string)
| Sleep (seconds : nat).

(** How a script fragment ends: it falls through with a value, the
    shell exits ([exit n], or [set -e] on a failing command), or the
    polling loop is still running when the fuel is spent. *)
Inductive Outcome (A : Type) :=
| Ret (a : A)
| Exit (code : nat)
| Spin.
Arguments Ret {A} a.
Arguments Exit {A} code.
Arguments Spin {A}.

Record Run (A : Type) := {
  outcome : Outcome A;
  next : nat;
  events : list Event
}.
Arguments outcome {A} _.
Arguments next {A} _.
Arguments events {A} _.

(** The world answers the k-th external command of the run. *)
Definition World := nat -> Result.

Definition M (A : Type) := World -> nat -> Run A.

Definition ret {A} (a : A) : M A :=
  fun _ n => {| outcome := Ret a; next := n; events := [] |}.

Definition bind {A B} (m : M A) (k : A -> M B) : M B :=
  fun w n =>
    let r := m w n in
    match outcome r with
    | Ret a =>
        let r' := k a w (next r) in
        {| outcome := outcome r'; next := next r';
           events := events r ++ events r' |}
    | Exit c => {| outcome := Exit c; next := next r; events := events r |}
    | Spin => {| outcome := Spin; next := next r; events := events r |}
    end.

Definition exit {A} (code : nat) : M A :=
  fun _ n => {| outcome := Exit code; next := n; events := [] |}.

Definition spin {A} : M A :=
  fun _ n => {| outcome := Spin; next := n; events := [] |}.

Definition echo (line : string) : M unit :=
  fun _ n => {| outcome := Ret tt; next := n; events := [Echo line] |}.

Definition sleep (seconds : nat) : M unit :=
  fun _ n => {| outcome := Ret tt; next := n; events := [Sleep seconds] |}.

(** Run a command where its status is tested or ignored
    ([if], [!], [||]): [set -e] does not apply. *)
Definition exec (c : Cmd) : M Result :=
  fun w n => {| outcome := Ret (w n); next := S n; events := [Ran c (w n)] |}.

Definition succeeded (r : Result) : bool := Nat.eqb (rc r) 0.

(** A run that comes after the events [t]. *)
Definition prepend {A} (t : list Event) (r : Run A) : Run A :=
  {| outcome := outcome r; next := next r; events := t ++ events r |}.

(** Every event a fragment can emit satisfies [P]. *)
Definition emits {A} (P : Event -> bool) (m : M A) : Prop :=
  forall w n, forallb P (events (m w n)) = true.

Definition never (Q : Event -> bool) : Event -> bool :=
  fun e => negb (Q e).

(** [whole] has come to [part]: the events so far satisfy [P], and
    [whole] ends the way [part] does. *)
Definition reaches {A} (P : Event -> bool) (whole part : Run A) : Prop :=
  exists t, forallb P t = true
            /\ events whole = (t ++ events part)%list
            /\ outcome whole = outcome part.

End Sh.

Declare Scope sh_scope.
Delimit Scope sh_scope with sh.
Notation "x <- m ;; k" := (Sh.bind m (fun x => k))
  (at level 61, m at next level, right associativity) : sh_scope.
Notation "m ;; k" := (Sh.bind m (fun _ => k))
  (at level 61, right associativity) : sh_scope.
Open Scope sh_scope.

Module Script.

Import Sh.

(** A simple command under [set -e]: a non-zero status ends the script
    with that status. *)
Definition run (c : Cmd) : M unit :=
  r <- exec c ;;
  if succeeded r then ret tt else exit (rc r).

(** [VAR=$(cmd)] under [set -e]. *)
Definition capture (c : Cmd) : M string :=
  r <- exec c ;;
  if succeeded r then ret (Str.chomp (out r)) else exit (rc r).

(** [cmd || true]. *)
Definition run_or_true (c : Cmd) : M unit :=
  _ <- exec c ;; ret tt.

(** [VAR=$(cmd || echo fallback)]: the output of [cmd], followed by
    the fallback line when [cmd] fails. *)
Definition or_output (r : Result) (fallback : string) : string :=
  Str.chomp (if succeeded r then out r else out r ++ fallback ++ Str.nl).

Definition capture_or (c : Cmd) (fallback : string) : M string :=
  r <- exec c ;;
  ret (or_output r fallback).

(** [[ -z s ]] and [[ -n s ]]. *)
Definition test_z (s : string) : bool := Str.is_empty s.
Definition test_n (s : string) : bool := negb (Str.is_empty s).

(** *** Steps shared by deploy.sh and deploy-no-docker.sh *)

(** [ENVIRONMENT=${1:-preview-$(whoami)}]; [arg1] is [None] when the
    script has no first argument. *)
Definition resolve_environment (arg1 : option string) : M string :=
  if Str.truthy arg1 then ret (Str.or_else arg1 "")
  else (user <- capture Whoami ;; ret ("preview-" ++ user)).

(** [REGION=${AWS_REGION:-us-east-1}]. *)
Definition resolve_region (aws_region : option string) : string :=
  Str.or_else aws_region "us-east-1".

Definition stack_name (environment : string) : string :=
  "FastApiRunner-" ++ environment.

Definition check_aws_cli : M unit :=
  r <- exec StsGetCallerIdentity ;;
  if negb (succeeded r) then
    echo "AWS CLI not configured. Run 'aws configure --profile my-profile' first." ;;
    exit 1
  else ret tt.

Definition check_docker : M unit :=
  r <- exec DockerInfo ;;
  if negb (succeeded r) then
    echo "Docker is not running. Please start Docker first." ;;
    exit 1
  else ret tt.

Definition install_cdk : M unit :=
  r <- exec (CommandV "cdk") ;;
  if negb (succeeded r) then
    echo "Installing AWS CDK..." ;;
    run (NpmInstallGlobal "aws-cdk")
  else ret tt.

Definition install_dependencies : M unit :=
  run (Cd "infra") ;;
  run NpmInstall ;;
  run NpmRunBuild.

(** The value of [STACK_EXISTS]. *)
Definition probe (stack region : string) : M string :=
  capture_or (DescribeStacks stack region) "NONE".

(** The test of the first-deployment [if]. *)
Definition first_deployment (stack_exists : string) : bool :=
  Str.contains "does not exist" stack_exists
  || String.eqb stack_exists "NONE".

Definition bootstrap_deploy (environment : string) : Cmd :=
  CdkDeploy environment (Some "false").

Definition full_deploy (environment : string) : Cmd :=
  CdkDeploy environment None.

Definition probe_and_bootstrap (environment region : string) : M unit :=
  stack_exists <- probe (stack_name environment) region ;;
  if first_deployment stack_exists then
    echo "First deployment detected - Creating ECR repository..." ;;
    run (bootstrap_deploy environment)
  else ret tt.

Definition fetch_repository_uri (environment region : string) : M string :=
  repository_uri <-
    capture (DescribeStackOutput (stack_name environment) "RepositoryUri" region) ;;
  if String.eqb repository_uri "None" || test_z repository_uri then
    echo "Error: Could not retrieve ECR repository URI" ;;
    exit 1
  else
    echo ("ECR Repository: " ++ repository_uri) ;;
    ret repository_uri.

Definition usage (script : string) : M unit :=
  echo "" ;;
  echo "Usage examples:" ;;
  echo ("  ./scripts/" ++ script ++ "                  # Deploy to preview-$(whoami)") ;;
  echo ("  ./scripts/" ++ script ++ " dev              # Deploy to dev") ;;
  echo ("  ./scripts/" ++ script ++ " prod             # Deploy to production").

(** From [# Get service URL] to the end of the script. *)
Definition report (script environment region : string) : M unit :=
  service_url <-
    capture_or (DescribeStackOutput (stack_name environment) "ServiceUrl" region) "" ;;
  echo "" ;;
  echo "Deployment complete!" ;;
  (if test_n service_url && negb (String.eqb service_url "None") then
     echo ("Service URL: " ++ service_url) ;;
     echo "" ;;
     echo "App Runner will automatically deploy the new image in ~2-5 minutes" ;;
     echo "" ;;
     echo "To test the service once deployed:" ;;
     echo ("  curl " ++ service_url ++ "/health")
   else
     echo "Note: Service URL not available yet. Check AWS Console for status.") ;;
  usage script.

(** *** scripts/deploy.sh (variant A) *)

(** From the first line to [cdk bootstrap]; the value of [ENVIRONMENT]. *)
Definition prepare (arg1 : option string) : M string :=
  environment <- resolve_environment arg1 ;;
  echo ("Deploying FastAPI sample to App Runner - Environment: " ++ environment) ;;
  check_aws_cli ;;
  check_docker ;;
  install_cdk ;;
  install_dependencies ;;
  echo "Bootstrapping CDK..." ;;
  run CdkBootstrap ;;
  ret environment.

(** [# Build and push Docker image]. *)
Definition build_and_push (region repository_uri : string) : M unit :=
  run (Cd "../app") ;;
  echo "Building Docker image..." ;;
  run (DockerBuild "fastapi-sample:latest") ;;
  echo "Logging in to ECR..." ;;
  _ <- exec (EcrGetLoginPassword region) ;;
  run (DockerLogin repository_uri) ;;
  echo "Tagging image..." ;;
  run (DockerTag "fastapi-sample:latest" (repository_uri ++ ":latest")) ;;
  echo "Pushing image to ECR..." ;;
  run (DockerPush (repository_uri ++ ":latest")).

Definition deploy_stack (dir banner environment : string) : M unit :=
  run (Cd dir) ;;
  echo banner ;;
  run (full_deploy environment).

Definition deploy (arg1 aws_region : option string) : M unit :=
  let region := resolve_region aws_region in
  environment <- prepare arg1 ;;
  probe_and_bootstrap environment region ;;
  repository_uri <- fetch_repository_uri environment region ;;
  build_and_push region repository_uri ;;
  deploy_stack "../infra" "Deploying CDK stack..." environment ;;
  report "deploy.sh" environment region.

(** *** scripts/deploy-no-docker.sh (variant B) *)

Definition prepare_no_docker (arg1 : option string) : M string :=
  environment <- resolve_environment arg1 ;;
  echo ("Deploying FastAPI sample to App Runner (without local Docker) - Environment: "
          ++ environment) ;;
  check_aws_cli ;;
  install_cdk ;;
  install_dependencies ;;
  echo "Checking CDK bootstrap..." ;;
  run_or_true CdkBootstrap ;;
  ret environment.

(** [# Create a zip file of the app directory for CodeBuild]; the
    value of [TEMP_DIR]. The bodies of the here-documents are left out. *)
Definition package_source : M string :=
  run (Cd "..") ;;
  echo "Preparing source code for CodeBuild..." ;;
  temp_dir <- capture Mktemp ;;
  run (Cp "app" (temp_dir ++ "/")) ;;
  run_or_true (Cp "infra" (temp_dir ++ "/")) ;;
  run (Cd temp_dir) ;;
  run (WriteFile "buildspec.yml") ;;
  run (Zip "source.zip") ;;
  ret temp_dir.

(** [# Create IAM role for CodeBuild]; the value of [ROLE_ARN]. *)
Definition codebuild_role (project_name : string) : M string :=
  run (WriteFile "/tmp/codebuild-role-policy.json") ;;
  let role_name := "codebuild-" ++ project_name ++ "-role" in
  role_arn <- capture_or (IamGetRole role_name) "" ;;
  if test_z role_arn || String.eqb role_arn "None" then
    echo "Creating IAM role for CodeBuild..." ;;
    run_or_true (IamCreateRole role_name) ;;
    run (IamAttachRolePolicy role_name
           "arn:aws:iam::aws:policy/CloudWatchLogsFullAccess") ;;
    run (IamAttachRolePolicy role_name
           "arn:aws:iam::aws:policy/AmazonEC2ContainerRegistryPowerUser") ;;
    sleep 5 ;;
    capture (IamGetRole role_name)
  else ret role_arn.

(** [# Create CodeBuild project if it doesn't exist]. *)
Definition ensure_project (environment region repository_uri project_name : string)
    : M unit :=
  project_exists <- capture_or (ListProjects project_name region) "" ;;
  if test_z project_exists then
    echo "Creating CodeBuild project..." ;;
    _ <- capture (Cut repository_uri 2) ;;
    role_arn <- codebuild_role project_name ;;
    run (WriteFile "/tmp/codebuild-project.json") ;;
    seconds <- capture DateSeconds ;;
    let bucket_name := "codebuild-source-" ++ environment ++ "-" ++ seconds in
    run_or_true (S3Mb bucket_name region) ;;
    run (S3Cp "source.zip" ("s3://" ++ bucket_name ++ "/source.zip")) ;;
    r <- exec (CreateProject project_name (bucket_name ++ "/source.zip")
                 role_arn region) ;;
    if succeeded r then ret tt else echo "Project may already exist"
  else ret tt.

(** [# Upload updated source]. *)
Definition upload_source (region project_name : string) : M unit :=
  r <- exec (BatchGetProjects project_name region) ;;
  bucket_name <- capture (Cut (out r) 3) ;;
  if test_n bucket_name && negb (String.eqb bucket_name "None") then
    run (S3Cp "source.zip" ("s3://" ++ bucket_name ++ "/source.zip")) ;;
    run (S3Cp "buildspec.yml" ("s3://" ++ bucket_name ++ "/buildspec.yml"))
  else ret tt.

(** [# Start build]; the value of [BUILD_ID]. *)
Definition start_build (region repository_uri project_name : string) : M string :=
  echo "Starting CodeBuild..." ;;
  build_id <- capture (StartBuild project_name repository_uri region) ;;
  echo ("Build started: " ++ build_id) ;;
  echo "Waiting for build to complete (this may take 5-10 minutes)..." ;;
  ret build_id.

(** The statuses of the [elif] of the polling loop. *)
Definition build_failed (build_status : string) : bool :=
  String.eqb build_status "FAILED"
  || String.eqb build_status "FAULT"
  || String.eqb build_status "TIMED_OUT"
  || String.eqb build_status "STOPPED".

Inductive Control := Break | Continue.

(** The body of [while true; do ... done]. *)
Definition poll_iteration (region project_name build_id : string) : M Control :=
  build_status <- capture (BatchGetBuilds build_id region) ;;
  if String.eqb build_status "SUCCEEDED" then
    echo "Build completed successfully!" ;;
    ret Break
  else if build_failed build_status then
    echo ("Build failed with status: " ++ build_status) ;;
    echo ("Check logs at: https://" ++ region
            ++ ".console.aws.amazon.com/codesuite/codebuild/projects/"
            ++ project_name ++ "/build/" ++ build_id) ;;
    exit 1
  else
    echo ("Build status: " ++ build_status ++ " (waiting...)") ;;
    sleep 10 ;;
    ret Continue.

(** [while true]: the loop itself has no bound; [fuel] only bounds how
    many iterations the model unfolds, and running out of it is [Spin]. *)
Fixpoint poll_loop (fuel : nat) (region project_name build_id : string) : M unit :=
  match fuel with
  | O => spin
  | S fuel' =>
      c <- poll_iteration region project_name build_id ;;
      match c with
      | Break => ret tt
      | Continue => poll_loop fuel' region project_name build_id
      end
  end.

Definition cleanup (temp_dir : string) : M unit :=
  run (Cd "..") ;;
  run (RmRf temp_dir).

Definition deploy_no_docker (fuel : nat) (arg1 aws_region : option string) : M unit :=
  let region := resolve_region aws_region in
  environment <- prepare_no_docker arg1 ;;
  probe_and_bootstrap environment region ;;
  repository_uri <- fetch_repository_uri environment region ;;
  temp_dir <- package_source ;;
  echo "Starting CodeBuild to build and push Docker image..." ;;
  let project_name := "fastapi-build-" ++ environment in
  ensure_project environment region repository_uri project_name ;;
  upload_source region project_name ;;
  build_id <- start_build region repository_uri project_name ;;
  poll_loop fuel region project_name build_id ;;
  cleanup temp_dir ;;
  deploy_stack "infra" "Deploying CDK stack with App Runner service..." environment ;;
  report "deploy-no-docker.sh" environment region.

(** The two scripts as one workflow. *)
Inductive Variant :=
| LocalBuild
| RemoteBuild (fuel : nat).

Definition workflow (v : Variant) (arg1 aws_region : option string) : M unit :=
  match v with
  | LocalBuild => deploy arg1 aws_region
  | RemoteBuild fuel => deploy_no_docker fuel arg1 aws_region
  end.

(** *** Observations on a run *)

(** The statuses on which the body of the polling loop leaves the loop:
    the [if] that breaks and the [elif] that exits. *)
Definition terminal (build_status : string) : bool :=
  String.eqb build_status "SUCCEEDED" || build_failed build_status.

(** What one waiting iteration emits for the answer [r]. *)
Definition waiting (region build_id : string) (r : Result) : list Event :=
  [ Ran (BatchGetBuilds build_id region) r;
    Echo ("Build status: " ++ Str.chomp (out r) ++ " (waiting...)");
    Sleep 10 ].

(** The lines the script prints from [Deployment complete!] on when
    the service URL is not available. *)
Definition not_available_report (script : string) : list Event :=
  [ Echo "";
    Echo "Deployment complete!";
    Echo "Note: Service URL not available yet. Check AWS Console for status.";
    Echo "";
    Echo "Usage examples:";
    Echo ("  ./scripts/" ++ script ++ "                  # Deploy to preview-$(whoami)");
    Echo ("  ./scripts/" ++ script ++ " dev              # Deploy to dev");
    Echo ("  ./scripts/" ++ script ++ " prod             # Deploy to production") ].

Definition script_name (v : Variant) : string :=
  match v with
  | LocalBuild => "deploy.sh"
  | RemoteBuild _ => "deploy-no-docker.sh"
  end.

(** The exit status of the process, [None] while it is still polling. *)
Definition exit_code {A} (r : Run A) : option nat :=
  match outcome r with
  | Ret _ => Some 0
  | Exit c => Some c
  | Spin => None
  end.

Definition start {A} (m : M A) (w : World) : Run A := m w 0.

Definition is_probe (e : Event) : bool :=
  match e with Ran (DescribeStacks _ _) _ => true | _ => false end.

Definition is_bootstrap (e : Event) : bool :=
  match e with
  | Ran (CdkDeploy _ (Some v)) _ => String.eqb v "false"
  | _ => false
  end.

Definition is_full_deploy (e : Event) : bool :=
  match e with Ran (CdkDeploy _ None) _ => true | _ => false end.

Definition is_output_query (key : string) (e : Event) : bool :=
  match e with
  | Ran (DescribeStackOutput _ k _) _ => String.eqb k key
  | _ => false
  end.

Definition is_status_query (e : Event) : bool :=
  match e with Ran (BatchGetBuilds _ _) _ => true | _ => false end.

(** Image build and push steps of either variant. *)
Definition is_publish (e : Event) : bool :=
  match e with
  | Ran (DockerBuild _) _ | Ran (DockerLogin _) _ | Ran (EcrGetLoginPassword _) _
  | Ran (DockerTag _ _) _ | Ran (DockerPush _) _
  | Ran (CreateProject _ _ _ _) _ | Ran (StartBuild _ _ _) _
  | Ran (BatchGetBuilds _ _) _ | Ran (S3Cp _ _) _ | Ran (Zip _) _ => true
  | _ => false
  end.

Definition is_sleep (e : Event) : bool :=
  match e with Sleep _ => true | _ => false end.

(** The text a [$(...)] around the command would have produced. *)
Definition captured (r : Result) : string := Str.chomp (out r).

Definition ok (text : string) : Result :=
  {| rc := 0; out := text ++ Str.nl |}.

Definition failed (code : nat) (text : string) : Result :=
  {| rc := code; out := text |}.

End Script.

(* ================================================================= *)
(** ** Concrete inputs used by the examples below *)

Module Sample.

Import Sh Script.

(** A world that answers from a list, then with [d] for ever. *)
Definition world_of (answers : list Result) (d : Result) : World :=
  fun k => nth k answers d.

(** No context beyond the command line, no [USER], [whoami] failing. *)
Definition bare : App.Inputs :=
  {| App.context := []; App.env := []; App.whoami := None |}.

Definition alice : App.Inputs :=
  {| App.context := [ ("environment", "preview-alice") ];
     App.env := [ ("USER", "alice") ];
     App.whoami := Some ("alice" ++ Str.nl) |}.

(** The build never leaves IN_PROGRESS. *)
Definition in_progress : World := fun _ => ok "IN_PROGRESS".

Definition answers (statuses : list string) : World :=
  world_of (map ok statuses) (ok "IN_PROGRESS").

(** Every command succeeds and prints [text], but the one at
    [position], which answers [r]. *)
Definition all_but (text : string) (position : nat) (r : Result) : World :=
  fun k => if Nat.eqb k position then r else ok text.

(** deploy.sh dev, the stack not there yet: the probe is the eighth
    command and fails with the CloudFormation validation error. *)
Definition first_deploy : World :=
  all_but "x" 7
    (failed 254
       ("An error occurred (ValidationError) when calling the DescribeStacks operation: Stack with id FastApiRunner-dev does not exist"
          ++ Str.nl)).

(** deploy.sh dev, the stack there without a RepositoryUri output. *)
Definition no_registry : World := all_but "x" 8 (ok "None").

(** deploy.sh dev, all well but the service URL is not there yet. *)
Definition no_endpoint : World := all_but "x" 17 (ok "None").

(** deploy-no-docker.sh dev, the build fails at the first query. *)
Definition failed_build : World := fun _ => ok "FAILED".

(** No first argument and [whoami] failing. *)
Definition no_identity : World :=
  fun _ => failed 1 "whoami: cannot find name for user ID 1001".

Definition props (create : option bool) (arn : option string)
    : Stack.AppRunnerStackProps :=
  {| Stack.env_account := None;
     Stack.env_region := "us-east-1";
     Stack.stack_description := None;
     Stack.environment := "preview-alice";
     Stack.cpu := None;
     Stack.memory := None;
     Stack.port := None;
     Stack.environmentVariables := None;
     Stack.secretsArn := arn;
     Stack.createService := create |}.

End Sample.

(* ================================================================= *)
(** ** More observations on runs *)

Module Obs.

Import Sh Script.

Definition is_command (e : Event) : bool :=
  match e with Ran _ _ => true | _ => false end.

Definition is_identity_check (e : Event) : bool :=
  match e with Ran StsGetCallerIdentity _ => true | _ => false end.

Definition is_docker_check (e : Event) : bool :=
  match e with Ran DockerInfo _ => true | _ => false end.

(** What a run may hold when it stops at the identity check. *)
Definition before_identity_message (e : Event) : bool :=
  match e with
  | Ran Whoami _ | Ran StsGetCallerIdentity _ | Echo _ => true
  | _ => false
  end.

(** What a run of deploy.sh may hold when it stops at the Docker check. *)
Definition before_docker_message (e : Event) : bool :=
  match e with
  | Ran Whoami _ | Ran StsGetCallerIdentity _ | Ran DockerInfo _ | Echo _ => true
  | _ => false
  end.

(** Commands that need the local Docker daemon. *)
Definition is_docker (e : Event) : bool :=
  match e with
  | Ran DockerInfo _ | Ran (DockerBuild _) _ | Ran (DockerLogin _) _
  | Ran (DockerTag _ _) _ | Ran (DockerPush _) _ => true
  | _ => false
  end.

(** Commands of the CodeBuild path: packaging, IAM, S3, CodeBuild. *)
Definition is_remote_build (e : Event) : bool :=
  match e with
  | Ran Mktemp _ | Ran (Cp _ _) _ | Ran (WriteFile _) _ | Ran (Zip _) _
  | Ran (ListProjects _ _) _ | Ran (Cut _ _) _ | Ran (IamGetRole _) _
  | Ran (IamCreateRole _) _ | Ran (IamAttachRolePolicy _ _) _
  | Ran DateSeconds _ | Ran (S3Mb _ _) _ | Ran (S3Cp _ _) _
  | Ran (CreateProject _ _ _ _) _ | Ran (BatchGetProjects _ _) _
  | Ran (StartBuild _ _ _) _ | Ran (BatchGetBuilds _ _) _
  | Ran (RmRf _) _ => true
  | _ => false
  end.

Definition is_cdk_bootstrap (e : Event) : bool :=
  match e with Ran CdkBootstrap _ => true | _ => false end.

Definition is_push (e : Event) : bool :=
  match e with Ran (DockerPush _) _ => true | _ => false end.

Definition is_list_projects (e : Event) : bool :=
  match e with Ran (ListProjects _ _) _ => true | _ => false end.

(** Commands that only the creation of the CodeBuild project runs. *)
Definition is_project_setup (e : Event) : bool :=
  match e with
  | Ran (IamGetRole _) _ | Ran (IamCreateRole _) _
  | Ran (IamAttachRolePolicy _ _) _ | Ran DateSeconds _ | Ran (S3Mb _ _) _
  | Ran (CreateProject _ _ _ _) _ => true
  | _ => false
  end.

(** The lines of the two preflight checks. *)
Definition identity_message : string :=
  "AWS CLI not configured. Run 'aws configure --profile my-profile' first.".

Definition docker_message : string :=
  "Docker is not running. Please start Docker first.".

(** A fragment emits at most [c] events that [Q] accepts. *)
Definition atmost {A} (Q : Event -> bool) (c : nat) (m : M A) : Prop :=
  forall w n, length (filter Q (events (m w n))) <= c.

(** The event names nothing but the environment, its stack, its
    CodeBuild project and the region. The arguments compared are the
    values of the variables as the script writes them, [$STACK_NAME],
    [$REGION] and so on; [Expansion.unquoted] gives the words a tool
    receives for such a value. *)
Definition targets (environment region : string) (e : Event) : bool :=
  match e with
  | Ran (CdkDeploy e' _) _ => String.eqb e' environment
  | Ran (DescribeStacks s g) _ | Ran (DescribeStackOutput s _ g) _ =>
      String.eqb s ("FastApiRunner-" ++ environment) && String.eqb g region
  | Ran (ListProjects p g) _ | Ran (BatchGetProjects p g) _
  | Ran (StartBuild p _ g) _ | Ran (CreateProject p _ _ g) _ =>
      String.eqb p ("fastapi-build-" ++ environment) && String.eqb g region
  | Ran (BatchGetBuilds _ g) _ | Ran (EcrGetLoginPassword g) _
  | Ran (S3Mb _ g) _ => String.eqb g region
  | _ => true
  end.

(** The events of a run satisfy [P] and the value it returns, if any,
    satisfies [R]. *)
Definition holds {A} (P : Event -> bool) (R : A -> Prop) (r : Run A) : Prop :=
  forallb P (events r) = true /\ forall a, outcome r = Ret a -> R a.

(** A fragment never ends the script with status 0. *)
Definition exits_nonzero {A} (m : M A) : Prop :=
  forall w n c, outcome (m w n) = Exit c -> c <> 0.

(** A run ended by falling off the end of the script. *)
Definition completed {A} (r : Run A) : Prop :=
  exists a, outcome r = Ret a.

End Obs.

(* ================================================================= *)
(** ** More observations on stacks *)

Module StackObs.

Import Stack.

(** The secrets the role with the given construct id may read. *)
Definition roleSecrets (id : string) (s : AppRunnerStack) : list string :=
  flat_map (fun r => match r with
                     | Role i p => if String.eqb i id then readableSecrets p else []
                     | _ => []
                     end) (resources s).

(** The export names of all the App Runner stacks of an app. *)
Definition exportNames (stacks : list AppRunnerStack) : list string :=
  flat_map (fun s => map exportName (outputs s)) stacks.

Definition has_service (s : AppRunnerStack) : bool :=
  existsb is_service (resources s).

Definition is_some {A} (o : option A) : bool :=
  match o with Some _ => true | None => false end.

End StackObs.

(* ================================================================= *)
(** ** infra/lib/shared-constructs.ts and infra/lib/pipeline-stack.ts *)

Module Pipeline.

(** [iam.PolicyStatement]. *)
Record PolicyStatement := {
  effect : string;
  actions : list string;
  statement_resources : list string
}.

(** [CodeBuildRoleProps]; a flag that is left out is [None]. *)
Record CodeBuildRoleProps := {
  allowSecretsManager : option bool;
  allowS3Artifacts : option bool;
  allowCloudFormation : option bool;
  allowCdkBootstrap : option bool;
  allowECR : option bool;
  allowAppRunner : option bool;
  additionalPolicies : option (list PolicyStatement)
}.

Record CodeBuildRole := {
  role_id : string;
  role_assumedBy : string;
  role_description : string;
  statements : list PolicyStatement
}.

Definition allow (acts : list string) : PolicyStatement :=
  {| effect := "Allow"; actions := acts; statement_resources := ["*"] |}.

Definition secretsManagerAccess : PolicyStatement :=
  allow [ "secretsmanager:GetSecretValue"; "secretsmanager:DescribeSecret" ].

Definition s3ArtifactsAccess : PolicyStatement :=
  allow [ "s3:GetObject"; "s3:PutObject"; "s3:ListBucket";
          "s3:GetBucketLocation" ].

Definition cloudFormationAccess : PolicyStatement :=
  allow [ "cloudformation:DescribeStacks"; "cloudformation:DescribeStackEvents";
          "cloudformation:DescribeStackResources"; "cloudformation:GetTemplate";
          "cloudformation:CreateStack"; "cloudformation:UpdateStack";
          "cloudformation:DeleteStack"; "cloudformation:CreateChangeSet";
          "cloudformation:ExecuteChangeSet"; "cloudformation:DescribeChangeSet" ].

Definition cdkBootstrapAccess : PolicyStatement :=
  allow [ "cloudformation:*"; "s3:*"; "iam:PassRole"; "iam:GetRole";
          "iam:CreateRole"; "iam:AttachRolePolicy"; "iam:PutRolePolicy";
          "ssm:GetParameter"; "ssm:PutParameter" ].

Definition ecrAccess : PolicyStatement :=
  allow [ "ecr:GetAuthorizationToken"; "ecr:BatchCheckLayerAvailability";
          "ecr:GetDownloadUrlForLayer"; "ecr:BatchGetImage"; "ecr:PutImage";
          "ecr:InitiateLayerUpload"; "ecr:UploadLayerPart";
          "ecr:CompleteLayerUpload" ].

Definition appRunnerAccess : PolicyStatement :=
  allow [ "apprunner:CreateService"; "apprunner:UpdateService";
          "apprunner:DescribeService"; "apprunner:ListServices";
          "apprunner:ListOperations" ].

Definition flag (o : option bool) : bool :=
  match o with Some b => b | None => false end.

(** One [if (allowX) this.role.addToPolicy(...)]. *)
Definition when (o : option bool) (st : PolicyStatement) : list PolicyStatement :=
  if flag o then [st] else [].

(** The statements the flags add, in the order of the constructor. *)
Definition granted (props : CodeBuildRoleProps) : list PolicyStatement :=
  when (allowSecretsManager props) secretsManagerAccess
  ++ when (allowS3Artifacts props) s3ArtifactsAccess
  ++ when (allowCloudFormation props) cloudFormationAccess
  ++ when (allowCdkBootstrap props) cdkBootstrapAccess
  ++ when (allowECR props) ecrAccess
  ++ when (allowAppRunner props) appRunnerAccess.

(** [new CodeBuildRole(scope, id, props)]. *)
Definition newCodeBuildRole (id : string) (props : CodeBuildRoleProps)
    : CodeBuildRole :=
  {| role_id := id;
     role_assumedBy := "codebuild.amazonaws.com";
     role_description := "CodeBuild role for " ++ id;
     statements :=
       granted props
       ++ match additionalPolicies props with
          | Some l => l
          | None => []
          end |}.

Definition noProps : CodeBuildRoleProps :=
  {| allowSecretsManager := None; allowS3Artifacts := None;
     allowCloudFormation := None; allowCdkBootstrap := None;
     allowECR := None; allowAppRunner := None; additionalPolicies := None |}.

(** The three roles of [PipelineStack]. *)
Definition qualityRole : CodeBuildRole :=
  newCodeBuildRole "QualityRole"
    {| allowSecretsManager := Some true; allowS3Artifacts := Some true;
       allowCloudFormation := None; allowCdkBootstrap := None;
       allowECR := None; allowAppRunner := None; additionalPolicies := None |}.

Definition buildRole : CodeBuildRole :=
  newCodeBuildRole "BuildRole"
    {| allowSecretsManager := Some true; allowS3Artifacts := Some true;
       allowCloudFormation := Some true; allowCdkBootstrap := Some true;
       allowECR := Some true; allowAppRunner := None;
       additionalPolicies := None |}.

Definition deployRole : CodeBuildRole :=
  newCodeBuildRole "DeployRole"
    {| allowSecretsManager := Some true; allowS3Artifacts := Some true;
       allowCloudFormation := Some true; allowCdkBootstrap := Some true;
       allowECR := Some true; allowAppRunner := Some true;
       additionalPolicies := None |}.

(** [String.prototype.split] on the separator [/]. *)
Definition slash : ascii := ascii_of_nat 47.

Fixpoint split (s : string) : list string :=
  match s with
  | EmptyString => [EmptyString]
  | String c rest =>
      if Ascii.eqb c slash then EmptyString :: split rest
      else match split rest with
           | piece :: pieces => String c piece :: pieces
           | [] => [String c EmptyString]
           end
  end.

(** [const [owner, repo] = props.repositoryName.split("/")]: a missing
    element is [undefined]. *)
Definition owner (repositoryName : string) : option string :=
  nth_error (split repositoryName) 0.
Definition repo (repositoryName : string) : option string :=
  nth_error (split repositoryName) 1.

Record Project := {
  projectName : string;
  project_role : string;
  computeType : string;
  privileged : bool;
  buildSpec : string;
  project_environment : list (string * string)
}.

Inductive Action :=
| SourceAction (actionName : string) (owner repo : option string)
    (branch connectionArn output : string) (triggerOnPush : bool)
| CodeBuildAction (actionName : string) (project : Project) (input : string)
    (extraInputs outputs : list string)
    (environmentVariables : list (string * string)) (runOrder : option nat)
| ManualApprovalAction (actionName additionalInformation : string).

Record Stage := { stageName : string; stage_actions : list Action }.

Definition project (name role compute : string) (priv : bool) (spec : string)
    (vars : list (string * string)) : Project :=
  {| projectName := name; project_role := role; computeType := compute;
     privileged := priv; buildSpec := spec; project_environment := vars |}.

Definition regionAndAccount : list (string * string) :=
  [ ("AWS_DEFAULT_REGION", Stack.attr "AWS" "Region");
    ("AWS_ACCOUNT_ID", Stack.attr "AWS" "AccountId") ].

Definition updatePipelineProject (p : App.PipelineStackProps) : Project :=
  project "FastAPISample-UpdatePipeline" "DeployRole" "SMALL" false
    "buildspecs/update_pipeline.yml"
    [ ("CODE_CONNECTION_ARN", App.pipeline_codeConnectionArn p);
      ("REPOSITORY_NAME", App.pipeline_repositoryName p);
      ("BRANCH_NAME", App.pipeline_branchName p) ].
Definition lintTypeSecretsProject : Project :=
  project "FastAPISample-LintTypeSecrets" "QualityRole" "SMALL" false
    "buildspecs/lint_type_secrets.yml" [].
Definition unitTestsProject : Project :=
  project "FastAPISample-UnitTests" "QualityRole" "SMALL" false
    "buildspecs/unit_tests.yml" [].
Definition depScanProject : Project :=
  project "FastAPISample-DepScan" "QualityRole" "SMALL" false
    "buildspecs/dep_scan.yml" [].
Definition dockerBuildProject : Project :=
  project "FastAPISample-DockerBuild" "BuildRole" "MEDIUM" true
    "buildspecs/docker_build.yml" regionAndAccount.
Definition iacSynthProject : Project :=
  project "FastAPISample-IacSynth" "BuildRole" "SMALL" false
    "buildspecs/iac_synth.yml" [].
Definition deployAppRunnerProject : Project :=
  project "FastAPISample-DeployAppRunner" "DeployRole" "SMALL" false
    "buildspecs/deploy_apprunner.yml" regionAndAccount.

(** The [stages] array of the constructor. *)
Definition stages (p : App.PipelineStackProps) : list Stage :=
  [ {| stageName := "Source";
       stage_actions :=
         [ SourceAction "Source"
             (owner (App.pipeline_repositoryName p))
             (repo (App.pipeline_repositoryName p))
             (App.pipeline_branchName p) (App.pipeline_codeConnectionArn p)
             "SourceOutput" true ] |};
    {| stageName := "UpdatePipeline";
       stage_actions :=
         [ CodeBuildAction "UpdatePipeline" (updatePipelineProject p)
             "SourceOutput" [] [] [] None ] |};
    {| stageName := "Quality";
       stage_actions :=
         [ CodeBuildAction "LintTypeSecrets" lintTypeSecretsProject
             "SourceOutput" [] ["LintTypeSecretsOutput"] [] None;
           CodeBuildAction "UnitTests" unitTestsProject
             "SourceOutput" [] ["UnitTestsOutput"] [] None;
           CodeBuildAction "DepScan" depScanProject
             "SourceOutput" [] ["DepScanOutput"] [] None ] |};
    {| stageName := "Build";
       stage_actions :=
         [ CodeBuildAction "DockerBuild" dockerBuildProject
             "SourceOutput" [] ["DockerImageOutput"] [] None;
           CodeBuildAction "IacSynth" iacSynthProject
             "SourceOutput" [] ["IacSynthOutput"] [] None ] |};
    {| stageName := "DeployDev";
       stage_actions :=
         [ CodeBuildAction "DeployAppRunnerDev" deployAppRunnerProject
             "SourceOutput" ["DockerImageOutput"; "IacSynthOutput"]
             ["AppRunnerDeployDev"] [("ENVIRONMENT", "dev")] (Some 1) ] |};
    {| stageName := "ManualApproval";
       stage_actions :=
         [ ManualApprovalAction "ApproveProductionDeployment"
             "Review dev deployment and approve production deployment" ] |};
    {| stageName := "DeployProd";
       stage_actions :=
         [ CodeBuildAction "DeployAppRunnerProd" deployAppRunnerProject
             "SourceOutput" ["DockerImageOutput"; "IacSynthOutput"]
             ["AppRunnerDeployProd"] [("ENVIRONMENT", "prod")] (Some 1) ] |} ].

(** Observations. *)

Definition reads (a : Action) : list string :=
  match a with
  | CodeBuildAction _ _ input extraInputs _ _ _ => input :: extraInputs
  | _ => []
  end.

Definition writes (a : Action) : list string :=
  match a with
  | SourceAction _ _ _ _ _ output _ => [output]
  | CodeBuildAction _ _ _ _ outputs _ _ => outputs
  | ManualApprovalAction _ _ => []
  end.

Definition mem (x : string) (l : list string) : bool :=
  existsb (String.eqb x) l.

(** Each stage reads only what the stages before it have written. *)
Fixpoint fed (available : list string) (l : list Stage) : bool :=
  match l with
  | [] => true
  | st :: rest =>
      forallb (fun a => forallb (fun x => mem x available) (reads a))
              (stage_actions st)
      && fed (available ++ flat_map writes (stage_actions st)) rest
  end.

Definition targetEnvironment (a : Action) : option string :=
  match a with
  | CodeBuildAction _ _ _ _ _ vars _ => Str.lookup "ENVIRONMENT" vars
  | _ => None
  end.

Definition is_approval (a : Action) : bool :=
  match a with ManualApprovalAction _ _ => true | _ => false end.

(** Every action that deploys to prod comes after a stage with a manual
    approval. *)
Fixpoint gated (approved : bool) (l : list Stage) : bool :=
  match l with
  | [] => true
  | st :: rest =>
      forallb (fun a => match targetEnvironment a with
                        | Some e => negb (String.eqb e "prod") || approved
                        | None => true
                        end) (stage_actions st)
      && gated (approved || existsb is_approval (stage_actions st)) rest
  end.

Definition all_actions (r : CodeBuildRole) : list string :=
  flat_map actions (statements r).

Definition flags_le (p q : CodeBuildRoleProps) : Prop :=
  (flag (allowSecretsManager p) = true -> flag (allowSecretsManager q) = true)
  /\ (flag (allowS3Artifacts p) = true -> flag (allowS3Artifacts q) = true)
  /\ (flag (allowCloudFormation p) = true -> flag (allowCloudFormation q) = true)
  /\ (flag (allowCdkBootstrap p) = true -> flag (allowCdkBootstrap q) = true)
  /\ (flag (allowECR p) = true -> flag (allowECR q) = true)
  /\ (flag (allowAppRunner p) = true -> flag (allowAppRunner q) = true).

Definition flags_set (p : CodeBuildRoleProps) : nat :=
  length (filter flag [ allowSecretsManager p; allowS3Artifacts p;
                        allowCloudFormation p; allowCdkBootstrap p;
                        allowECR p; allowAppRunner p ]).

End Pipeline.

Module PipelineObs.

Import Pipeline.

Fixpoint no_slash (s : string) : bool :=
  match s with
  | EmptyString => true
  | String c rest => negb (Ascii.eqb c slash) && no_slash rest
  end.

(** [Array.prototype.join] with the separator [/]. *)
Definition join (pieces : list string) : string := String.concat "/" pieces.

Definition sourceOwnerRepo (a : Action) : option (option string * option string) :=
  match a with
  | SourceAction _ o r _ _ _ _ => Some (o, r)
  | _ => None
  end.

End PipelineObs.

(* ================================================================= *)
(** ** More concrete worlds *)

Module Scenario.

Import Sh Script.

(** Every command succeeds and prints SUCCEEDED. *)
Definition all_succeeded : World := fun _ => ok "SUCCEEDED".

(** Every command fails. *)
Definition nothing_works : World := fun _ => failed 255 "denied".

(** deploy.sh dev with the Docker daemon down. *)
Definition no_docker_daemon : World := Sample.all_but "x" 1 (failed 1 "").

(** [cdk bootstrap] fails: the seventh command of deploy.sh dev, the
    sixth of deploy-no-docker.sh dev. *)
Definition bootstrap_fails (position : nat) : World :=
  Sample.all_but "x" position (failed 1 "bootstrap failed").

(** deploy-no-docker.sh dev, the first status query fails. *)
Definition status_query_fails : World :=
  Sample.all_but "SUCCEEDED" 21 (failed 255 "timeout").

(** deploy.sh dev, the query for the service URL fails. *)
Definition endpoint_query_fails : World :=
  Sample.all_but "x" 17 (failed 255 "An error occurred").

Definition secret_arn : string :=
  "arn:aws:secretsmanager:us-east-1:111111111111:secret:mysql".

End Scenario.

(* ================================================================= *)
(** ** Unquoted expansions *)

(** Both scripts write [$STACK_NAME], [$REGION], [$ENVIRONMENT],
    [$PROJECT_NAME], [$BUCKET_NAME] and [$BUILD_ID] without quotes in
    their command lines. Bash splits the value of such an expansion
    into fields at the characters of [$IFS] and then treats every field
    that holds a pattern character as a file name pattern. *)
Module Expansion.

(** [$IFS], which the scripts never set: space, tab, newline. *)
Definition is_ifs (c : ascii) : bool :=
  let n := nat_of_ascii c in
  ((n =? 32) || (n =? 9) || (n =? 10))%nat.

(** Characters that make a field a pattern for pathname expansion:
    star, question mark, opening bracket and the backslash. *)
Definition is_pattern (c : ascii) : bool :=
  let n := nat_of_ascii c in
  ((n =? 42) || (n =? 63) || (n =? 91) || (n =? 92))%nat.

Fixpoint all_chars (p : ascii -> bool) (s : string) : bool :=
  match s with
  | EmptyString => true
  | String c rest => p c && all_chars p rest
  end.

(** No character of [s] is touched by field splitting or by pathname
    expansion. *)
Definition word_chars (s : string) : bool :=
  all_chars (fun c => negb (is_ifs c) && negb (is_pattern c)) s.

(** A non-empty value made of such characters. *)
Definition plain (s : string) : bool :=
  negb (Str.is_empty s) && word_chars s.

(** [s] cut at every [$IFS] character. *)
Fixpoint pieces (s : string) : list string :=
  match s with
  | EmptyString => [EmptyString]
  | String c rest =>
      if is_ifs c then EmptyString :: pieces rest
      else match pieces rest with
           | p :: ps => String c p :: ps
           | [] => [String c EmptyString]
           end
  end.

(** Field splitting: runs of [$IFS] white space separate the fields,
    and an empty value gives no field at all. *)
Definition fields (s : string) : list string :=
  filter (fun p => negb (Str.is_empty p)) (pieces s).

(** The words a command receives for an unquoted [$x] of value [s].
    With a pattern character in [s] they depend on the files of the
    working directory, which are not modelled: [None]. *)
Definition unquoted (s : string) : option (list string) :=
  if all_chars (fun c => negb (is_pattern c)) s then Some (fields s)
  else None.

End Expansion.

(* ================================================================= *)
(** ** Answers of the stack-existence probe *)

Module ProbeAnswers.

Import Sh Script.

(** [describe-stacks] succeeds and describes a stack that was rolled
    back; the reason it reports holds the words does not exist. *)
Definition rolled_back_stack : Result :=
  ok ("StackName: FastApiRunner-dev, StackStatus: ROLLBACK_COMPLETE, "
      ++ "StackStatusReason: Role arn:aws:iam::111111111111:role/cdk-exec "
      ++ "does not exist").

(** Every command prints x, the one at [position] describes the rolled
    back stack: the probe is the eighth command of deploy.sh dev and the
    seventh of deploy-no-docker.sh dev. *)
Definition rolled_back (position : nat) : World :=
  Sample.all_but "x" position rolled_back_stack.

End ProbeAnswers.

(* ================================================================= *)
(** ** Properties of the App Runner stack and of the CDK app *)

Section StackFacts.

Import Stack.

Example toLowerCase_stack_id :
  Str.toLowerCase "FastApiRunner-Dev" = "fastapirunner-dev".
Proof. reflexivity. Qed.

Example toString_port : Str.toString 8080 = "8080".
Proof. reflexivity. Qed.

Example trim_whoami :
  Str.trim (" alice" ++ Str.nl) = "alice".
Proof. reflexivity. Qed.

Example chomp_keeps_inner_newline :
  Str.chomp ("a" ++ Str.nl ++ "b" ++ Str.nl ++ Str.nl) = "a" ++ Str.nl ++ "b".
Proof. reflexivity. Qed.

Lemma truthy_or_else v :
  Str.truthy v = true -> v = Some (Str.or_else v "").
Proof.
  destruct v as [s|]; simpl; [|discriminate].
  destruct s; simpl; [discriminate|reflexivity].
Qed.

Lemma startsWith_nonempty s :
  Str.startsWith s "preview-" = true -> Str.is_empty s = false.
Proof. destruct s; simpl; [discriminate|reflexivity]. Qed.

Lemma imageConfig_without_secret e p vars arn :
  Str.truthy arn = false ->
  runtimeEnvironmentSecrets (imageConfig e p vars arn) = None
  /\ variable_names (imageConfig e p vars arn)
     = "ENVIRONMENT" :: "PORT" :: map fst vars.
Proof.
  intros Harn. unfold imageConfig, variable_names.
  destruct arn as [a|]; [rewrite Harn|]; simpl;
    rewrite map_map; simpl; auto.
Qed.

End StackFacts.

Section StackClaims.

Import Stack.

(** C10. Every [AppRunnerStack], whatever [createService] and
    [secretsArn] are, holds the ECR repository (named after the
    lowercased stack id, one lifecycle rule keeping 25 images) and emits
    the [RepositoryUri] output; with [createService] false the
    [serviceUrl] field stays empty and neither [ServiceUrl] nor
    [ServiceId] is among the outputs. *)
Theorem C10_repository_always_declared :
  forall (id : string) (props : AppRunnerStackProps),
    let s := newAppRunnerStack id props in
    (exists p,
        filter is_repository (resources s) = [Repository "Repository" p]
        /\ repositoryName p = Str.toLowerCase id
        /\ map maxImageCount (lifecycleRules p) = [25])
    /\ In "RepositoryUri" (output_ids s)
    /\ (createService props = Some false ->
        serviceUrl s = ""
        /\ ~ In "ServiceUrl" (output_ids s)
        /\ ~ In "ServiceId" (output_ids s)).
Proof.
  intros id props s. subst s. unfold newAppRunnerStack, output_ids.
  cbn [resources outputs serviceUrl].
  split; [|split].
  - exists (repositoryProps id). split; [|split; reflexivity].
    destruct (default true (createService props)); reflexivity.
  - rewrite map_app. apply in_or_app. right. simpl. auto.
  - intros Hc. rewrite Hc. simpl. repeat split; try reflexivity.
    + intros [H|[]]. discriminate H.
    + intros [H|[]]. discriminate H.
Qed.

Lemma C10_witness :
  createService (Sample.props (Some false) None) = Some false
  /\ serviceUrl (newAppRunnerStack "FastApiRunner-preview-alice"
                   (Sample.props (Some false) None)) = "".
Proof.
  split; [reflexivity|].
  apply (C10_repository_always_declared "FastApiRunner-preview-alice"
           (Sample.props (Some false) None)).
  reflexivity.
Defined.

(** C5, as the code has it. When the secret ARN is absent (or empty),
    the hosting-service declaration has no [runtimeEnvironmentSecrets]
    key, and its runtime variables are ENVIRONMENT and PORT followed by
    the entries of the [environmentVariables] prop; for the stacks
    declared by [bin/app.ts] these are ENVIRONMENT, PORT, NODE_ENV and
    LOG_LEVEL. *)
Theorem C5_no_secret_block_and_variables :
  (forall (id : string) (props : AppRunnerStackProps),
      Str.truthy (secretsArn props) = false ->
      createService props <> Some false ->
      exists c,
        imageConfigurations (newAppRunnerStack id props) = [c]
        /\ runtimeEnvironmentSecrets c = None
        /\ variable_names c
           = "ENVIRONMENT" :: "PORT"
               :: map fst (default [] (environmentVariables props)))
  /\ (forall (i : App.Inputs) (s : AppRunnerStack) (c : ImageConfiguration),
         Str.truthy (App.secretsArn i) = false ->
         In s (App.appRunnerStacks i) ->
         In c (imageConfigurations s) ->
         runtimeEnvironmentSecrets c = None
         /\ variable_names c = ["ENVIRONMENT"; "PORT"; "NODE_ENV"; "LOG_LEVEL"]).
Proof.
  split.
  - intros id props Harn Hcreate.
    assert (Hd : default true (createService props) = true).
    { destruct (createService props) as [[|]|]; simpl; congruence. }
    unfold imageConfigurations, newAppRunnerStack. simpl. rewrite Hd. simpl.
    eexists. split; [reflexivity|].
    apply imageConfig_without_secret. exact Harn.
  - intros i s c Harn Hs Hc. unfold App.appRunnerStacks in Hs.
    destruct (negb (App.pipelineOnly i)); [|destruct Hs].
    destruct (Str.startsWith (App.environment i) "preview-").
    + destruct Hs as [<-|[]].
      unfold App.previewStack, imageConfigurations, newAppRunnerStack in Hc.
      simpl in Hc. destruct (App.createService i); simpl in Hc;
        [|destruct Hc].
      destruct Hc as [<-|[]].
      apply (imageConfig_without_secret _ _ App.appEnvironmentVariables).
      exact Harn.
    + simpl in Hs. destruct Hs as [<-|[<-|[]]];
        simpl in Hc; destruct Hc as [<-|[]]; split; reflexivity.
Qed.

Lemma C5_witness :
  exists c,
    imageConfigurations
      (newAppRunnerStack "FastApiRunner-preview-alice" (Sample.props None None))
    = [c]
    /\ runtimeEnvironmentSecrets c = None
    /\ variable_names c = ["ENVIRONMENT"; "PORT"].
Proof.
  apply (proj1 C5_no_secret_block_and_variables
           "FastApiRunner-preview-alice" (Sample.props None None)).
  - reflexivity.
  - discriminate.
Defined.

(** C5 as stated fails: synthesizing the app for a preview environment
    with no secret ARN yields a service whose runtime variables are not
    just ENVIRONMENT and PORT. *)
Lemma C5_counterexample :
  App.secretsArn Sample.alice = None
  /\ exists s c,
      App.appRunnerStacks Sample.alice = [s]
      /\ imageConfigurations s = [c]
      /\ runtimeEnvironmentSecrets c = None
      /\ variable_names c = ["ENVIRONMENT"; "PORT"; "NODE_ENV"; "LOG_LEVEL"]
      /\ variable_names c <> ["ENVIRONMENT"; "PORT"].
Proof.
  split; [reflexivity|].
  do 2 eexists. repeat split; try reflexivity. discriminate.
Qed.

(** C2, as the code has it. For a preview environment (a name that
    starts with preview-) and unless the context sets pipelineOnly, the
    deploy invocation with createService=false declares one App Runner
    stack, FastApiRunner-<environment>, holding only the registry
    resource and the RepositoryUri output: no hosting service, no IAM
    role, no service output. *)
Theorem C2_bootstrap_declares_registry_only :
  forall (e : string) (i : App.Inputs),
    Str.startsWith e "preview-" = true ->
    App.pipelineOnly i = false ->
    exists s,
      App.appRunnerStacks (App.bootstrapInputs e i) = [s]
      /\ stack_id s = "FastApiRunner-" ++ e
      /\ resources s = [repository (stack_id s)]
      /\ output_ids s = ["RepositoryUri"]
      /\ serviceUrl s = "".
Proof.
  intros e i Hpre Hpipe.
  assert (Henv : App.environment (App.bootstrapInputs e i) = e).
  { unfold App.environment, App.tryGetContext. simpl.
    rewrite (startsWith_nonempty _ Hpre). reflexivity. }
  assert (Hp : App.pipelineOnly (App.bootstrapInputs e i) = false).
  { exact Hpipe. }
  unfold App.appRunnerStacks. rewrite Hp, Henv, Hpre. simpl.
  eexists. split; [reflexivity|].
  unfold App.previewStack. rewrite Henv.
  repeat split; reflexivity.
Qed.

Lemma C2_witness :
  exists s,
    App.appRunnerStacks (App.bootstrapInputs "preview-alice" Sample.bare) = [s]
    /\ stack_id s = "FastApiRunner-preview-alice"
    /\ resources s = [repository (stack_id s)]
    /\ output_ids s = ["RepositoryUri"]
    /\ serviceUrl s = "".
Proof.
  apply (C2_bootstrap_declares_registry_only "preview-alice" Sample.bare);
    reflexivity.
Defined.

(** C2 as stated fails for the environment dev: the invocation with
    createService=false still declares FastApiRunner-dev with the
    hosting service, both IAM roles and the service outputs. *)
(** The full deployment of the same environment declares the service. *)
Example full_deploy_declares_service :
  exists s,
    App.appRunnerStacks (App.deployInputs "preview-alice" Sample.bare) = [s]
    /\ existsb is_service (resources s) = true
    /\ output_ids s = ["ServiceUrl"; "ServiceId"; "RepositoryUri"].
Proof. eexists. repeat split; reflexivity. Qed.

Lemma C2_counterexample :
  exists s,
    App.findStack (App.app (App.bootstrapInputs "dev" Sample.bare))
      "FastApiRunner-dev" = Some s
    /\ App.createService (App.bootstrapInputs "dev" Sample.bare) = false
    /\ existsb is_service (resources s) = true
    /\ existsb is_role (resources s) = true
    /\ In "ServiceUrl" (output_ids s)
    /\ In "ServiceId" (output_ids s).
Proof.
  eexists. split; [reflexivity|].
  repeat split; try reflexivity; simpl; auto.
Qed.

End StackClaims.

(* ================================================================= *)
(** ** Reasoning about runs *)

Section RunFacts.

Import Sh.

Lemma never_false (Q : Event -> bool) (t : list Event) (e : Event) :
  forallb (never Q) t = true -> In e t -> Q e = true -> False.
Proof.
  intros Hall Hin HQ. rewrite forallb_forall in Hall.
  specialize (Hall e Hin). unfold never in Hall. rewrite HQ in Hall.
  discriminate.
Qed.

Lemma never_existsb (Q : Event -> bool) (t : list Event) :
  forallb (never Q) t = true -> existsb Q t = false.
Proof.
  induction t as [|e t IH]; simpl; [reflexivity|].
  unfold never at 1. intros H. apply andb_true_iff in H as [He Ht].
  apply negb_true_iff in He. rewrite He. simpl. auto.
Qed.

Lemma events_prepend {A} (t : list Event) (r : Run A) :
  events (prepend t r) = (t ++ events r)%list.
Proof. reflexivity. Qed.

Lemma outcome_prepend {A} (t : list Event) (r : Run A) :
  outcome (prepend t r) = outcome r.
Proof. reflexivity. Qed.

Context {A B : Type}.
Variables (m : M A) (k : A -> M B) (w : World) (n : nat).

Lemma bind_ret (a : A) :
  outcome (m w n) = Ret a ->
  bind m k w n = prepend (events (m w n)) (k a w (next (m w n))).
Proof. intros H. unfold bind, prepend. rewrite H. reflexivity. Qed.

Lemma bind_exit (c : nat) :
  outcome (m w n) = Exit c ->
  outcome (bind m k w n) = Exit c
  /\ events (bind m k w n) = events (m w n).
Proof. intros H. unfold bind. rewrite H. split; reflexivity. Qed.

Lemma bind_spin :
  outcome (m w n) = Spin ->
  outcome (bind m k w n) = Spin
  /\ events (bind m k w n) = events (m w n).
Proof. intros H. unfold bind. rewrite H. split; reflexivity. Qed.

Lemma in_bind (e : Event) :
  In e (events (bind m k w n)) ->
  In e (events (m w n))
  \/ exists a, outcome (m w n) = Ret a
               /\ In e (events (k a w (next (m w n)))).
Proof.
  unfold bind. destruct (outcome (m w n)) as [a| |] eqn:Ho; simpl; auto.
  intros H. apply in_app_or in H as [H|H]; eauto.
Qed.

(** An event that [m] cannot emit was emitted by the continuation. *)
Lemma walk (Q : Event -> bool) (e : Event) :
  emits (never Q) m -> Q e = true ->
  In e (events (bind m k w n)) ->
  exists a, outcome (m w n) = Ret a
            /\ In e (events (k a w (next (m w n)))).
Proof.
  intros Hm HQ Hin. apply in_bind in Hin as [Hin|Hin]; [|exact Hin].
  exfalso. exact (never_false Q _ e (Hm w n) Hin HQ).
Qed.

End RunFacts.

Section EmitsFacts.

Import Sh Script.

Variable P : Event -> bool.

Lemma emits_ret {A} (a : A) : emits P (ret a).
Proof. intros w n. reflexivity. Qed.

Lemma emits_exit {A} (c : nat) : emits P (@exit A c).
Proof. intros w n. reflexivity. Qed.

Lemma emits_spin {A} : emits P (@spin A).
Proof. intros w n. reflexivity. Qed.

Lemma emits_echo (line : string) : P (Echo line) = true -> emits P (echo line).
Proof. intros H w n. simpl. rewrite H. reflexivity. Qed.

Lemma emits_sleep (s : nat) : P (Sleep s) = true -> emits P (sleep s).
Proof. intros H w n. simpl. rewrite H. reflexivity. Qed.

Lemma emits_exec (c : Cmd) :
  (forall r, P (Ran c r) = true) -> emits P (exec c).
Proof. intros H w n. simpl. rewrite H. reflexivity. Qed.

Lemma emits_bind {A B} (m : M A) (k : A -> M B) :
  emits P m -> (forall a, emits P (k a)) -> emits P (bind m k).
Proof.
  intros Hm Hk w n. unfold bind.
  destruct (outcome (m w n)) as [a| |]; simpl; try apply Hm.
  rewrite forallb_app, Hm, Hk. reflexivity.
Qed.

Lemma emits_if {A} (b : bool) (m1 m2 : M A) :
  emits P m1 -> emits P m2 -> emits P (if b then m1 else m2).
Proof. destruct b; auto. Qed.

Lemma emits_run (c : Cmd) :
  (forall r, P (Ran c r) = true) -> emits P (run c).
Proof.
  intros H. apply emits_bind; [apply emits_exec, H|].
  intros r. apply emits_if; [apply emits_ret|apply emits_exit].
Qed.

Lemma emits_capture (c : Cmd) :
  (forall r, P (Ran c r) = true) -> emits P (capture c).
Proof.
  intros H. apply emits_bind; [apply emits_exec, H|].
  intros r. apply emits_if; [apply emits_ret|apply emits_exit].
Qed.

Lemma emits_run_or_true (c : Cmd) :
  (forall r, P (Ran c r) = true) -> emits P (run_or_true c).
Proof.
  intros H. apply emits_bind; [apply emits_exec, H|].
  intros r. apply emits_ret.
Qed.

Lemma emits_capture_or (c : Cmd) (fallback : string) :
  (forall r, P (Ran c r) = true) -> emits P (capture_or c fallback).
Proof.
  intros H. apply emits_bind; [apply emits_exec, H|].
  intros r. apply emits_ret.
Qed.

Hypothesis P_echo : forall line, P (Echo line) = true.
Hypothesis P_sleep : forall s, P (Sleep s) = true.

Lemma emits_poll_iteration region project_name build_id :
  (forall r, P (Ran (BatchGetBuilds build_id region) r) = true) ->
  emits P (poll_iteration region project_name build_id).
Proof.
  intros H. unfold poll_iteration.
  apply emits_bind; [apply emits_capture, H|]. intros s.
  repeat first
    [ apply emits_if
    | apply emits_bind; [|intros _]
    | apply emits_echo, P_echo
    | apply emits_sleep, P_sleep
    | apply emits_ret
    | apply emits_exit ].
Qed.

Lemma emits_poll_loop fuel region project_name build_id :
  (forall r, P (Ran (BatchGetBuilds build_id region) r) = true) ->
  emits P (poll_loop fuel region project_name build_id).
Proof.
  intros H. induction fuel as [|fuel IH]; simpl.
  - apply emits_spin.
  - apply emits_bind; [apply emits_poll_iteration, H|].
    intros [|]; [apply emits_ret|exact IH].
Qed.

End EmitsFacts.

(* ================================================================= *)
(** ** The polling loop of deploy-no-docker.sh *)

Section PollingLoop.

Import Sh Script.

Variables region project_name build_id : string.

Let iteration := poll_iteration region project_name build_id.
Let loop (fuel : nat) := poll_loop fuel region project_name build_id.

Lemma terminal_statuses (s : string) :
  terminal s = true
  <-> In s ["SUCCEEDED"; "FAILED"; "FAULT"; "TIMED_OUT"; "STOPPED"].
Proof.
  unfold terminal, build_failed. simpl.
  repeat rewrite orb_true_iff. repeat rewrite String.eqb_eq.
  intuition congruence.
Qed.

Lemma poll_iteration_waits (w : World) (n : nat) :
  succeeded (w n) = true ->
  terminal (captured (w n)) = false ->
  iteration w n
  = {| outcome := Ret Continue; next := S n;
       events := waiting region build_id (w n) |}.
Proof.
  unfold terminal, captured. intros Hok Hterm.
  apply orb_false_iff in Hterm as [Hs Hf].
  unfold iteration, poll_iteration, capture, bind, exec, waiting. simpl.
  rewrite Hok. simpl. rewrite Hs, Hf. reflexivity.
Qed.

Lemma poll_iteration_leaves (w : World) (n : nat) :
  succeeded (w n) = true ->
  terminal (captured (w n)) = true ->
  outcome (iteration w n)
  = (if String.eqb (captured (w n)) "SUCCEEDED" then Ret Break else Exit 1)
  /\ next (iteration w n) = S n
  /\ existsb is_sleep (events (iteration w n)) = false.
Proof.
  unfold terminal, captured. intros Hok Hterm.
  unfold iteration, poll_iteration, capture, bind, exec. simpl.
  rewrite Hok. simpl.
  destruct (String.eqb (Str.chomp (out (w n))) "SUCCEEDED"); simpl.
  - repeat split; reflexivity.
  - simpl in Hterm. rewrite Hterm. simpl. repeat split; reflexivity.
Qed.

Lemma poll_loop_waits (w : World) (n fuel : nat) :
  succeeded (w n) = true ->
  terminal (captured (w n)) = false ->
  loop (S fuel) w n
  = prepend (waiting region build_id (w n)) (loop fuel w (S n)).
Proof.
  intros Hok Hterm. unfold loop. simpl.
  unfold bind at 1. fold iteration.
  rewrite (poll_iteration_waits w n Hok Hterm). reflexivity.
Qed.

(** C1, as the code has it. On a status answer, the loop is left
    exactly on SUCCEEDED, FAILED, FAULT, TIMED_OUT and STOPPED (falling
    through on SUCCEEDED, exiting with 1 on the others), with no further
    query and no sleep; on any other status the iteration echoes the
    status, sleeps 10 and the loop queries again. *)
Theorem C1_loop_left_on_terminal_status :
  forall (w : World) (n fuel : nat),
    succeeded (w n) = true ->
    let s := captured (w n) in
    (terminal s = true
     <-> In s ["SUCCEEDED"; "FAILED"; "FAULT"; "TIMED_OUT"; "STOPPED"])
    /\ (terminal s = true ->
        outcome (loop (S fuel) w n)
        = (if String.eqb s "SUCCEEDED" then Ret tt else Exit 1)
        /\ next (loop (S fuel) w n) = S n
        /\ existsb is_sleep (events (loop (S fuel) w n)) = false)
    /\ (terminal s = false ->
        loop (S fuel) w n
        = prepend
            [ Ran (BatchGetBuilds build_id region) (w n);
              Echo ("Build status: " ++ s ++ " (waiting...)");
              Sleep 10 ]
            (loop fuel w (S n))).
Proof.
  intros w n fuel Hok s. split; [apply terminal_statuses|]. split.
  - intros Hterm.
    destruct (poll_iteration_leaves w n Hok Hterm) as (Ho & Hn & He).
    unfold loop. simpl. fold iteration. unfold bind.
    rewrite Ho. fold s.
    destruct (String.eqb s "SUCCEEDED"); simpl.
    + rewrite app_nil_r. auto.
    + auto.
  - intros Hterm. exact (poll_loop_waits w n fuel Hok Hterm).
Qed.

(** C9. Against a stream of answers none of which is a terminal
    status, the loop is still running after any number of iterations,
    having queried and slept once per iteration. *)
Theorem C9_loop_has_no_bound :
  forall (w : World) (n : nat),
    (forall i, succeeded (w (n + i)) = true
               /\ terminal (captured (w (n + i))) = false) ->
    forall fuel,
      outcome (loop fuel w n) = Spin
      /\ next (loop fuel w n) = n + fuel
      /\ length (filter is_sleep (events (loop fuel w n))) = fuel.
Proof.
  intros w n Hw fuel. revert n Hw.
  induction fuel as [|fuel IH]; intros n Hw.
  - simpl. rewrite Nat.add_0_r. auto.
  - destruct (Hw 0) as [Hok Hterm]. rewrite Nat.add_0_r in Hok, Hterm.
    rewrite (poll_loop_waits w n fuel Hok Hterm).
    destruct (IH (S n)) as (Ho & Hn & Hs).
    { intros i. replace (S n + i) with (n + S i) by lia. apply Hw. }
    rewrite outcome_prepend, events_prepend. simpl.
    rewrite Ho, Hn, Hs. repeat split; lia.
Qed.

End PollingLoop.

Section PollingLoopExamples.

Import Sh Script.

(** The scenario of three answers: two waits, then the loop is left
    after the third query. *)
Example poll_in_progress_twice_then_succeeded :
  let r := poll_loop 5 "us-east-1" "fastapi-build-dev" "build:1"
             (Sample.answers ["IN_PROGRESS"; "IN_PROGRESS"; "SUCCEEDED"]) 0 in
  outcome r = Ret tt /\ next r = 3
  /\ filter is_sleep (events r) = [Sleep 10; Sleep 10].
Proof. repeat split; reflexivity. Qed.

Lemma C1_witness :
  poll_loop 2 "us-east-1" "fastapi-build-dev" "build:1"
    (Sample.answers ["IN_PROGRESS"; "SUCCEEDED"]) 0
  = prepend
      [ Ran (BatchGetBuilds "build:1" "us-east-1") (ok "IN_PROGRESS");
        Echo "Build status: IN_PROGRESS (waiting...)";
        Sleep 10 ]
      (poll_loop 1 "us-east-1" "fastapi-build-dev" "build:1"
         (Sample.answers ["IN_PROGRESS"; "SUCCEEDED"]) 1).
Proof.
  destruct (C1_loop_left_on_terminal_status
              "us-east-1" "fastapi-build-dev" "build:1"
              (Sample.answers ["IN_PROGRESS"; "SUCCEEDED"]) 0 1 eq_refl)
    as (_ & _ & Hwait).
  apply Hwait. reflexivity.
Defined.

(** C1 as stated fails on FAULTED, which the loop does not know: it
    echoes the status, sleeps and goes on polling; and it is left on
    FAULT, which the statement does not list. *)
Lemma C1_counterexample :
  (In "FAULTED" ["SUCCEEDED"; "FAILED"; "FAULTED"; "TIMED_OUT"; "STOPPED"]
   /\ poll_iteration "us-east-1" "fastapi-build-dev" "build:1"
        (Sample.answers ["FAULTED"]) 0
      = {| outcome := Ret Continue; next := 1;
           events := [ Ran (BatchGetBuilds "build:1" "us-east-1") (ok "FAULTED");
                       Echo "Build status: FAULTED (waiting...)";
                       Sleep 10 ] |})
  /\ (~ In "FAULT" ["SUCCEEDED"; "FAILED"; "FAULTED"; "TIMED_OUT"; "STOPPED"]
      /\ outcome (poll_loop 1 "us-east-1" "fastapi-build-dev" "build:1"
                    (Sample.answers ["FAULT"]) 0) = Exit 1).
Proof.
  split; split.
  - simpl. auto.
  - reflexivity.
  - simpl. intros H. repeat destruct H as [H|H]; try discriminate H. exact H.
  - reflexivity.
Qed.

Lemma C9_witness :
  outcome (poll_loop 1000 "us-east-1" "fastapi-build-dev" "build:1"
             Sample.in_progress 0) = Spin
  /\ length (filter is_sleep
               (events (poll_loop 1000 "us-east-1" "fastapi-build-dev" "build:1"
                          Sample.in_progress 0))) = 1000.
Proof.
  destruct (C9_loop_has_no_bound "us-east-1" "fastapi-build-dev" "build:1"
              Sample.in_progress 0
              (fun i => conj eq_refl eq_refl) 1000) as (Ho & _ & Hs).
  split; [exact Ho|exact Hs].
Defined.

End PollingLoopExamples.

(* ================================================================= *)
(** ** Following a run of a whole script *)

Section Reaching.

Import Sh.

Context {A B : Type}.
Variable P : Event -> bool.

Lemma reaches_refl (r : Run B) : reaches P r r.
Proof. exists []. repeat split. Qed.

Lemma reaches_step (whole : Run B) (m : M A) (k : A -> M B) w n a :
  emits P m ->
  outcome (m w n) = Ret a ->
  reaches P whole (bind m k w n) ->
  reaches P whole (k a w (next (m w n))).
Proof.
  intros Hm Ho (t & Ht & He & Hout).
  rewrite (bind_ret m k w n a Ho) in He, Hout.
  exists (t ++ events (m w n))%list. repeat split.
  - rewrite forallb_app, Ht, Hm. reflexivity.
  - rewrite He, events_prepend, app_assoc. reflexivity.
  - exact Hout.
Qed.

(** The run ends inside [m], on an exit. *)
Lemma reaches_exit (whole : Run B) (m : M A) (k : A -> M B) w n c :
  emits P m ->
  outcome (m w n) = Exit c ->
  reaches P whole (bind m k w n) ->
  outcome whole = Exit c /\ forallb P (events whole) = true.
Proof.
  intros Hm Ho (t & Ht & He & Hout).
  destruct (bind_exit m k w n c Ho) as [Ho' He'].
  rewrite He' in He. rewrite Ho' in Hout. split; [exact Hout|].
  rewrite He, forallb_app, Ht, Hm. reflexivity.
Qed.

Lemma reaches_events (whole part : Run B) :
  reaches P whole part ->
  forallb P (events part) = true ->
  forallb P (events whole) = true.
Proof.
  intros (t & Ht & He & _) Hp. rewrite He, forallb_app, Ht, Hp. reflexivity.
Qed.

End Reaching.

Ltac head_of t :=
  lazymatch t with
  | ?f _ => head_of f
  | _ => t
  end.

Ltac emits_step :=
  lazymatch goal with
  | |- Sh.emits _ (Sh.ret _) => apply emits_ret
  | |- Sh.emits _ (Sh.exit _) => apply emits_exit
  | |- Sh.emits _ Sh.spin => apply emits_spin
  | |- Sh.emits _ (Sh.echo _) => apply emits_echo; reflexivity
  | |- Sh.emits _ (Sh.sleep _) => apply emits_sleep; reflexivity
  | |- Sh.emits _ (Sh.exec _) => apply emits_exec; intro; reflexivity
  | |- Sh.emits _ (Script.run _) => apply emits_run; intro; reflexivity
  | |- Sh.emits _ (Script.capture _) => apply emits_capture; intro; reflexivity
  | |- Sh.emits _ (Script.run_or_true _) =>
      apply emits_run_or_true; intro; reflexivity
  | |- Sh.emits _ (Script.capture_or _ _) =>
      apply emits_capture_or; intro; reflexivity
  | |- Sh.emits _ (Script.poll_loop _ _ _ _) =>
      apply emits_poll_loop; intros; reflexivity
  | |- Sh.emits _ (if _ then _ else _) => apply emits_if
  | |- Sh.emits _ (Sh.bind _ _) => apply emits_bind; [|intro]
  | |- Sh.emits _ ?m => let h := head_of m in unfold h
  end.

Ltac solve_emits := repeat (cbv zeta; emits_step).

(** One step along a chain of binds: [H] says that an event [Q] accepts
    occurs in the run of [bind m k], [HR] that the whole run has come to
    that bind, and [m] emits only events that [P] accepts and [Q] refuses. *)
Ltac walk_step P Q HR H :=
  lazymatch type of H with
  | In ?e (Sh.events (Sh.bind ?m ?k ?w ?n)) =>
      let a := fresh "x" in
      let Ho := fresh "Ho" in
      let Hin := fresh "Hin" in
      destruct (walk m k w n Q e ltac:(solve_emits) eq_refl H) as (a & Ho & Hin);
      apply (reaches_step P _ m k w n a ltac:(solve_emits) Ho) in HR;
      clear H Ho; rename Hin into H; cbv beta in H, HR
  end.

Section ResultReporter.

Import Sh Script.

Lemma report_run script environment region (w : World) (n : nat) :
  let q := DescribeStackOutput (stack_name environment) "ServiceUrl" region in
  let r := report script environment region w n in
  outcome r = Ret tt
  /\ (forall c res, In (Ran c res) (events r) -> c = q /\ res = w n)
  /\ (or_output (w n) "" = "" \/ or_output (w n) "" = "None" ->
      events r = Ran q (w n) :: not_available_report script).
Proof.
  intros q r. subst q r.
  unfold report.
  rewrite (bind_ret (capture_or (DescribeStackOutput (stack_name environment)
                                   "ServiceUrl" region) "")
             _ w n (or_output (w n) "") eq_refl).
  set (s := or_output (w n) ""). cbv beta.
  change (events (capture_or (DescribeStackOutput (stack_name environment)
                                "ServiceUrl" region) "" w n))
    with [Ran (DescribeStackOutput (stack_name environment) "ServiceUrl" region)
            (w n)].
  rewrite outcome_prepend, events_prepend.
  destruct (test_n s && negb (String.eqb s "None")) eqn:Hc.
  - split; [reflexivity|]. split.
    + intros c res Hin. cbn in Hin.
      destruct Hin as [Hin|Hin]; [inversion Hin; auto|].
      repeat (destruct Hin as [Hin|Hin]; [discriminate Hin|]).
      destruct Hin.
    + intros [Hs|Hs]; rewrite Hs in Hc; discriminate Hc.
  - split; [reflexivity|]. split.
    + intros c res Hin. cbn in Hin.
      destruct Hin as [Hin|Hin]; [inversion Hin; auto|].
      repeat (destruct Hin as [Hin|Hin]; [discriminate Hin|]).
      destruct Hin.
    + intros _. reflexivity.
Qed.

(** C8. In a run of either script that comes to the query for the
    service URL, the process ends with status 0 whatever the query
    answers, a failing query included; when the value read is empty or
    None the script prints from there on only the line that the URL is
    not available yet, between its fixed banner and usage lines. *)
Theorem C8_missing_endpoint_is_not_an_error :
  forall (v : Variant) (arg1 aws_region : option string) (w : World)
         (stack region : string) (r : Result),
    let run := start (workflow v arg1 aws_region) w in
    let q := Ran (DescribeStackOutput stack "ServiceUrl" region) r in
    In q (events run) ->
    exit_code run = Some 0
    /\ (or_output r "" = "" \/ or_output r "" = "None" ->
        exists t, events run = (t ++ q :: not_available_report (script_name v))%list).
Proof.
  intros v arg1 aws_region w stack region r run q H. subst q.
  assert (HR : reaches (fun _ => true) run (workflow v arg1 aws_region w 0))
    by apply reaches_refl.
  unfold run, start in H. clearbody run.
  assert (Hend : forall script environment reg n,
             In (Ran (DescribeStackOutput stack "ServiceUrl" region) r)
                (events (report script environment reg w n)) ->
             reaches (fun _ => true) run (report script environment reg w n) ->
             exit_code run = Some 0
             /\ (or_output r "" = "" \/ or_output r "" = "None" ->
                 exists t, events run
                           = (t ++ Ran (DescribeStackOutput stack "ServiceUrl" region) r
                                :: not_available_report script)%list)).
  { intros script environment reg n Hin (t & _ & He & Hout).
    destruct (report_run script environment reg w n) as (Ho & Hq & Hna).
    destruct (Hq _ _ Hin) as [Hc Hr]. split.
    - unfold exit_code. rewrite Hout, Ho. reflexivity.
    - intros Hs. exists t. rewrite He, Hna; rewrite <- Hr; [|exact Hs].
      rewrite Hc. reflexivity. }
  unfold workflow in H, HR. destruct v as [|fuel].
  - unfold deploy in H, HR. cbv zeta in H, HR.
    do 5 walk_step (fun _ : Event => true) (is_output_query "ServiceUrl") HR H.
    exact (Hend _ _ _ _ H HR).
  - unfold deploy_no_docker in H, HR. cbv zeta in H, HR.
    do 11 walk_step (fun _ : Event => true) (is_output_query "ServiceUrl") HR H.
    exact (Hend _ _ _ _ H HR).
Qed.

End ResultReporter.

Section Bootstrap.

Import Sh Script.

Lemma existsb_bind {A B} (Q : Event -> bool) (m : M A) (k : A -> M B) w n :
  (forall a, emits (never Q) (k a)) ->
  existsb Q (events (bind m k w n)) = existsb Q (events (m w n)).
Proof.
  intros Hk. unfold bind. destruct (outcome (m w n)) as [a| |]; try reflexivity.
  cbn [events]. rewrite existsb_app, (never_existsb Q _ (Hk a w _)).
  apply orb_false_r.
Qed.

Lemma reaches_existsb {A} (Q : Event -> bool) (whole part : Run A) :
  reaches (never Q) whole part ->
  existsb Q (events whole) = existsb Q (events part).
Proof.
  intros (t & Ht & He & _).
  rewrite He, existsb_app, (never_existsb Q t Ht). reflexivity.
Qed.

(** An event that the continuation cannot emit was emitted by [m]. *)
Lemma stay {A B} (Q : Event -> bool) (m : M A) (k : A -> M B) w n e :
  (forall a, emits (never Q) (k a)) -> Q e = true ->
  In e (events (bind m k w n)) -> In e (events (m w n)).
Proof.
  intros Hk HQ Hin. apply in_bind in Hin as [Hin|(a & _ & Hin)]; [exact Hin|].
  exfalso. exact (never_false Q _ e (Hk a w _) Hin HQ).
Qed.

Lemma run_events (c : Cmd) (w : World) (n : nat) :
  events (run c w n) = [Ran c (w n)].
Proof.
  unfold run, bind, exec. cbn. destruct (succeeded (w n)); reflexivity.
Qed.

Lemma first_deployment_spec (s : string) :
  first_deployment s = true
  <-> Str.contains "does not exist" s = true \/ s = "NONE".
Proof.
  unfold first_deployment. rewrite orb_true_iff, String.eqb_eq. reflexivity.
Qed.

Lemma probe_and_bootstrap_run environment region (w : World) (n : nat) :
  let r := probe_and_bootstrap environment region w n in
  (forall stack g res, In (Ran (DescribeStacks stack g) res) (events r) ->
                       res = w n)
  /\ existsb is_bootstrap (events r)
     = first_deployment (or_output (w n) "NONE").
Proof.
  intros r. subst r. unfold probe_and_bootstrap, probe.
  rewrite (bind_ret (capture_or (DescribeStacks (stack_name environment) region)
                       "NONE") _ w n (or_output (w n) "NONE") eq_refl).
  cbv beta. rewrite events_prepend.
  change (events (capture_or (DescribeStacks (stack_name environment) region)
                    "NONE" w n))
    with [Ran (DescribeStacks (stack_name environment) region) (w n)].
  change (next (capture_or (DescribeStacks (stack_name environment) region)
                  "NONE" w n))
    with (S n).
  destruct (first_deployment (or_output (w n) "NONE")).
  - split.
    + intros stack g res [Hin|Hin]; [inversion Hin; reflexivity|].
      exfalso. refine (never_false is_probe _ _ _ Hin eq_refl).
      generalize w (S n). change (emits (never is_probe)
        (echo "First deployment detected - Creating ECR repository..." ;;
         run (bootstrap_deploy environment))).
      solve_emits.
    + change (events ((echo "First deployment detected - Creating ECR repository..." ;;
                       run (bootstrap_deploy environment)) w (S n)))
        with (Echo "First deployment detected - Creating ECR repository..."
                :: events (run (bootstrap_deploy environment) w (S n))).
      rewrite run_events. reflexivity.
  - split.
    + intros stack g res [Hin|[]]. inversion Hin; reflexivity.
    + reflexivity.
Qed.

(** C3, as the code has it. In a run of either script that comes to
    the stack-existence probe, the registry-only [cdk deploy]
    (createService=false) is executed if and only if the text read from
    the probe (its output, followed by [NONE] when the command fails)
    contains [does not exist] or is [NONE]. The exit status [rc r] of
    the probe takes no part in the test: a successful answer and any
    other error are skipped only when their text has neither form. *)
Theorem C3_bootstrap_iff_not_found :
  forall (v : Variant) (arg1 aws_region : option string) (w : World)
         (stack region : string) (r : Result),
    let run := start (workflow v arg1 aws_region) w in
    let stack_exists := or_output r "NONE" in
    In (Ran (DescribeStacks stack region) r) (events run) ->
    (existsb is_bootstrap (events run) = true
     <-> Str.contains "does not exist" stack_exists = true
         \/ stack_exists = "NONE").
Proof.
  intros v arg1 aws_region w stack region r run stack_exists H.
  subst stack_exists. rewrite <- first_deployment_spec.
  assert (HR : reaches (never is_bootstrap) run (workflow v arg1 aws_region w 0))
    by apply reaches_refl.
  unfold run, start in H. clearbody run.
  unfold workflow in H, HR.
  destruct v as [|fuel];
    [unfold deploy in H, HR | unfold deploy_no_docker in H, HR];
    cbv zeta in H, HR;
    walk_step (never is_bootstrap) is_probe HR H;
    rewrite (reaches_existsb _ _ _ HR);
    (rewrite existsb_bind by (intro; solve_emits));
    (apply stay with (Q := is_probe) in H;
     [|intro; solve_emits|reflexivity]);
    match goal with
    | |- context [probe_and_bootstrap ?e ?g ?w ?n] =>
        destruct (probe_and_bootstrap_run e g w n) as [Hres Hb];
        rewrite Hb, (Hres _ _ _ H); reflexivity
    end.
Qed.

End Bootstrap.

Section RegistryPrecondition.

Import Sh Script.

Lemma capture_run (c : Cmd) (w : World) (n : nat) :
  capture c w n
  = {| outcome := if succeeded (w n) then Ret (captured (w n))
                  else Exit (rc (w n));
       next := S n;
       events := [Ran c (w n)] |}.
Proof.
  unfold capture, bind, exec, captured. cbn.
  destruct (succeeded (w n)); reflexivity.
Qed.

Lemma bind_capture {B} (c : Cmd) (k : string -> M B) (w : World) (n : nat) :
  bind (capture c) k w n
  = if succeeded (w n)
    then prepend [Ran c (w n)] (k (captured (w n)) w (S n))
    else {| outcome := Exit (rc (w n)); next := S n;
            events := [Ran c (w n)] |}.
Proof.
  unfold bind. rewrite capture_run. cbn [outcome next events].
  destruct (succeeded (w n)); reflexivity.
Qed.

Lemma neither_existsb (Q1 Q2 : Event -> bool) (t : list Event) :
  forallb (fun e => never Q1 e && never Q2 e) t = true ->
  existsb Q1 t = false /\ existsb Q2 t = false.
Proof.
  induction t as [|e t IH]; simpl; [auto|].
  intros H. apply andb_true_iff in H as [He Ht].
  apply andb_true_iff in He as [H1 H2]. unfold never in H1, H2.
  apply negb_true_iff in H1, H2. rewrite H1, H2.
  destruct (IH Ht) as [-> ->]. auto.
Qed.

Lemma fetch_repository_uri_run environment region (w : World) (n : nat) :
  let f := fetch_repository_uri environment region w n in
  (forall stack g res,
      In (Ran (DescribeStackOutput stack "RepositoryUri" g) res) (events f) ->
      res = w n)
  /\ (captured (w n) = "" \/ captured (w n) = "None" ->
      exists c, outcome f = Exit c /\ c <> 0).
Proof.
  intros f. subst f. unfold fetch_repository_uri.
  rewrite bind_capture.
  destruct (succeeded (w n)) eqn:Hok.
  - set (uri := captured (w n)).
    destruct (String.eqb uri "None" || test_z uri) eqn:Hc.
    + split.
      * intros stack g res Hin. cbn in Hin.
        destruct Hin as [Hin|[Hin|[]]]; [|discriminate Hin].
        inversion Hin; reflexivity.
      * intros _. exists 1. split; [reflexivity|discriminate].
    + split.
      * intros stack g res Hin. cbn in Hin.
        destruct Hin as [Hin|[Hin|[]]]; [|discriminate Hin].
        inversion Hin; reflexivity.
      * intros [Hs|Hs]; rewrite Hs in Hc; discriminate Hc.
  - split.
    + intros stack g res [Hin|[]]. inversion Hin; reflexivity.
    + intros _. exists (rc (w n)). split; [reflexivity|].
      unfold succeeded in Hok. apply Nat.eqb_neq in Hok. exact Hok.
Qed.

(** C6. In a run of either script that comes to the query for the
    registry URI, if the value read is empty or None the process ends
    with a non-zero status, and the run holds no image build or push
    step and no full deployment. *)
Theorem C6_missing_registry_uri_halts :
  forall (v : Variant) (arg1 aws_region : option string) (w : World)
         (stack region : string) (r : Result),
    let run := start (workflow v arg1 aws_region) w in
    In (Ran (DescribeStackOutput stack "RepositoryUri" region) r) (events run) ->
    captured r = "" \/ captured r = "None" ->
    (exists c, exit_code run = Some c /\ c <> 0)
    /\ existsb is_publish (events run) = false
    /\ existsb is_full_deploy (events run) = false.
Proof.
  intros v arg1 aws_region w stack region r run H Huri.
  set (P := fun e => never is_publish e && never is_full_deploy e).
  assert (HR : reaches P run (workflow v arg1 aws_region w 0))
    by apply reaches_refl.
  unfold run, start in H. clearbody run.
  unfold workflow in H, HR.
  destruct v as [|fuel];
    [unfold deploy in H, HR | unfold deploy_no_docker in H, HR];
    cbv zeta in H, HR;
    do 2 walk_step P (is_output_query "RepositoryUri") HR H;
    (apply stay with (Q := is_output_query "RepositoryUri") in H;
     [|intro; solve_emits|reflexivity]);
    match type of H with
    | In _ (events (fetch_repository_uri ?e ?g ?w ?n)) =>
        destruct (fetch_repository_uri_run e g w n) as [Hres Hexit];
        rewrite (Hres _ _ _ H) in Huri;
        destruct (Hexit Huri) as (c & Hc & Hnz);
        assert (Hem : emits P (fetch_repository_uri e g)) by solve_emits;
        destruct (reaches_exit P _ _ _ _ _ c Hem Hc HR) as [Hout Hall];
        split; [exists c; unfold exit_code; rewrite Hout; auto
               |exact (neither_existsb _ _ _ Hall)]
    end.
Qed.

End RegistryPrecondition.

Section BuildFailure.

Import Sh Script.

Lemma build_failed_statuses (s : string) :
  build_failed s = true <-> In s ["FAILED"; "FAULT"; "TIMED_OUT"; "STOPPED"].
Proof.
  unfold build_failed. simpl.
  repeat rewrite orb_true_iff. repeat rewrite String.eqb_eq.
  intuition congruence.
Qed.

Lemma poll_iteration_run region project_name build_id (w : World) (n : nat) :
  poll_iteration region project_name build_id w n
  = let q := Ran (BatchGetBuilds build_id region) (w n) in
    let s := captured (w n) in
    if succeeded (w n) then
      if String.eqb s "SUCCEEDED" then
        {| outcome := Ret Break; next := S n;
           events := [q; Echo "Build completed successfully!"] |}
      else if build_failed s then
        {| outcome := Exit 1; next := S n;
           events :=
             [q; Echo ("Build failed with status: " ++ s);
              Echo ("Check logs at: https://" ++ region
                      ++ ".console.aws.amazon.com/codesuite/codebuild/projects/"
                      ++ project_name ++ "/build/" ++ build_id)] |}
      else
        {| outcome := Ret Continue; next := S n;
           events := waiting region build_id (w n) |}
    else {| outcome := Exit (rc (w n)); next := S n; events := [q] |}.
Proof.
  unfold poll_iteration. rewrite bind_capture. cbv zeta.
  destruct (succeeded (w n)); [|reflexivity].
  destruct (String.eqb (captured (w n)) "SUCCEEDED"); [reflexivity|].
  destruct (build_failed (captured (w n))); reflexivity.
Qed.

Lemma poll_loop_failure region project_name build_id fuel :
  forall (w : World) (n : nat) build g res,
    In (Ran (BatchGetBuilds build g) res)
       (events (poll_loop fuel region project_name build_id w n)) ->
    succeeded res = true ->
    build_failed (captured res) = true ->
    outcome (poll_loop fuel region project_name build_id w n) = Exit 1.
Proof.
  induction fuel as [|fuel IH]; intros w n build g res Hin Hok Hfail.
  - destruct Hin.
  - cbn [poll_loop] in Hin |- *. unfold bind in Hin |- *.
    rewrite poll_iteration_run in Hin |- *. cbv zeta in Hin |- *.
    destruct (succeeded (w n)) eqn:Hw.
    + destruct (String.eqb (captured (w n)) "SUCCEEDED") eqn:Hs.
      * cbn in Hin. destruct Hin as [Hin|[Hin|[]]]; [|discriminate Hin].
        inversion Hin; subst res.
        apply String.eqb_eq in Hs. rewrite Hs in Hfail. discriminate Hfail.
      * destruct (build_failed (captured (w n))) eqn:Hf; [reflexivity|].
        cbn [outcome next events waiting] in Hin |- *.
        apply in_app_or in Hin as [Hin|Hin].
        -- destruct Hin as [Hin|[Hin|[Hin|[]]]]; try discriminate Hin.
           inversion Hin; subst res. congruence.
        -- exact (IH w (S n) build g res Hin Hok Hfail).
    + cbn in Hin. destruct Hin as [Hin|[]]. inversion Hin; subst res.
      congruence.
Qed.

(** C7. In a run of deploy-no-docker.sh in which a status query
    answers FAILED, FAULT, TIMED_OUT or STOPPED, the process ends with
    status 1 and the run holds no full deployment. *)
Theorem C7_failed_build_stops_before_deploy :
  forall (fuel : nat) (arg1 aws_region : option string) (w : World)
         (build region : string) (r : Result),
    let run := start (deploy_no_docker fuel arg1 aws_region) w in
    In (Ran (BatchGetBuilds build region) r) (events run) ->
    succeeded r = true ->
    In (captured r) ["FAILED"; "FAULT"; "TIMED_OUT"; "STOPPED"] ->
    exit_code run = Some 1
    /\ existsb is_full_deploy (events run) = false.
Proof.
  intros fuel arg1 aws_region w build region r run H Hok Hfail.
  apply build_failed_statuses in Hfail.
  assert (HR : reaches (never is_full_deploy) run
                 (deploy_no_docker fuel arg1 aws_region w 0))
    by apply reaches_refl.
  unfold run, start in H. clearbody run.
  unfold deploy_no_docker in H, HR. cbv zeta in H, HR.
  do 8 walk_step (never is_full_deploy) is_status_query HR H.
  apply stay with (Q := is_status_query) in H;
    [|intro; solve_emits|reflexivity].
  pose proof (poll_loop_failure _ _ _ _ _ _ _ _ _ H Hok Hfail) as Hexit.
  match type of Hexit with
  | outcome (?m _ _) = _ =>
      assert (Hem : emits (never is_full_deploy) m) by solve_emits
  end.
  destruct (reaches_exit _ _ _ _ _ _ 1 Hem Hexit HR) as [Hout Hall].
  split.
  - unfold exit_code. rewrite Hout. reflexivity.
  - exact (never_existsb _ _ Hall).
Qed.

End BuildFailure.

(* ================================================================= *)
(** ** Resolving the environment *)

Section EnvironmentResolver.

Import Sh Script.

(** C4, as the code has it. A non-empty explicit argument is the
    environment, in the scripts (first argument) and in the CDK app
    (context key environment); an empty one counts as absent. Without
    it, the environment is preview- followed by the identity: in the
    scripts the output of whoami, in the app USER or else the trimmed
    output of whoami. When whoami fails, the app resolves to
    preview-local, whereas the scripts end with the status of whoami
    and resolve nothing. *)
Theorem C4_environment_resolution :
  (forall e w n,
      e <> "" ->
      resolve_environment (Some e) w n
      = {| outcome := Ret e; next := n; events := [] |})
  /\ (forall arg1 w n,
         arg1 = None \/ arg1 = Some "" ->
         outcome (resolve_environment arg1 w n)
         = if succeeded (w n) then Ret ("preview-" ++ captured (w n))
           else Exit (rc (w n)))
  /\ (forall i e,
         App.tryGetContext i "environment" = Some e -> e <> "" ->
         App.environment i = e)
  /\ (forall i,
         Str.truthy (App.tryGetContext i "environment") = false ->
         (forall u, App.process_env i "USER" = Some u -> u <> "" ->
                    App.environment i = "preview-" ++ u)
         /\ (Str.truthy (App.process_env i "USER") = false ->
             App.environment i
             = match App.whoami i with
               | Some stdout => "preview-" ++ Str.trim stdout
               | None => "preview-local"
               end)).
Proof.
  split; [|split; [|split]].
  - intros e w n He. unfold resolve_environment.
    destruct e; [congruence|reflexivity].
  - intros arg1 w n Harg. unfold resolve_environment.
    assert (Ht : Str.truthy arg1 = false) by (destruct Harg; subst; reflexivity).
    rewrite Ht, bind_capture. destruct (succeeded (w n)); reflexivity.
  - intros i e Hctx He. unfold App.environment. rewrite Hctx.
    destruct e; [congruence|reflexivity].
  - intros i Hctx. unfold App.environment, App.getDefaultEnvironment.
    rewrite Hctx. split.
    + intros u Hu Hne. rewrite Hu. destruct u; [congruence|reflexivity].
    + intros Hu. rewrite Hu. reflexivity.
Qed.

Lemma C4_witness :
  resolve_environment (Some "dev") Sample.no_identity 0
  = {| outcome := Ret "dev"; next := 0; events := [] |}
  /\ outcome (resolve_environment None (Sample.all_but "alice" 1 (ok "x")) 0)
     = Ret "preview-alice"
  /\ App.environment Sample.alice = "preview-alice"
  /\ App.environment Sample.bare = "preview-local".
Proof.
  destruct C4_environment_resolution as (Harg & Hwho & Hctx & Hdef).
  split; [|split; [|split]].
  - apply Harg. discriminate.
  - apply (Hwho None (Sample.all_but "alice" 1 (ok "x")) 0). left. reflexivity.
  - apply (Hctx Sample.alice "preview-alice"); [reflexivity|discriminate].
  - apply (proj2 (Hdef Sample.bare eq_refl)). reflexivity.
Defined.

(** C4 as stated fails in the scripts: without an argument and with
    whoami failing, deploy.sh ends with status 1 right after whoami
    instead of going on as preview-local; and an explicit empty
    argument does not take precedence over the default. *)
Lemma C4_counterexample :
  (exit_code (start (workflow LocalBuild None None) Sample.no_identity) = Some 1
   /\ events (start (workflow LocalBuild None None) Sample.no_identity)
      = [Ran Whoami (Sample.no_identity 0)])
  /\ outcome (resolve_environment (Some "")
                (Sample.all_but "alice" 1 (ok "x")) 0)
     = Ret "preview-alice".
Proof. repeat split; reflexivity. Qed.

End EnvironmentResolver.

(* ================================================================= *)
(** ** The runs of the samples *)

Ltac find_event := vm_compute; repeat (first [left; reflexivity | right]).

Section Witnesses.

Import Sh Script.

Lemma C3_witness :
  existsb is_bootstrap
    (events (start (workflow LocalBuild (Some "dev") None) Sample.first_deploy))
  = true.
Proof.
  apply (C3_bootstrap_iff_not_found LocalBuild (Some "dev") None
           Sample.first_deploy "FastApiRunner-dev" "us-east-1"
           (Sample.first_deploy 7)).
  - find_event.
  - left. reflexivity.
Defined.

(** C3 as stated fails on a success response: [describe-stacks] exits
    with status 0 and describes a rolled back stack whose status reason
    holds the words does not exist, and both scripts run the
    registry-only deploy instead of skipping it. *)
Lemma C3_counterexample :
  let answer := ProbeAnswers.rolled_back_stack in
  let probe := Ran (DescribeStacks "FastApiRunner-dev" "us-east-1") answer in
  let local :=
    start (workflow LocalBuild (Some "dev") None) (ProbeAnswers.rolled_back 7) in
  let remote :=
    start (workflow (RemoteBuild 1) (Some "dev") None)
      (ProbeAnswers.rolled_back 6) in
  succeeded answer = true
  /\ Str.contains "does not exist" (or_output answer "NONE") = true
  /\ In probe (events local)
  /\ existsb is_bootstrap (events local) = true
  /\ In probe (events remote)
  /\ existsb is_bootstrap (events remote) = true.
Proof.
  cbv zeta. split; [reflexivity|]. split; [reflexivity|].
  split; [find_event|]. split; [reflexivity|].
  split; [find_event|reflexivity].
Qed.

Example existing_stack_is_not_bootstrapped :
  existsb is_bootstrap
    (events (start (workflow LocalBuild (Some "dev") None) Sample.no_endpoint))
  = false.
Proof. reflexivity. Qed.

Lemma C6_witness :
  (exists c,
      exit_code (start (workflow LocalBuild (Some "dev") None) Sample.no_registry)
      = Some c /\ c <> 0)
  /\ existsb is_publish
       (events (start (workflow LocalBuild (Some "dev") None) Sample.no_registry))
     = false
  /\ existsb is_full_deploy
       (events (start (workflow LocalBuild (Some "dev") None) Sample.no_registry))
     = false.
Proof.
  apply (C6_missing_registry_uri_halts LocalBuild (Some "dev") None
           Sample.no_registry "FastApiRunner-dev" "us-east-1" (ok "None")).
  - find_event.
  - right. reflexivity.
Defined.

Lemma C7_witness :
  exit_code (start (deploy_no_docker 3 (Some "dev") None) Sample.failed_build)
  = Some 1
  /\ existsb is_full_deploy
       (events (start (deploy_no_docker 3 (Some "dev") None) Sample.failed_build))
     = false.
Proof.
  apply (C7_failed_build_stops_before_deploy 3 (Some "dev") None
           Sample.failed_build "FAILED" "us-east-1" (ok "FAILED")).
  - find_event.
  - reflexivity.
  - simpl. auto.
Defined.

Lemma C8_witness :
  exit_code (start (workflow LocalBuild (Some "dev") None) Sample.no_endpoint)
  = Some 0
  /\ exists t,
      events (start (workflow LocalBuild (Some "dev") None) Sample.no_endpoint)
      = (t ++ Ran (DescribeStackOutput "FastApiRunner-dev" "ServiceUrl" "us-east-1")
                (ok "None")
           :: not_available_report "deploy.sh")%list.
Proof.
  destruct (C8_missing_endpoint_is_not_an_error LocalBuild (Some "dev") None
              Sample.no_endpoint "FastApiRunner-dev" "us-east-1" (ok "None"))
    as [Hcode Hreport].
  - find_event.
  - split; [exact Hcode|]. apply Hreport. right. reflexivity.
Defined.

(** A failing query for the service URL: its error text is what the
    script prints as the URL, and the status is still 0. *)
Example failed_endpoint_query_exits_zero :
  let w := Sample.all_but "x" 17 (failed 255 "An error occurred") in
  let run := start (workflow LocalBuild (Some "dev") None) w in
  exit_code run = Some 0
  /\ In (Echo "Service URL: An error occurred") (events run).
Proof. split; [reflexivity|find_event]. Qed.

End Witnesses.

(* ================================================================= *)
(** ** Further properties of the two scripts *)

Section VariantSeparation.

Import Sh Script Obs.

(** X1. The CodeBuild variant runs no command that needs the local
    Docker daemon, and the local variant runs no packaging, IAM, S3 or
    CodeBuild command and never sleeps. *)
Theorem X1_variants_do_not_mix :
  forall (fuel : nat) (arg1 aws_region : option string) (w : World),
    existsb is_docker
      (events (start (deploy_no_docker fuel arg1 aws_region) w)) = false
    /\ existsb is_remote_build
         (events (start (deploy arg1 aws_region) w)) = false
    /\ existsb is_sleep
         (events (start (deploy arg1 aws_region) w)) = false.
Proof.
  intros fuel arg1 aws_region w. split; [|split]; apply never_existsb.
  - assert (H : emits (never is_docker) (deploy_no_docker fuel arg1 aws_region))
      by (unfold deploy_no_docker; solve_emits).
    apply H.
  - assert (H : emits (never is_remote_build) (deploy arg1 aws_region))
      by (unfold deploy; solve_emits).
    apply H.
  - assert (H : emits (never is_sleep) (deploy arg1 aws_region))
      by (unfold deploy; solve_emits).
    apply H.
Qed.

End VariantSeparation.

Section Preflight.

Import Sh Script Obs.

Lemma in_bind_left {A B} (m : M A) (k : A -> M B) w n e :
  In e (events (m w n)) -> In e (events (bind m k w n)).
Proof.
  intros H. unfold bind. destruct (outcome (m w n)); cbn [events]; auto.
  apply in_or_app. left. exact H.
Qed.

Lemma reaches_in {A} (P : Event -> bool) (whole part : Run A) e :
  reaches P whole part -> In e (events part) -> In e (events whole).
Proof.
  intros (t & _ & He & _) H. rewrite He. apply in_or_app. right. exact H.
Qed.

Lemma existsb_bind_left {A B} (Q : Event -> bool) (m : M A) (k : A -> M B) w n :
  existsb Q (events (m w n)) = true ->
  existsb Q (events (bind m k w n)) = true.
Proof.
  intros H. apply existsb_exists in H as (e & Hin & HQ).
  apply existsb_exists. exists e. split; [apply in_bind_left, Hin|exact HQ].
Qed.

Lemma check_aws_cli_run (w : World) (n : nat) :
  check_aws_cli w n
  = if succeeded (w n)
    then {| outcome := Ret tt; next := S n;
            events := [Ran StsGetCallerIdentity (w n)] |}
    else {| outcome := Exit 1; next := S n;
            events := [Ran StsGetCallerIdentity (w n); Echo identity_message] |}.
Proof.
  unfold check_aws_cli, bind, exec. cbn.
  destruct (succeeded (w n)); reflexivity.
Qed.

Lemma check_docker_run (w : World) (n : nat) :
  check_docker w n
  = if succeeded (w n)
    then {| outcome := Ret tt; next := S n; events := [Ran DockerInfo (w n)] |}
    else {| outcome := Exit 1; next := S n;
            events := [Ran DockerInfo (w n); Echo docker_message] |}.
Proof.
  unfold check_docker, bind, exec. cbn.
  destruct (succeeded (w n)); reflexivity.
Qed.

(** The run stops inside [m], which is the head of what is left. *)
Lemma stops_here {A B} (P : Event -> bool) (whole : Run B)
    (m : M A) (k : A -> M B) w n c e :
  reaches P whole (bind m k w n) ->
  emits P m ->
  outcome (m w n) = Exit c ->
  In e (events (m w n)) ->
  outcome whole = Exit c
  /\ forallb P (events whole) = true
  /\ In e (events whole).
Proof.
  intros HR Hm Ho Hin.
  destruct (reaches_exit P whole m k w n c Hm Ho HR) as [Hout Hall].
  repeat split; auto.
  apply (reaches_in P whole _ e HR). apply in_bind_left. exact Hin.
Qed.

Lemma identity_failure_stops {B} (whole : Run B) (k : unit -> M B) w n r :
  reaches before_identity_message whole (bind check_aws_cli k w n) ->
  (forall a, emits (never is_identity_check) (k a)) ->
  In (Ran StsGetCallerIdentity r) (events (bind check_aws_cli k w n)) ->
  succeeded r = false ->
  outcome whole = Exit 1
  /\ forallb before_identity_message (events whole) = true
  /\ In (Echo identity_message) (events whole).
Proof.
  intros HR Hk H Hr.
  apply stay with (Q := is_identity_check) in H; [|exact Hk|reflexivity].
  assert (Hem : emits before_identity_message check_aws_cli)
    by (unfold check_aws_cli; solve_emits).
  rewrite check_aws_cli_run in H.
  destruct (succeeded (w n)) eqn:Hw.
  - destruct H as [H|[]]. inversion H; subst r. congruence.
  - apply (stops_here _ whole check_aws_cli k w n 1 _ HR Hem);
      rewrite check_aws_cli_run, Hw; cbn; auto.
Qed.

Lemma prepare_identity_failure arg1 w n r :
  In (Ran StsGetCallerIdentity r) (events (prepare arg1 w n)) ->
  succeeded r = false ->
  outcome (prepare arg1 w n) = Exit 1
  /\ forallb before_identity_message (events (prepare arg1 w n)) = true
  /\ In (Echo identity_message) (events (prepare arg1 w n)).
Proof.
  intros H Hr. set (whole := prepare arg1 w n).
  assert (HR : reaches before_identity_message whole (prepare arg1 w n))
    by apply reaches_refl.
  clearbody whole. unfold prepare in H, HR.
  do 2 walk_step before_identity_message is_identity_check HR H.
  apply (identity_failure_stops whole _ w _ r HR); auto.
  intro; solve_emits.
Qed.

Lemma prepare_no_docker_identity_failure arg1 w n r :
  In (Ran StsGetCallerIdentity r) (events (prepare_no_docker arg1 w n)) ->
  succeeded r = false ->
  outcome (prepare_no_docker arg1 w n) = Exit 1
  /\ forallb before_identity_message (events (prepare_no_docker arg1 w n)) = true
  /\ In (Echo identity_message) (events (prepare_no_docker arg1 w n)).
Proof.
  intros H Hr. set (whole := prepare_no_docker arg1 w n).
  assert (HR : reaches before_identity_message whole (prepare_no_docker arg1 w n))
    by apply reaches_refl.
  clearbody whole. unfold prepare_no_docker in H, HR.
  do 2 walk_step before_identity_message is_identity_check HR H.
  apply (identity_failure_stops whole _ w _ r HR); auto.
  intro; solve_emits.
Qed.

(** X2. In a run of either script in which [aws sts get-caller-identity]
    fails, the process ends with status 1 after printing how to configure
    the AWS CLI, and nothing was run but the identity check (and whoami
    before it). *)
Theorem X2_identity_check_fails_fast :
  forall (v : Variant) (arg1 aws_region : option string) (w : World) (r : Result),
    let run := start (workflow v arg1 aws_region) w in
    In (Ran StsGetCallerIdentity r) (events run) ->
    succeeded r = false ->
    exit_code run = Some 1
    /\ In (Echo "AWS CLI not configured. Run 'aws configure --profile my-profile' first.")
          (events run)
    /\ forallb before_identity_message (events run) = true.
Proof.
  intros v arg1 aws_region w r run H Hr. subst run.
  unfold start, workflow in *.
  destruct v as [|fuel];
    [unfold deploy in * | unfold deploy_no_docker in *]; cbv zeta in *;
    (apply stay with (Q := is_identity_check) in H;
     [|intro; solve_emits|reflexivity]);
    [destruct (prepare_identity_failure arg1 w 0 r H Hr) as (Ho & Hall & Hin)
    |destruct (prepare_no_docker_identity_failure arg1 w 0 r H Hr)
       as (Ho & Hall & Hin)];
    match goal with
    | |- context [bind ?m ?k w 0] =>
        destruct (bind_exit m k w 0 1 Ho) as [Ho' He']
    end;
    unfold exit_code; rewrite Ho', He'; auto.
Qed.

End Preflight.

Section DockerAndBootstrap.

Import Sh Script Obs.

Lemma run_run (c : Cmd) (w : World) (n : nat) :
  run c w n
  = {| outcome := if succeeded (w n) then Ret tt else Exit (rc (w n));
       next := S n;
       events := [Ran c (w n)] |}.
Proof.
  unfold run, bind, exec. cbn. destruct (succeeded (w n)); reflexivity.
Qed.

Lemma prepare_docker_failure arg1 w n r :
  In (Ran DockerInfo r) (events (prepare arg1 w n)) ->
  succeeded r = false ->
  outcome (prepare arg1 w n) = Exit 1
  /\ forallb before_docker_message (events (prepare arg1 w n)) = true
  /\ In (Echo docker_message) (events (prepare arg1 w n)).
Proof.
  intros H Hr. set (whole := prepare arg1 w n).
  assert (HR : reaches before_docker_message whole (prepare arg1 w n))
    by apply reaches_refl.
  clearbody whole. unfold prepare in H, HR.
  do 3 walk_step before_docker_message is_docker_check HR H.
  apply stay with (Q := is_docker_check) in H;
    [|intro; solve_emits|reflexivity].
  assert (Hem : emits before_docker_message check_docker)
    by (unfold check_docker; solve_emits).
  match type of H with
  | In _ (events (check_docker ?w ?n)) =>
      rewrite check_docker_run in H;
      destruct (succeeded (w n)) eqn:Hw;
      [destruct H as [H|[]]; inversion H; subst r; congruence
      |apply (stops_here _ whole check_docker _ w n 1 _ HR Hem);
       rewrite check_docker_run, Hw; cbn; auto]
  end.
Qed.

(** X3. In a run of deploy.sh in which [docker info] fails, the process
    ends with status 1 after printing that Docker is not running, and
    nothing was run but whoami, the identity check and the Docker check. *)
Theorem X3_docker_check_fails_fast :
  forall (arg1 aws_region : option string) (w : World) (r : Result),
    let run := start (deploy arg1 aws_region) w in
    In (Ran DockerInfo r) (events run) ->
    succeeded r = false ->
    exit_code run = Some 1
    /\ In (Echo "Docker is not running. Please start Docker first.") (events run)
    /\ forallb before_docker_message (events run) = true.
Proof.
  intros arg1 aws_region w r run H Hr. subst run.
  unfold start, deploy in *. cbv zeta in *.
  apply stay with (Q := is_docker_check) in H;
    [|intro; solve_emits|reflexivity].
  destruct (prepare_docker_failure arg1 w 0 r H Hr) as (Ho & Hall & Hin).
  match goal with
  | |- context [bind ?m ?k w 0] =>
      destruct (bind_exit m k w 0 1 Ho) as [Ho' He']
  end.
  unfold exit_code. rewrite Ho', He'. auto.
Qed.

Lemma prepare_bootstrap_failure arg1 w n r :
  In (Ran CdkBootstrap r) (events (prepare arg1 w n)) ->
  succeeded r = false ->
  outcome (prepare arg1 w n) = Exit (rc r).
Proof.
  intros H Hr. set (whole := prepare arg1 w n).
  assert (HR : reaches (fun _ => true) whole (prepare arg1 w n))
    by apply reaches_refl.
  clearbody whole. unfold prepare in H, HR.
  do 7 walk_step (fun _ : Event => true) is_cdk_bootstrap HR H.
  apply stay with (Q := is_cdk_bootstrap) in H;
    [|intro; solve_emits|reflexivity].
  match type of H with
  | In _ (events (run _ _ ?N)) => set (n1 := N) in *; clearbody n1
  end.
  rewrite run_run in H. destruct H as [H|[]]. inversion H; subst r.
  match type of HR with
  | reaches _ _ (bind ?m ?k ?w ?n) =>
      refine (proj1 (reaches_exit _ whole m k w n _ _ _ HR));
      [solve_emits | rewrite run_run, Hr; reflexivity]
  end.
Qed.

Lemma prepare_no_docker_past_bootstrap arg1 w n r :
  In (Ran CdkBootstrap r) (events (prepare_no_docker arg1 w n)) ->
  completed (prepare_no_docker arg1 w n).
Proof.
  intros H. set (whole := prepare_no_docker arg1 w n).
  assert (HR : reaches (fun _ => true) whole (prepare_no_docker arg1 w n))
    by apply reaches_refl.
  clearbody whole. unfold prepare_no_docker in H, HR.
  do 6 walk_step (fun _ : Event => true) is_cdk_bootstrap HR H.
  destruct HR as (t & _ & _ & Hout).
  match type of Hout with
  | _ = outcome ((_ ;; ret ?e) _ _) => exists e
  end.
  rewrite Hout. reflexivity.
Qed.

Lemma probe_and_bootstrap_probes environment region w n :
  existsb is_probe (events (probe_and_bootstrap environment region w n)) = true.
Proof.
  unfold probe_and_bootstrap, probe.
  rewrite (bind_ret (capture_or (DescribeStacks (stack_name environment) region)
                       "NONE") _ w n (or_output (w n) "NONE") eq_refl).
  reflexivity.
Qed.

(** X4. A failing [cdk bootstrap] ends deploy.sh with the status of
    that command, before the stack is probed; deploy-no-docker.sh
    tolerates it and goes on to probe the stack whatever [cdk bootstrap]
    answered. *)
Theorem X4_bootstrap_failure_is_fatal_only_in_deploy_sh :
  (forall (arg1 aws_region : option string) (w : World) (r : Result),
      let run := start (deploy arg1 aws_region) w in
      In (Ran CdkBootstrap r) (events run) ->
      succeeded r = false ->
      exit_code run = Some (rc r)
      /\ existsb is_probe (events run) = false)
  /\ (forall (fuel : nat) (arg1 aws_region : option string) (w : World)
             (r : Result),
         let run := start (deploy_no_docker fuel arg1 aws_region) w in
         In (Ran CdkBootstrap r) (events run) ->
         existsb is_probe (events run) = true).
Proof.
  split.
  - intros arg1 aws_region w r run H Hr. subst run.
    unfold start, deploy in *. cbv zeta in *.
    apply stay with (Q := is_cdk_bootstrap) in H;
      [|intro; solve_emits|reflexivity].
    pose proof (prepare_bootstrap_failure arg1 w 0 r H Hr) as Ho.
    match goal with
    | |- context [bind ?m ?k w 0] =>
        destruct (bind_exit m k w 0 _ Ho) as [Ho' He']
    end.
    unfold exit_code. rewrite Ho', He'. split; [reflexivity|].
    apply never_existsb.
    assert (Hem : emits (never is_probe) (prepare arg1))
      by (unfold prepare; solve_emits).
    apply Hem.
  - intros fuel arg1 aws_region w r run H. subst run.
    unfold start, deploy_no_docker in *. cbv zeta in *.
    apply stay with (Q := is_cdk_bootstrap) in H;
      [|intro; solve_emits|reflexivity].
    destruct (prepare_no_docker_past_bootstrap arg1 w 0 r H) as (e & Ho).
    rewrite (bind_ret _ _ w 0 e Ho), events_prepend, existsb_app.
    apply orb_true_iff. right.
    apply existsb_bind_left, probe_and_bootstrap_probes.
Qed.

End DockerAndBootstrap.

Section Ordering.

Import Sh Script Obs.

Lemma ret_step {A B} (m : M A) (k : A -> M B) w n b :
  outcome (bind m k w n) = Ret b ->
  exists a, outcome (m w n) = Ret a
            /\ outcome (k a w (next (m w n))) = Ret b
            /\ (forall x, In x (events (k a w (next (m w n)))) ->
                          In x (events (bind m k w n))).
Proof.
  unfold bind. destruct (outcome (m w n)) as [a| |] eqn:Ho; cbn;
    try discriminate.
  intros Hb. exists a. repeat split; auto.
  intros x Hx. apply in_or_app. right. exact Hx.
Qed.

(** As [walk], keeping the events gone through: [E] is the trace of the
    whole run and [T] what came before the bind. *)
Lemma walk_eq {A B} (Q : Event -> bool) (m : M A) (k : A -> M B) w n e
    (E T : list Event) :
  emits (never Q) m -> Q e = true ->
  In e (events (bind m k w n)) ->
  E = (T ++ events (bind m k w n))%list ->
  exists a, outcome (m w n) = Ret a
            /\ In e (events (k a w (next (m w n))))
            /\ E = ((T ++ events (m w n)) ++ events (k a w (next (m w n))))%list.
Proof.
  intros Hm HQ Hin HE.
  destruct (walk m k w n Q e Hm HQ Hin) as (a & Ho & Hin').
  exists a. repeat split; auto.
  rewrite HE, (bind_ret m k w n a Ho), events_prepend, app_assoc. reflexivity.
Qed.

Lemma fetch_repository_uri_ret environment region w n uri :
  outcome (fetch_repository_uri environment region w n) = Ret uri ->
  In (Ran (DescribeStackOutput (stack_name environment) "RepositoryUri" region)
        (w n))
     (events (fetch_repository_uri environment region w n))
  /\ succeeded (w n) = true
  /\ captured (w n) = uri
  /\ uri <> "" /\ uri <> "None".
Proof.
  unfold fetch_repository_uri. rewrite bind_capture.
  destruct (succeeded (w n)); [|discriminate].
  destruct (String.eqb (captured (w n)) "None" || test_z (captured (w n)))
    eqn:Hc; [discriminate|].
  cbn. intros Huri. inversion Huri as [Hu]. rewrite Hu in *.
  apply orb_false_iff in Hc as [Hnone Hz].
  apply String.eqb_neq in Hnone.
  repeat split; auto.
  intros ->. discriminate Hz.
Qed.

Lemma run_ret (c : Cmd) (w : World) (n : nat) :
  outcome (run c w n) = Ret tt -> succeeded (w n) = true.
Proof.
  rewrite run_run. cbn. destruct (succeeded (w n)); [reflexivity|discriminate].
Qed.

Lemma build_and_push_ret region uri w n :
  outcome (build_and_push region uri w n) = Ret tt ->
  exists rp, In (Ran (DockerPush (uri ++ ":latest")) rp)
                (events (build_and_push region uri w n))
             /\ succeeded rp = true.
Proof.
  unfold build_and_push. intros H.
  repeat match type of H with
         | outcome (bind ?m ?k ?w ?n) = Ret _ =>
             let a := fresh "a" in
             let Hk := fresh "Hk" in
             let Hin := fresh "Hin" in
             destruct (ret_step m k w n _ H) as (a & _ & Hk & Hin);
             clear H; rename Hk into H; cbv beta in H, Hin
         end.
  match type of H with
  | outcome (run _ ?w ?n) = _ => exists (w n)
  end.
  split; [|exact (run_ret _ _ _ H)].
  repeat match goal with
         | Hin : forall x, In x _ -> In x ?E |- In _ ?E => apply Hin; clear Hin
         end.
  rewrite run_events. left. reflexivity.
Qed.

Lemma deploy_stack_ret dir banner environment w n :
  outcome (deploy_stack dir banner environment w n) = Ret tt ->
  exists r, In (Ran (CdkDeploy environment None) r)
               (events (deploy_stack dir banner environment w n))
            /\ succeeded r = true.
Proof.
  unfold deploy_stack. intros H.
  repeat match type of H with
         | outcome (bind ?m ?k ?w ?n) = Ret _ =>
             let a := fresh "a" in
             let Hk := fresh "Hk" in
             let Hin := fresh "Hin" in
             destruct (ret_step m k w n _ H) as (a & _ & Hk & Hin);
             clear H; rename Hk into H; cbv beta in H, Hin
         end.
  match type of H with
  | outcome (run _ ?w ?n) = _ => exists (w n)
  end.
  split; [|exact (run_ret _ _ _ H)].
  repeat match goal with
         | Hin : forall x, In x _ -> In x ?E |- In _ ?E => apply Hin; clear Hin
         end.
  rewrite run_events. left. reflexivity.
Qed.

Lemma deploy_stack_environment dir banner environment w n e r :
  In (Ran (CdkDeploy e None) r)
     (events (deploy_stack dir banner environment w n)) ->
  e = environment.
Proof.
  unfold deploy_stack. intros H.
  apply in_bind in H as [H|(a & _ & H)].
  - rewrite run_events in H. destruct H as [H|[]]. discriminate H.
  - apply in_bind in H as [H|(b & _ & H)].
    + destruct H as [H|[]]. discriminate H.
    + rewrite run_events in H. destruct H as [H|[]].
      inversion H. reflexivity.
Qed.

End Ordering.

(** As [walk_step], for a trace equation [Hev] in place of [reaches];
    the value and the outcome of the fragment walked over stay in the
    context as [a] and [Ho]. *)
Ltac walk_keep Q Hev H a Ho :=
  lazymatch type of H with
  | In ?e (Sh.events (Sh.bind ?m ?k ?w ?n)) =>
      let Hin := fresh "Hin" in
      let Hev' := fresh "Hev" in
      destruct (walk_eq Q m k w n e _ _ ltac:(solve_emits) eq_refl H Hev)
        as (a & Ho & Hin & Hev');
      clear H Hev; rename Hin into H; rename Hev' into Hev;
      cbv beta in H, Hev
  end.

Section DeployAfterPublish.

Import Sh Script Obs.

(** X5. In a run of deploy.sh, the full [cdk deploy] is executed only
    after the registry URI was read with success as a non-empty value
    other than None, and after [docker push] of that URI with tag latest
    succeeded. *)
Theorem X5_deploy_sh_deploys_only_after_push :
  forall (arg1 aws_region : option string) (w : World) (e : string) (r : Result),
    let run := start (deploy arg1 aws_region) w in
    In (Ran (CdkDeploy e None) r) (events run) ->
    exists before after uri rq rp,
      events run = (before ++ after)%list
      /\ In (Ran (CdkDeploy e None) r) after
      /\ In (Ran (DescribeStackOutput ("FastApiRunner-" ++ e) "RepositoryUri"
                    (resolve_region aws_region)) rq) before
      /\ succeeded rq = true
      /\ captured rq = uri /\ uri <> "" /\ uri <> "None"
      /\ In (Ran (DockerPush (uri ++ ":latest")) rp) before
      /\ succeeded rp = true.
Proof.
  intros arg1 aws_region w e r run H.
  assert (Hev : events run = ([] ++ events (deploy arg1 aws_region w 0))%list)
    by reflexivity.
  unfold run, start in H. clearbody run.
  unfold deploy in H, Hev. cbv zeta in H, Hev.
  walk_keep is_full_deploy Hev H env Henv.
  walk_keep is_full_deploy Hev H u Hpb.
  walk_keep is_full_deploy Hev H uri Huri.
  walk_keep is_full_deploy Hev H u' Hpush. destruct u'.
  destruct (fetch_repository_uri_ret _ _ _ _ _ Huri)
    as (Hq & Hok & Hcap & Hne & Hnone).
  destruct (build_and_push_ret _ _ _ _ Hpush) as (rp & Hp & Hpok).
  assert (He : e = env).
  { apply stay with (Q := is_full_deploy) in H;
      [|intro; solve_emits|reflexivity].
    exact (deploy_stack_environment _ _ _ _ _ _ _ H). }
  subst e.
  do 2 eexists. exists uri. do 2 eexists.
  split; [exact Hev|]. split; [exact H|].
  split; [apply in_or_app; left; apply in_or_app; right; exact Hq|].
  split; [exact Hok|]. split; [exact Hcap|].
  split; [exact Hne|]. split; [exact Hnone|].
  split; [apply in_or_app; right; exact Hp|exact Hpok].
Qed.

Lemma poll_loop_ret region project_name build_id fuel :
  forall (w : World) (n : nat),
    outcome (poll_loop fuel region project_name build_id w n) = Ret tt ->
    exists r, In (Ran (BatchGetBuilds build_id region) r)
                 (events (poll_loop fuel region project_name build_id w n))
              /\ succeeded r = true
              /\ captured r = "SUCCEEDED".
Proof.
  induction fuel as [|fuel IH]; intros w n H; [discriminate H|].
  cbn [poll_loop] in H |- *. unfold bind in H |- *.
  rewrite poll_iteration_run in H |- *. cbv zeta in H |- *.
  destruct (succeeded (w n)) eqn:Hw; [|discriminate H].
  destruct (String.eqb (captured (w n)) "SUCCEEDED") eqn:Hs.
  - exists (w n). apply String.eqb_eq in Hs. cbn. auto.
  - destruct (build_failed (captured (w n))); [discriminate H|].
    cbn [outcome next events] in H |- *.
    destruct (IH w (S n) H) as (r & Hin & Hok & Hcap).
    exists r. split; [apply in_or_app; right; exact Hin|auto].
Qed.

(** X6. In a run of deploy-no-docker.sh, the full [cdk deploy] is
    executed only after a status query of the build answered SUCCEEDED. *)
Theorem X6_deploy_no_docker_deploys_only_after_success :
  forall (fuel : nat) (arg1 aws_region : option string) (w : World)
         (e : string) (r : Result),
    let run := start (deploy_no_docker fuel arg1 aws_region) w in
    In (Ran (CdkDeploy e None) r) (events run) ->
    exists before after build rs,
      events run = (before ++ after)%list
      /\ In (Ran (CdkDeploy e None) r) after
      /\ In (Ran (BatchGetBuilds build (resolve_region aws_region)) rs) before
      /\ succeeded rs = true
      /\ captured rs = "SUCCEEDED".
Proof.
  intros fuel arg1 aws_region w e r run H.
  assert (Hev : events run
                = ([] ++ events (deploy_no_docker fuel arg1 aws_region w 0))%list)
    by reflexivity.
  unfold run, start in H. clearbody run.
  unfold deploy_no_docker in H, Hev. cbv zeta in H, Hev.
  do 8 (let a := fresh "a" in let Ho := fresh "Ho" in
        walk_keep is_full_deploy Hev H a Ho).
  walk_keep is_full_deploy Hev H u Hloop. destruct u.
  destruct (poll_loop_ret _ _ _ _ _ _ Hloop) as (rs & Hin & Hok & Hcap).
  do 2 eexists. exists a6, rs.
  split; [exact Hev|]. split; [exact H|].
  split; [apply in_or_app; right; exact Hin|].
  split; [exact Hok|exact Hcap].
Qed.

End DeployAfterPublish.

Section ExitStatus.

Import Sh Script Obs.

Lemma nz_ret {A} (a : A) : exits_nonzero (ret a).
Proof. intros w n c H. discriminate H. Qed.

Lemma nz_exit {A} (c : nat) : c <> 0 -> exits_nonzero (@exit A c).
Proof. intros Hc w n c' H. inversion H. subst. exact Hc. Qed.

Lemma nz_spin {A} : exits_nonzero (@spin A).
Proof. intros w n c H. discriminate H. Qed.

Lemma nz_echo (line : string) : exits_nonzero (echo line).
Proof. intros w n c H. discriminate H. Qed.

Lemma nz_sleep (s : nat) : exits_nonzero (sleep s).
Proof. intros w n c H. discriminate H. Qed.

Lemma nz_exec (c : Cmd) : exits_nonzero (exec c).
Proof. intros w n c' H. discriminate H. Qed.

Lemma nz_bind {A B} (m : M A) (k : A -> M B) :
  exits_nonzero m -> (forall a, exits_nonzero (k a)) -> exits_nonzero (bind m k).
Proof.
  intros Hm Hk w n c. unfold bind.
  destruct (outcome (m w n)) as [a| |] eqn:Ho; cbn; intros H.
  - exact (Hk a w _ c H).
  - inversion H. subst. exact (Hm w n c Ho).
  - discriminate H.
Qed.

Lemma nz_if {A} (b : bool) (m1 m2 : M A) :
  exits_nonzero m1 -> exits_nonzero m2 -> exits_nonzero (if b then m1 else m2).
Proof. destruct b; auto. Qed.

Lemma nz_run (c : Cmd) : exits_nonzero (run c).
Proof.
  intros w n c'. rewrite run_run. cbn.
  destruct (succeeded (w n)) eqn:Hw; intros H; [discriminate H|].
  inversion H. subst. unfold succeeded in Hw. apply Nat.eqb_neq in Hw. exact Hw.
Qed.

Lemma nz_capture (c : Cmd) : exits_nonzero (capture c).
Proof.
  intros w n c'. rewrite capture_run. cbn.
  destruct (succeeded (w n)) eqn:Hw; intros H; [discriminate H|].
  inversion H. subst. unfold succeeded in Hw. apply Nat.eqb_neq in Hw. exact Hw.
Qed.

Lemma nz_run_or_true (c : Cmd) : exits_nonzero (run_or_true c).
Proof. intros w n c' H. discriminate H. Qed.

Lemma nz_capture_or (c : Cmd) (fallback : string) :
  exits_nonzero (capture_or c fallback).
Proof. intros w n c' H. discriminate H. Qed.

Lemma nz_poll_loop fuel region project_name build_id :
  exits_nonzero (poll_loop fuel region project_name build_id).
Proof.
  induction fuel as [|fuel IH]; cbn [poll_loop].
  - apply nz_spin.
  - apply nz_bind.
    + intros w n c. rewrite poll_iteration_run. cbv zeta.
      destruct (succeeded (w n)) eqn:Hw.
      * destruct (String.eqb _ _); [discriminate|].
        destruct (build_failed _); [|discriminate].
        intros H. inversion H. discriminate.
      * intros H. inversion H. subst. unfold succeeded in Hw.
        apply Nat.eqb_neq in Hw. exact Hw.
    + intros [|]; [apply nz_ret|exact IH].
Qed.

End ExitStatus.

Ltac nz_step :=
  lazymatch goal with
  | |- Obs.exits_nonzero (Sh.ret _) => apply nz_ret
  | |- Obs.exits_nonzero (Sh.exit _) => apply nz_exit; discriminate
  | |- Obs.exits_nonzero Sh.spin => apply nz_spin
  | |- Obs.exits_nonzero (Sh.echo _) => apply nz_echo
  | |- Obs.exits_nonzero (Sh.sleep _) => apply nz_sleep
  | |- Obs.exits_nonzero (Sh.exec _) => apply nz_exec
  | |- Obs.exits_nonzero (Script.run _) => apply nz_run
  | |- Obs.exits_nonzero (Script.capture _) => apply nz_capture
  | |- Obs.exits_nonzero (Script.run_or_true _) => apply nz_run_or_true
  | |- Obs.exits_nonzero (Script.capture_or _ _) => apply nz_capture_or
  | |- Obs.exits_nonzero (Script.poll_loop _ _ _ _) => apply nz_poll_loop
  | |- Obs.exits_nonzero (if _ then _ else _) => apply nz_if
  | |- Obs.exits_nonzero (Sh.bind _ _) => apply nz_bind; [|intro]
  | |- Obs.exits_nonzero ?m => let h := head_of m in unfold h
  end.

Ltac solve_nz := repeat (cbv zeta; nz_step).

Section ZeroStatus.

Import Sh Script Obs.

Lemma workflow_exits_nonzero v arg1 aws_region :
  exits_nonzero (workflow v arg1 aws_region).
Proof. destruct v; cbn [workflow]; solve_nz. Qed.

(** X7. Either script ends with status 0 only by running to its last
    line, and then the full [cdk deploy] was executed and succeeded. *)
Theorem X7_zero_status_means_deployed :
  forall (v : Variant) (arg1 aws_region : option string) (w : World),
    let run := start (workflow v arg1 aws_region) w in
    exit_code run = Some 0 ->
    outcome run = Ret tt
    /\ exists e r, In (Ran (CdkDeploy e None) r) (events run)
                   /\ succeeded r = true.
Proof.
  intros v arg1 aws_region w run Hcode.
  assert (H : outcome run = Ret tt).
  { unfold exit_code in Hcode.
    destruct (outcome run) as [[]|c|] eqn:Ho; [reflexivity| |discriminate].
    inversion Hcode. subst c.
    exfalso. exact (workflow_exits_nonzero v arg1 aws_region w 0 0 Ho eq_refl). }
  split; [exact H|].
  unfold run, start, workflow in *. clear Hcode.
  destruct v as [|fuel];
    [unfold deploy in * | unfold deploy_no_docker in *]; cbv zeta in *;
    repeat match type of H with
           | outcome (bind (deploy_stack _ _ _) _ _ _) = Ret _ => fail 1
           | outcome (bind ?m ?k ?w ?n) = Ret _ =>
               let a := fresh "a" in
               let Hk := fresh "Hk" in
               let Hin := fresh "Hin" in
               destruct (ret_step m k w n _ H) as (a & _ & Hk & Hin);
               clear H; rename Hk into H; cbv beta in H, Hin
           end;
    match type of H with
    | outcome (bind ?m ?k ?w ?n) = Ret _ =>
        destruct (ret_step m k w n _ H) as (a' & Hd & _ & _);
        destruct a';
        destruct (deploy_stack_ret _ _ _ _ _ Hd) as (r & Hr & Hok);
        match type of Hr with
        | In (Ran (CdkDeploy ?e None) _) _ => exists e, r
        end;
        split; [|exact Hok];
        repeat match goal with
               | Hin : forall x, In x _ -> In x ?E |- In _ ?E =>
                   apply Hin; clear Hin
               end;
        apply in_bind_left; exact Hr
    end.
Qed.

End ZeroStatus.

Section AtMostOnce.

Import Sh Script Obs.

Lemma atmost_zero {A} (Q : Event -> bool) (m : M A) :
  emits (never Q) m -> atmost Q 0 m.
Proof.
  intros Hm w n. specialize (Hm w n).
  induction (events (m w n)) as [|e t IH]; cbn in *; [lia|].
  apply andb_true_iff in Hm as [He Ht]. unfold never in He.
  apply negb_true_iff in He. rewrite He. exact (IH Ht).
Qed.

Lemma atmost_bind {A B} (Q : Event -> bool) (c1 c2 : nat)
    (m : M A) (k : A -> M B) :
  atmost Q c1 m -> (forall a, atmost Q c2 (k a)) -> atmost Q (c1 + c2) (bind m k).
Proof.
  intros Hm Hk w n. unfold bind. specialize (Hm w n).
  destruct (outcome (m w n)) as [a| |]; cbn [events]; try lia.
  rewrite filter_app, length_app. specialize (Hk a w (next (m w n))). lia.
Qed.

Lemma atmost_run (Q : Event -> bool) (c : Cmd) : atmost Q 1 (run c).
Proof.
  intros w n. rewrite run_events. cbn. destruct (Q _); cbn; lia.
Qed.

Lemma atmost_if {A} (Q : Event -> bool) (c : nat) (b : bool) (m1 m2 : M A) :
  atmost Q c m1 -> atmost Q c m2 -> atmost Q c (if b then m1 else m2).
Proof. destruct b; auto. Qed.

Lemma deploy_stack_once dir banner environment :
  atmost is_full_deploy 1 (deploy_stack dir banner environment).
Proof.
  unfold deploy_stack.
  apply (atmost_bind _ 0 1); [apply atmost_zero; solve_emits|intro].
  apply (atmost_bind _ 0 1); [apply atmost_zero; solve_emits|intro].
  apply atmost_run.
Qed.

Lemma probe_and_bootstrap_once environment region :
  atmost is_bootstrap 1 (probe_and_bootstrap environment region).
Proof.
  unfold probe_and_bootstrap.
  apply (atmost_bind _ 0 1); [apply atmost_zero; unfold probe; solve_emits|intro].
  apply atmost_if.
  - apply (atmost_bind _ 0 1); [apply atmost_zero; solve_emits|intro].
    apply atmost_run.
  - intros w n. cbn. lia.
Qed.

(** X8. No run of either script executes the full [cdk deploy] more
    than once, nor the registry-only [cdk deploy] more than once. *)
Theorem X8_each_deploy_at_most_once :
  forall (v : Variant) (arg1 aws_region : option string) (w : World),
    let run := start (workflow v arg1 aws_region) w in
    length (filter is_full_deploy (events run)) <= 1
    /\ length (filter is_bootstrap (events run)) <= 1.
Proof.
  intros v arg1 aws_region w run. subst run. unfold start.
  assert (Hfull : atmost is_full_deploy 1 (workflow v arg1 aws_region)).
  { destruct v as [|fuel]; cbn [workflow];
      [unfold deploy | unfold deploy_no_docker]; cbv zeta;
      repeat lazymatch goal with
             | |- atmost _ _ (bind (deploy_stack _ _ _) _) =>
                 apply (atmost_bind _ 1 0);
                 [apply deploy_stack_once
                 |intro; apply atmost_zero; solve_emits]
             | |- atmost _ _ (bind _ _) =>
                 apply (atmost_bind _ 0 1);
                 [apply atmost_zero; solve [solve_emits]|intro]
             end. }
  assert (Hboot : atmost is_bootstrap 1 (workflow v arg1 aws_region)).
  { destruct v as [|fuel]; cbn [workflow];
      [unfold deploy | unfold deploy_no_docker]; cbv zeta;
      (apply (atmost_bind _ 0 1);
       [apply atmost_zero; solve [solve_emits]|intro]);
      (apply (atmost_bind _ 1 0);
       [apply probe_and_bootstrap_once
       |intro; apply atmost_zero; solve_emits]). }
  split; [apply Hfull|apply Hboot].
Qed.

End AtMostOnce.

Section PollingSequences.

Import Sh Script Obs.

Variables region project_name build_id : string.

Let loop (fuel : nat) := poll_loop fuel region project_name build_id.

(** X9. When the first [m] status queries answer non-terminal statuses
    and the next one answers SUCCEEDED, the loop is left after exactly
    [m + 1] queries and [m] sleeps of 10, with the same trace for any
    larger number of unfolded iterations. *)
Theorem X9_loop_waits_then_succeeds :
  forall (m : nat) (w : World) (n extra : nat),
    (forall i, i < m ->
               succeeded (w (n + i)) = true
               /\ terminal (captured (w (n + i))) = false) ->
    succeeded (w (n + m)) = true ->
    captured (w (n + m)) = "SUCCEEDED" ->
    loop (S m + extra) w n
    = {| outcome := Ret tt;
         next := S (n + m);
         events :=
           (flat_map (fun i => waiting region build_id (w (n + i))) (seq 0 m)
            ++ [ Ran (BatchGetBuilds build_id region) (w (n + m));
                 Echo "Build completed successfully!" ])%list |}.
Proof.
  induction m as [|m IH]; intros w n extra Hwait Hok Hdone.
  - rewrite Nat.add_0_r in *. unfold loop. cbn [Nat.add poll_loop].
    unfold bind. rewrite poll_iteration_run. cbv zeta.
    rewrite Hok, Hdone. reflexivity.
  - destruct (Hwait 0) as [Hok0 Hterm0]; [lia|].
    rewrite Nat.add_0_r in Hok0, Hterm0.
    unfold loop. change (S (S m) + extra) with (S (S m + extra)).
    rewrite (poll_loop_waits region project_name build_id w n _ Hok0 Hterm0).
    fold (loop (S m + extra)).
    rewrite (IH w (S n) extra).
    + unfold prepend. cbn [outcome next events].
      replace (S (S n + m)) with (S (n + S m)) by lia.
      f_equal. cbn [seq flat_map]. rewrite Nat.add_0_r.
      rewrite <- app_assoc. f_equal.
      rewrite <- seq_shift.
      replace (S n + m) with (n + S m) by lia. f_equal.
      generalize (seq 0 m). intros l.
      induction l as [|i l IHl]; [reflexivity|].
      cbn [map flat_map]. rewrite IHl.
      replace (S n + i) with (n + S i) by lia. reflexivity.
    + intros i Hi. replace (S n + i) with (n + S i) by lia. apply Hwait. lia.
    + replace (S n + m) with (n + S m) by lia. exact Hok.
    + replace (S n + m) with (n + S m) by lia. exact Hdone.
Qed.

End PollingSequences.

Section RemoteBuildEdges.

Import Sh Script Obs.

Lemma poll_loop_query_failure region project_name build_id fuel :
  forall (w : World) (n : nat) build g res,
    In (Ran (BatchGetBuilds build g) res)
       (events (poll_loop fuel region project_name build_id w n)) ->
    succeeded res = false ->
    outcome (poll_loop fuel region project_name build_id w n) = Exit (rc res)
    /\ exists t, events (poll_loop fuel region project_name build_id w n)
                 = (t ++ [Ran (BatchGetBuilds build g) res])%list.
Proof.
  induction fuel as [|fuel IH]; intros w n build g res Hin Hres.
  - destruct Hin.
  - cbn [poll_loop] in Hin |- *. unfold bind in Hin |- *.
    rewrite poll_iteration_run in Hin |- *. cbv zeta in Hin |- *.
    destruct (succeeded (w n)) eqn:Hw.
    + destruct (String.eqb (captured (w n)) "SUCCEEDED") eqn:Hs.
      * cbn in Hin. destruct Hin as [Hin|[Hin|[]]]; [|discriminate Hin].
        inversion Hin; subst res. congruence.
      * destruct (build_failed (captured (w n))) eqn:Hf.
        -- cbn in Hin. destruct Hin as [Hin|[Hin|[Hin|[]]]];
             try discriminate Hin.
           inversion Hin; subst res. congruence.
        -- cbn [outcome next events waiting] in Hin |- *.
           apply in_app_or in Hin as [Hin|Hin].
           ++ destruct Hin as [Hin|[Hin|[Hin|[]]]]; try discriminate Hin.
              inversion Hin; subst res. congruence.
           ++ destruct (IH w (S n) build g res Hin Hres) as (Ho & t & Ht).
              split; [exact Ho|].
              eexists. rewrite Ht, app_assoc. reflexivity.
    + cbn in Hin |- *. destruct Hin as [Hin|[]]. inversion Hin; subst.
      split; [reflexivity|]. exists []. reflexivity.
Qed.

(** X10. In a run of deploy-no-docker.sh, a status query that itself
    fails is not retried: it is the last thing the run does, the process
    ends with the status of the query, and no full deployment is run. *)
Theorem X10_failed_status_query_is_not_retried :
  forall (fuel : nat) (arg1 aws_region : option string) (w : World)
         (build region : string) (r : Result),
    let run := start (deploy_no_docker fuel arg1 aws_region) w in
    In (Ran (BatchGetBuilds build region) r) (events run) ->
    succeeded r = false ->
    exit_code run = Some (rc r)
    /\ (exists t, events run = (t ++ [Ran (BatchGetBuilds build region) r])%list)
    /\ existsb is_full_deploy (events run) = false.
Proof.
  intros fuel arg1 aws_region w build region r run H Hr.
  assert (HR : reaches (never is_full_deploy) run
                 (deploy_no_docker fuel arg1 aws_region w 0))
    by apply reaches_refl.
  unfold run, start in H. clearbody run.
  unfold deploy_no_docker in H, HR. cbv zeta in H, HR.
  do 8 walk_step (never is_full_deploy) is_status_query HR H.
  apply stay with (Q := is_status_query) in H;
    [|intro; solve_emits|reflexivity].
  destruct (poll_loop_query_failure _ _ _ _ _ _ _ _ _ H Hr) as (Hexit & t & Ht).
  match type of Hexit with
  | outcome (?m _ _) = _ =>
      assert (Hem : emits (never is_full_deploy) m) by solve_emits
  end.
  destruct (reaches_exit _ _ _ _ _ _ _ Hem Hexit HR) as [Hout Hall].
  split; [unfold exit_code; rewrite Hout; reflexivity|].
  split; [|exact (never_existsb _ _ Hall)].
  destruct HR as (t0 & _ & He & _).
  match type of He with
  | _ = (_ ++ events (bind ?m ?k ?w ?n))%list =>
      destruct (bind_exit m k w n _ Hexit) as [_ He']; rewrite He' in He
  end.
  exists (t0 ++ t)%list. rewrite He, Ht, app_assoc. reflexivity.
Qed.

Lemma ensure_project_existing environment region uri project_name w n :
  or_output (w n) "" <> "" ->
  events (ensure_project environment region uri project_name w n)
  = [Ran (ListProjects project_name region) (w n)].
Proof.
  intros Hne. unfold ensure_project.
  rewrite (bind_ret (capture_or (ListProjects project_name region) "")
             _ w n (or_output (w n) "") eq_refl).
  cbv beta. rewrite events_prepend.
  destruct (or_output (w n) "") as [|c s] eqn:Hout; [congruence|].
  reflexivity.
Qed.

Lemma ensure_project_lists environment region uri project_name w n p g r :
  In (Ran (ListProjects p g) r)
     (events (ensure_project environment region uri project_name w n)) ->
  r = w n.
Proof.
  unfold ensure_project. intros H.
  apply stay with (Q := is_list_projects) in H;
    [|intro; unfold codebuild_role; solve_emits|reflexivity].
  destruct H as [H|[]]. inversion H. reflexivity.
Qed.

(** X11. In a run of deploy-no-docker.sh in which [list-projects]
    prints a non-empty answer, none of the commands that set the project
    up is run: no IAM command, no bucket creation, no [create-project]. *)
Theorem X11_existing_project_is_not_recreated :
  forall (fuel : nat) (arg1 aws_region : option string) (w : World)
         (project region : string) (r : Result),
    let run := start (deploy_no_docker fuel arg1 aws_region) w in
    In (Ran (ListProjects project region) r) (events run) ->
    or_output r "" <> "" ->
    existsb is_project_setup (events run) = false.
Proof.
  intros fuel arg1 aws_region w project region r run H Hr.
  assert (HR : reaches (never is_project_setup) run
                 (deploy_no_docker fuel arg1 aws_region w 0))
    by apply reaches_refl.
  unfold run, start in H. clearbody run.
  unfold deploy_no_docker in H, HR. cbv zeta in H, HR.
  do 5 walk_step (never is_project_setup) is_list_projects HR H.
  rewrite (reaches_existsb _ _ _ HR).
  rewrite existsb_bind by (intro; solve_emits).
  apply stay with (Q := is_list_projects) in H;
    [|intro; solve_emits|reflexivity].
  rewrite (ensure_project_lists _ _ _ _ _ _ _ _ _ H) in Hr.
  rewrite (ensure_project_existing _ _ _ _ _ _ Hr). reflexivity.
Qed.

End RemoteBuildEdges.

Section ReportedUrl.

Import Sh Script Obs.

Lemma report_with_url script environment region (w : World) (n : nat) :
  let u := or_output (w n) "" in
  u <> "" -> u <> "None" ->
  In (Echo ("Service URL: " ++ u)) (events (report script environment region w n))
  /\ In (Echo ("  curl " ++ u ++ "/health"))
        (events (report script environment region w n))
  /\ ~ In (Echo "Note: Service URL not available yet. Check AWS Console for status.")
          (events (report script environment region w n)).
Proof.
  intros u Hne Hnone. subst u. unfold report.
  rewrite (bind_ret (capture_or (DescribeStackOutput (stack_name environment)
                                   "ServiceUrl" region) "")
             _ w n (or_output (w n) "") eq_refl).
  set (s := or_output (w n) "") in *. cbv beta.
  rewrite events_prepend.
  assert (Hc : test_n s && negb (String.eqb s "None") = true).
  { apply andb_true_iff. split.
    - unfold test_n. destruct s; [congruence|reflexivity].
    - apply negb_true_iff, String.eqb_neq. exact Hnone. }
  rewrite Hc. cbn. split; [auto 10|]. split; [auto 10|].
  intros H. repeat (destruct H as [H|H]; [discriminate H|]). exact H.
Qed.

(** X12. In a run of either script that comes to the query for the
    service URL, whenever the value read is neither empty nor None it is
    printed as the service URL, with the curl line for its health path and
    without the not-available note. The value is the output of the query
    whether the query succeeded or not, so the text of a failed query is
    printed as the URL. *)
Theorem X12_any_other_value_is_reported_as_url :
  forall (v : Variant) (arg1 aws_region : option string) (w : World)
         (stack region : string) (r : Result),
    let run := start (workflow v arg1 aws_region) w in
    let url := or_output r "" in
    In (Ran (DescribeStackOutput stack "ServiceUrl" region) r) (events run) ->
    url <> "" -> url <> "None" ->
    exit_code run = Some 0
    /\ In (Echo ("Service URL: " ++ url)) (events run)
    /\ In (Echo ("  curl " ++ url ++ "/health")) (events run).
Proof.
  intros v arg1 aws_region w stack region r run url H Hne Hnone. subst url.
  assert (HR : reaches (fun _ => true) run (workflow v arg1 aws_region w 0))
    by apply reaches_refl.
  unfold run, start in H. clearbody run.
  assert (Hend : forall script environment reg n,
             In (Ran (DescribeStackOutput stack "ServiceUrl" region) r)
                (events (report script environment reg w n)) ->
             reaches (fun _ => true) run (report script environment reg w n) ->
             exit_code run = Some 0
             /\ In (Echo ("Service URL: " ++ or_output r "")) (events run)
             /\ In (Echo ("  curl " ++ or_output r "" ++ "/health")) (events run)).
  { intros script environment reg n Hin HR'.
    destruct (report_run script environment reg w n) as (Ho & Hq & _).
    destruct (Hq _ _ Hin) as [_ Hr]. subst r.
    destruct (report_with_url script environment reg w n Hne Hnone)
      as (Hurl & Hcurl & _).
    split; [|split].
    - destruct HR' as (t & _ & _ & Hout).
      unfold exit_code. rewrite Hout, Ho. reflexivity.
    - exact (reaches_in _ _ _ _ HR' Hurl).
    - exact (reaches_in _ _ _ _ HR' Hcurl). }
  unfold workflow in H, HR. destruct v as [|fuel].
  - unfold deploy in H, HR. cbv zeta in H, HR.
    do 5 walk_step (fun _ : Event => true) (is_output_query "ServiceUrl") HR H.
    exact (Hend _ _ _ _ H HR).
  - unfold deploy_no_docker in H, HR. cbv zeta in H, HR.
    do 11 walk_step (fun _ : Event => true) (is_output_query "ServiceUrl") HR H.
    exact (Hend _ _ _ _ H HR).
Qed.

End ReportedUrl.

(** [emits_step] with the side conditions left to [tac]. *)
Ltac emits_step_by tac :=
  lazymatch goal with
  | |- Sh.emits _ (Sh.ret _) => apply emits_ret
  | |- Sh.emits _ (Sh.exit _) => apply emits_exit
  | |- Sh.emits _ Sh.spin => apply emits_spin
  | |- Sh.emits _ (Sh.echo _) => apply emits_echo; tac
  | |- Sh.emits _ (Sh.sleep _) => apply emits_sleep; tac
  | |- Sh.emits _ (Sh.exec _) => apply emits_exec; intro; tac
  | |- Sh.emits _ (Script.run _) => apply emits_run; intro; tac
  | |- Sh.emits _ (Script.capture _) => apply emits_capture; intro; tac
  | |- Sh.emits _ (Script.run_or_true _) => apply emits_run_or_true; intro; tac
  | |- Sh.emits _ (Script.capture_or _ _) =>
      apply emits_capture_or; intro; tac
  | |- Sh.emits _ (Script.poll_loop _ _ _ _) =>
      apply emits_poll_loop; intros; tac
  | |- Sh.emits _ (if _ then _ else _) => apply emits_if
  | |- Sh.emits _ (Sh.bind _ _) => apply emits_bind; [|intro]
  | |- Sh.emits _ ?m => let h := head_of m in unfold h
  end.

Ltac same_names :=
  unfold Obs.targets, Script.stack_name, Script.full_deploy,
    Script.bootstrap_deploy;
  rewrite ?String.eqb_refl; reflexivity.

Ltac solve_targets := repeat (cbv zeta; emits_step_by same_names).

Section OneEnvironment.

Import Sh Script Obs.

Lemma resolve_environment_ret arg1 w n e :
  outcome (resolve_environment arg1 w n) = Ret e ->
  e <> ""
  /\ (arg1 = Some e
      \/ (Str.truthy arg1 = false /\ String.prefix "preview-" e = true))
  /\ (Str.truthy arg1 = false -> e = "preview-" ++ captured (w n)).
Proof.
  unfold resolve_environment. destruct (Str.truthy arg1) eqn:Ht.
  - destruct arg1 as [[|c s]|]; try discriminate Ht.
    cbn. intros H. inversion H. split; [discriminate|].
    split; [left; reflexivity|discriminate].
  - rewrite bind_capture. destruct (succeeded (w n)); [|discriminate].
    cbn. intros H. inversion H. split; [discriminate|]. split.
    + right. split; [reflexivity|]. cbn.
      destruct (captured (w n)); reflexivity.
    + reflexivity.
Qed.

Lemma resolve_environment_only_whoami arg1 (P : Event -> bool) :
  (forall r, P (Ran Whoami r) = true) ->
  emits P (resolve_environment arg1).
Proof.
  intros HP. unfold resolve_environment. apply emits_if; [apply emits_ret|].
  apply emits_bind; [apply emits_capture, HP|intro; apply emits_ret].
Qed.

Lemma holds_bind {A B} (P : Event -> bool) (R : A -> Prop) (R' : B -> Prop)
    (m : M A) (k : A -> M B) w n :
  holds P R (m w n) ->
  (forall a, R a -> holds P R' (k a w (next (m w n)))) ->
  holds P R' (bind m k w n).
Proof.
  intros [Hm HR] Hk. unfold bind.
  destruct (outcome (m w n)) as [a| |] eqn:Ho.
  - destruct (Hk a (HR a eq_refl)) as [Hka HR']. split.
    + cbn [events]. rewrite forallb_app, Hm, Hka. reflexivity.
    + exact HR'.
  - split; [exact Hm|discriminate].
  - split; [exact Hm|discriminate].
Qed.

Lemma holds_emits {A} (P : Event -> bool) (m : M A) w n :
  emits P m -> holds P (fun _ => True) (m w n).
Proof. intros Hm. split; [apply Hm|auto]. Qed.

Lemma holds_then {A B} (P : Event -> bool) (R' : B -> Prop)
    (m : M A) (k : A -> M B) w n :
  emits P m ->
  (forall a n', holds P R' (k a w n')) ->
  holds P R' (bind m k w n).
Proof.
  intros Hm Hk. apply (holds_bind P (fun _ => True)).
  - apply holds_emits, Hm.
  - intros a _. apply Hk.
Qed.

Lemma holds_ret {A} (P : Event -> bool) (a : A) w n :
  holds P (eq a) (ret a w n).
Proof. split; [reflexivity|]. intros b H. inversion H. reflexivity. Qed.

Lemma prepare_targets arg1 region w n :
  exists e,
    e <> ""
    /\ (arg1 = Some e
        \/ (Str.truthy arg1 = false /\ String.prefix "preview-" e = true))
    /\ (Str.truthy arg1 = false ->
        e = "preview-" ++ captured (w n) \/ e = "preview-")
    /\ holds (targets e region) (eq e) (prepare arg1 w n).
Proof.
  unfold prepare.
  destruct (outcome (resolve_environment arg1 w n)) as [e|c|] eqn:Ho.
  - exists e.
    destruct (resolve_environment_ret arg1 w n e Ho) as (Hne & Harg & Hval).
    split; [exact Hne|]. split; [exact Harg|]. split; [auto|].
    apply (holds_bind _ (eq e)).
    + split; [apply resolve_environment_only_whoami; reflexivity|].
      intros a Ha. congruence.
    + intros a <-.
      repeat (apply holds_then; [solve_targets|intros ? ?]).
      apply holds_ret.
  - exists "preview-". split; [discriminate|]. split; [|split; [auto|]].
    + right. unfold resolve_environment in Ho.
      destruct (Str.truthy arg1); [discriminate Ho|auto].
    + split.
      * rewrite (proj2 (bind_exit _ _ w n c Ho)).
        apply resolve_environment_only_whoami. reflexivity.
      * intros a Ha. rewrite (proj1 (bind_exit _ _ w n c Ho)) in Ha.
        discriminate Ha.
  - unfold resolve_environment in Ho. destruct (Str.truthy arg1);
      [discriminate Ho|].
    rewrite bind_capture in Ho. destruct (succeeded (w n)); discriminate Ho.
Qed.

Lemma prepare_no_docker_targets arg1 region w n :
  exists e,
    e <> ""
    /\ (arg1 = Some e
        \/ (Str.truthy arg1 = false /\ String.prefix "preview-" e = true))
    /\ (Str.truthy arg1 = false ->
        e = "preview-" ++ captured (w n) \/ e = "preview-")
    /\ holds (targets e region) (eq e) (prepare_no_docker arg1 w n).
Proof.
  unfold prepare_no_docker.
  destruct (outcome (resolve_environment arg1 w n)) as [e|c|] eqn:Ho.
  - exists e.
    destruct (resolve_environment_ret arg1 w n e Ho) as (Hne & Harg & Hval).
    split; [exact Hne|]. split; [exact Harg|]. split; [auto|].
    apply (holds_bind _ (eq e)).
    + split; [apply resolve_environment_only_whoami; reflexivity|].
      intros a Ha. congruence.
    + intros a <-.
      repeat (apply holds_then; [solve_targets|intros ? ?]).
      apply holds_ret.
  - exists "preview-". split; [discriminate|]. split; [|split; [auto|]].
    + right. unfold resolve_environment in Ho.
      destruct (Str.truthy arg1); [discriminate Ho|auto].
    + split.
      * rewrite (proj2 (bind_exit _ _ w n c Ho)).
        apply resolve_environment_only_whoami. reflexivity.
      * intros a Ha. rewrite (proj1 (bind_exit _ _ w n c Ho)) in Ha.
        discriminate Ha.
  - unfold resolve_environment in Ho. destruct (Str.truthy arg1);
      [discriminate Ho|].
    rewrite bind_capture in Ho. destruct (succeeded (w n)); discriminate Ho.
Qed.

Lemma all_chars_weaken (p q : ascii -> bool) s :
  (forall c, p c = true -> q c = true) ->
  Expansion.all_chars p s = true -> Expansion.all_chars q s = true.
Proof.
  intros Hpq. induction s as [|c s IH]; cbn [Expansion.all_chars];
    [reflexivity|].
  intros H. apply andb_true_iff in H as [Hc Hs].
  rewrite (Hpq c Hc), (IH Hs). reflexivity.
Qed.

Lemma word_chars_app a b :
  Expansion.word_chars a = true -> Expansion.word_chars b = true ->
  Expansion.word_chars (a ++ b) = true.
Proof.
  unfold Expansion.word_chars. intros Ha Hb.
  induction a as [|c a IH]; cbn [append Expansion.all_chars] in *;
    [exact Hb|].
  apply andb_true_iff in Ha as [Hc Ha]. rewrite Hc, (IH Ha). reflexivity.
Qed.

Lemma pieces_word s :
  Expansion.all_chars (fun c => negb (Expansion.is_ifs c)) s = true ->
  Expansion.pieces s = [s].
Proof.
  induction s as [|c s IH];
    cbn [Expansion.all_chars Expansion.pieces]; [reflexivity|].
  intros H. apply andb_true_iff in H as [Hc Hs].
  destruct (Expansion.is_ifs c); [discriminate Hc|].
  rewrite (IH Hs). reflexivity.
Qed.

(** A plain value expands unquoted to itself, as one word. *)
Lemma plain_unquoted s :
  Expansion.plain s = true -> Expansion.unquoted s = Some [s].
Proof.
  unfold Expansion.plain, Expansion.word_chars. intros H.
  apply andb_true_iff in H as [Hne Hw].
  assert (Hp : Expansion.all_chars
                 (fun c => negb (Expansion.is_pattern c)) s = true).
  { revert Hw. apply all_chars_weaken. intros c Hc.
    apply andb_true_iff in Hc. exact (proj2 Hc). }
  assert (Hi : Expansion.all_chars
                 (fun c => negb (Expansion.is_ifs c)) s = true).
  { revert Hw. apply all_chars_weaken. intros c Hc.
    apply andb_true_iff in Hc. exact (proj1 Hc). }
  unfold Expansion.unquoted, Expansion.fields.
  rewrite Hp, (pieces_word s Hi). cbn [filter]. rewrite Hne. reflexivity.
Qed.

Lemma plain_after a b :
  Expansion.word_chars a = true -> Expansion.plain b = true ->
  Expansion.plain (a ++ b) = true.
Proof.
  unfold Expansion.plain. intros Ha Hb.
  apply andb_true_iff in Hb as [Hne Hb].
  rewrite (word_chars_app a b Ha Hb), andb_true_r.
  destruct a; [exact Hne|reflexivity].
Qed.

Lemma or_else_falsy v d : Str.truthy v = false -> Str.or_else v d = d.
Proof. destruct v as [[|c s]|]; cbn; [reflexivity|discriminate|reflexivity]. Qed.

Lemma or_else_given e d : e <> "" -> Str.or_else (Some e) d = e.
Proof. destruct e; [congruence|reflexivity]. Qed.

Lemma resolved_is_plain arg1 user e :
  Expansion.word_chars (Str.or_else arg1 user) = true ->
  e <> "" ->
  arg1 = Some e
  \/ (Str.truthy arg1 = false /\ String.prefix "preview-" e = true) ->
  (Str.truthy arg1 = false -> e = "preview-" ++ user \/ e = "preview-") ->
  Expansion.plain e = true.
Proof.
  intros Hw Hne [->|[Ht _]] Hval.
  - rewrite (or_else_given e user Hne) in Hw.
    unfold Expansion.plain. rewrite Hw. destruct e; [congruence|reflexivity].
  - rewrite (or_else_falsy arg1 user Ht) in Hw.
    destruct (Hval Ht) as [->| ->]; [|reflexivity].
    unfold Expansion.plain. rewrite (word_chars_app "preview-" user); auto.
Qed.

Lemma region_is_plain aws_region :
  Expansion.word_chars (resolve_region aws_region) = true ->
  Expansion.plain (resolve_region aws_region) = true.
Proof.
  unfold Expansion.plain. intros ->. unfold resolve_region.
  destruct aws_region as [[|c s]|]; reflexivity.
Qed.

(** X13. Take a run of either script in which the name it is given (the
    first argument or, without one, the output of [whoami]) and the
    region (AWS_REGION or else us-east-1) hold no blank and no pattern
    character. The run works on one environment: a non-empty name that
    is the first argument or, without one, starts with preview-. Each
    [cdk deploy] carries that name, each stack query names the stack
    FastApiRunner-<name>, each CodeBuild command the project
    fastapi-build-<name>, and every region argument is the region. The
    scripts expand these four values without quotes; under the
    hypotheses each expansion is the one word written, so these are the
    arguments the tools receive. *)
Theorem X13_one_environment_per_run :
  forall (v : Variant) (arg1 aws_region : option string) (w : World),
    let region := Str.or_else aws_region "us-east-1" in
    Expansion.word_chars (Str.or_else arg1 (captured (w 0))) = true ->
    Expansion.word_chars region = true ->
    exists e,
      e <> ""
      /\ (arg1 = Some e
          \/ (Str.truthy arg1 = false /\ String.prefix "preview-" e = true))
      /\ forallb (targets e region)
           (events (start (workflow v arg1 aws_region) w)) = true
      /\ Expansion.unquoted e = Some [e]
      /\ Expansion.unquoted ("FastApiRunner-" ++ e)
         = Some ["FastApiRunner-" ++ e]
      /\ Expansion.unquoted ("fastapi-build-" ++ e)
         = Some ["fastapi-build-" ++ e]
      /\ Expansion.unquoted region = Some [region].
Proof.
  intros v arg1 aws_region w region Hname Hregion. subst region.
  change (Str.or_else aws_region "us-east-1")
    with (resolve_region aws_region) in *.
  assert (Hall : forall e,
             Expansion.plain e = true ->
             Expansion.unquoted e = Some [e]
             /\ Expansion.unquoted ("FastApiRunner-" ++ e)
                = Some ["FastApiRunner-" ++ e]
             /\ Expansion.unquoted ("fastapi-build-" ++ e)
                = Some ["fastapi-build-" ++ e]
             /\ Expansion.unquoted (resolve_region aws_region)
                = Some [resolve_region aws_region]).
  { intros e He. split; [exact (plain_unquoted e He)|].
    split; [apply plain_unquoted, plain_after; [reflexivity|exact He]|].
    split; [apply plain_unquoted, plain_after; [reflexivity|exact He]|].
    apply plain_unquoted, region_is_plain, Hregion. }
  unfold start, workflow. destruct v as [|fuel].
  - destruct (prepare_targets arg1 (resolve_region aws_region) w 0)
      as (e & Hne & Harg & Hval & Hp).
    exists e. split; [exact Hne|]. split; [exact Harg|]. split.
    + unfold deploy. cbv zeta.
      refine (proj1 (holds_bind _ (eq e) (fun _ => True) _ _ w 0 Hp _)).
      intros a <-. apply holds_emits. solve_targets.
    + exact (Hall e (resolved_is_plain _ _ e Hname Hne Harg Hval)).
  - destruct (prepare_no_docker_targets arg1 (resolve_region aws_region) w 0)
      as (e & Hne & Harg & Hval & Hp).
    exists e. split; [exact Hne|]. split; [exact Harg|]. split.
    + unfold deploy_no_docker. cbv zeta.
      refine (proj1 (holds_bind _ (eq e) (fun _ => True) _ _ w 0 Hp _)).
      intros a <-. apply holds_emits. solve_targets.
    + exact (Hall e (resolved_is_plain _ _ e Hname Hne Harg Hval)).
Qed.

(** A name with a blank is not one word: the stack queries of
    [deploy.sh 'a b'] would receive FastApiRunner-a and b. *)
Example name_with_a_blank_is_split :
  Expansion.unquoted "FastApiRunner-a b" = Some ["FastApiRunner-a"; "b"]
  /\ Expansion.word_chars "a b" = false.
Proof. split; reflexivity. Qed.

End OneEnvironment.

(* ================================================================= *)
(** ** Further properties of the stack and of the CDK app *)

Section AppStacks.

Import Stack StackObs.

Lemma or_else_nonempty v d : d <> "" -> Str.or_else v d <> "".
Proof.
  intros Hd. destruct v as [[|c s]|]; cbn; auto. discriminate.
Qed.

Lemma environment_nonempty (i : App.Inputs) : App.environment i <> "".
Proof.
  unfold App.environment.
  destruct (App.tryGetContext i "environment") as [[|c s]|]; cbn;
    try discriminate;
    unfold App.getDefaultEnvironment;
    (destruct (App.process_env i "USER") as [[|c' s']|]; cbn;
     [| discriminate |]; destruct (App.whoami i); discriminate).
Qed.

(** X14. The environment the app resolves is never empty, and every
    App Runner stack it declares is named FastApiRunner-<environment>
    after its own environment prop, which is the resolved environment,
    dev or prod; a pipeline-only synthesis declares none. *)
Theorem X14_stacks_are_named_after_their_environment :
  forall (i : App.Inputs),
    App.environment i <> ""
    /\ (App.pipelineOnly i = true -> App.appRunnerStacks i = [])
    /\ (forall s, In s (App.appRunnerStacks i) ->
                  stack_id s = "FastApiRunner-" ++ environment (stack_props s)
                  /\ In ("Environment", environment (stack_props s)) (tags s)
                  /\ In (environment (stack_props s))
                        [App.environment i; "dev"; "prod"]).
Proof.
  intros i. split; [apply environment_nonempty|]. split.
  - intros Hp. unfold App.appRunnerStacks. rewrite Hp. reflexivity.
  - intros s Hs. unfold App.appRunnerStacks in Hs.
    destruct (negb (App.pipelineOnly i)); [|destruct Hs].
    destruct (Str.startsWith (App.environment i) "preview-").
    + destruct Hs as [<-|[]]. repeat split; cbn; auto.
    + destruct Hs as [<-|[<-|[]]]; repeat split; cbn; auto.
Qed.

Lemma deploy_inputs_environment e i :
  e <> "" -> App.environment (App.deployInputs e i) = e.
Proof.
  intros He. unfold App.environment, App.tryGetContext. cbn.
  destruct e; [congruence|reflexivity].
Qed.

(** X15. The stack the scripts look up after [cdk deploy
    --context environment=<e>], FastApiRunner-<e>, is declared by the app
    exactly when <e> starts with preview- or is dev or prod (and the
    context does not set pipelineOnly): for any other name, such as
    staging, the app declares no stack of that name. *)
Theorem X15_stack_looked_up_is_declared_for_preview_dev_prod :
  forall (e : string) (i : App.Inputs),
    e <> "" ->
    App.pipelineOnly i = false ->
    is_some (App.findStack (App.app (App.deployInputs e i))
               (Script.stack_name e))
    = Str.startsWith e "preview-" || String.eqb e "dev" || String.eqb e "prod".
Proof.
  intros e i He Hp.
  unfold App.findStack, App.app. cbn [App.stacks].
  assert (Hflat : forall l,
             flat_map (fun d => match d with
                                | App.AppRunner s => [s]
                                | App.Pipeline _ _ => []
                                end)
               (map App.AppRunner l ++ App.pipelineStacks (App.deployInputs e i))
             = l).
  { intros l. rewrite flat_map_app.
    assert (Hpipe : flat_map (fun d => match d with
                                       | App.AppRunner s => [s]
                                       | App.Pipeline _ _ => []
                                       end)
                      (App.pipelineStacks (App.deployInputs e i)) = []).
    { unfold App.pipelineStacks. destruct (negb _); reflexivity. }
    rewrite Hpipe, app_nil_r.
    induction l as [|s l IH]; [reflexivity|]. cbn. rewrite IH. reflexivity. }
  rewrite Hflat. unfold App.appRunnerStacks.
  assert (Hp' : App.pipelineOnly (App.deployInputs e i) = false) by exact Hp.
  rewrite Hp', (deploy_inputs_environment e i He). cbn [negb].
  destruct (Str.startsWith e "preview-") eqn:Hpre.
  - cbn [find]. unfold App.previewStack. cbn [stack_id newAppRunnerStack].
    rewrite (deploy_inputs_environment e i He).
    unfold Script.stack_name. rewrite String.eqb_refl. reflexivity.
  - cbn [map find orb]. unfold App.fixedStack, Script.stack_name.
    cbn [stack_id newAppRunnerStack].
    change (String.eqb ("FastApiRunner-" ++ "dev") ("FastApiRunner-" ++ e))
      with (String.eqb "dev" e).
    change (String.eqb ("FastApiRunner-" ++ "prod") ("FastApiRunner-" ++ e))
      with (String.eqb "prod" e).
    rewrite (String.eqb_sym "dev" e), (String.eqb_sym "prod" e).
    destruct (String.eqb e "dev"); [reflexivity|].
    destruct (String.eqb e "prod"); reflexivity.
Qed.

End AppStacks.

Section AppContext.

Import Stack StackObs.

(** X16. For an environment that does not start with preview-, the
    context values createService and secretsArn have no effect: each
    stack the app declares has the hosting service, no secret reference in
    its image configuration, and an instance role that may read no secret. *)
Theorem X16_context_ignored_outside_preview :
  forall (i : App.Inputs) (s : AppRunnerStack),
    Str.startsWith (App.environment i) "preview-" = false ->
    In s (App.appRunnerStacks i) ->
    has_service s = true
    /\ secretsArn (stack_props s) = None
    /\ roleSecrets "InstanceRole" s = []
    /\ (forall c, In c (imageConfigurations s) ->
                  runtimeEnvironmentSecrets c = None).
Proof.
  intros i s Hpre Hs. unfold App.appRunnerStacks in Hs.
  destruct (negb (App.pipelineOnly i)); [|destruct Hs].
  rewrite Hpre in Hs.
  destruct Hs as [<-|[<-|[]]]; repeat split;
    try reflexivity;
    intros c [<-|[]]; reflexivity.
Qed.

(** X17. In every App Runner stack the image configuration holds secret
    references exactly when the instance role was granted read access:
    with a non-empty secret ARN the four MYSQL_ entries each reference
    <arn>:<name>:: and the instance role may read that ARN and nothing
    else; otherwise there is no secret entry and the role may read no
    secret. *)
Theorem X17_secret_references_match_the_grant :
  forall (id : string) (props : AppRunnerStackProps) (c : ImageConfiguration),
    let s := newAppRunnerStack id props in
    In c (imageConfigurations s) ->
    match runtimeEnvironmentSecrets c with
    | None =>
        Str.truthy (secretsArn props) = false
        /\ roleSecrets "InstanceRole" s = []
    | Some refs =>
        exists arn,
          secretsArn props = Some arn /\ arn <> ""
          /\ roleSecrets "InstanceRole" s = [arn]
          /\ map name refs
             = ["MYSQL_USER"; "MYSQL_PASSWORD"; "MYSQL_HOST"; "MYSQL_DATABASE"]
          /\ (forall kv, In kv refs ->
                         value kv = arn ++ ":" ++ name kv ++ "::")
    end.
Proof.
  intros id props c s. subst s.
  unfold imageConfigurations, roleSecrets, newAppRunnerStack.
  cbn [resources]. destruct (default true (createService props));
    [|intros []].
  cbn [flat_map repository instanceRole accessRole service app String.eqb
       Ascii.eqb Bool.eqb imageConfiguration readableSecrets].
  intros [<-|[]]. unfold imageConfig.
  destruct (secretsArn props) as [arn|] eqn:Harn.
  - destruct (Str.truthy (Some arn)) eqn:Ht.
    + cbn [runtimeEnvironmentSecrets]. exists arn.
      split; [reflexivity|]. split.
      { intros ->. discriminate Ht. }
      split; [reflexivity|]. split; [reflexivity|].
      intros kv [<-|[<-|[<-|[<-|[]]]]]; reflexivity.
    + cbn [runtimeEnvironmentSecrets]. split; reflexivity.
  - cbn [runtimeEnvironmentSecrets]. split; reflexivity.
Qed.

End AppContext.

Section AppOutputs.

Import Stack StackObs.

Lemma append_cancel (a x y : string) : a ++ x = a ++ y -> x = y.
Proof.
  induction a as [|c a IH]; cbn; intros H; [exact H|].
  inversion H. auto.
Qed.

Lemma stack_exports_distinct id props :
  NoDup (map exportName (outputs (newAppRunnerStack id props))).
Proof.
  unfold newAppRunnerStack. cbn [outputs].
  destruct (default true (createService props)); cbn [map app exportName].
  - repeat constructor; cbn; intros H;
      repeat (destruct H as [H|H]; [apply append_cancel in H; discriminate H|]);
      exact H.
  - repeat constructor. intros [].
Qed.

(** X18. The export names of all the App Runner stacks that one
    synthesis of the app declares are pairwise distinct. *)
Theorem X18_export_names_are_distinct :
  forall (i : App.Inputs), NoDup (exportNames (App.appRunnerStacks i)).
Proof.
  intros i. unfold App.appRunnerStacks, exportNames.
  destruct (negb (App.pipelineOnly i)); [|constructor].
  destruct (Str.startsWith (App.environment i) "preview-").
  - cbn [flat_map]. rewrite app_nil_r. apply stack_exports_distinct.
  - cbn. repeat constructor; cbn; intros H;
      repeat (destruct H as [H|H]; [discriminate H|]); exact H.
Qed.

(** X19. For a preview environment the hosting service is left out
    exactly when the context value of createService is the string false;
    any other value, and no value, keeps it. *)
Theorem X19_only_the_string_false_disables_the_service :
  forall (i : App.Inputs) (s : AppRunnerStack),
    Str.startsWith (App.environment i) "preview-" = true ->
    In s (App.appRunnerStacks i) ->
    (has_service s = false
     <-> App.tryGetContext i "createService" = Some "false").
Proof.
  intros i s Hpre Hs. unfold App.appRunnerStacks in Hs.
  destruct (negb (App.pipelineOnly i)); [|destruct Hs].
  rewrite Hpre in Hs. destruct Hs as [<-|[]].
  unfold has_service, App.previewStack, newAppRunnerStack.
  cbn [resources createService default]. unfold App.createService, App.is_literal.
  destruct (App.tryGetContext i "createService") as [v|].
  - destruct (String.eqb v "false") eqn:Hv; cbn.
    + apply String.eqb_eq in Hv. subst v. split; auto.
    + apply String.eqb_neq in Hv. split; [discriminate|].
      intros H. inversion H. contradiction.
  - cbn. split; discriminate.
Qed.

(** X20. The pipeline stack is declared exactly when a connection ARN
    is given, the context value having precedence over the environment
    variable CODE_CONNECTION_ARN; the two warning lines are printed exactly
    when no ARN is given and the synthesis is not pipeline-only, so that a
    pipeline-only synthesis without an ARN declares no stack at all and
    prints nothing. *)
Theorem X20_pipeline_stack_and_warnings :
  forall (i : App.Inputs),
    (App.pipelineStacks i <> [] <-> App.codeConnectionArn i <> "")
    /\ (App.warnings (App.app i) <> []
        <-> App.codeConnectionArn i = "" /\ App.pipelineOnly i = false)
    /\ (App.codeConnectionArn i = "" -> App.pipelineOnly i = true ->
        App.stacks (App.app i) = [] /\ App.warnings (App.app i) = [])
    /\ (forall arn, App.tryGetContext i "codeConnectionArn" = Some arn ->
                    arn <> "" -> App.codeConnectionArn i = arn).
Proof.
  intros i. unfold App.app, App.pipelineStacks, App.appRunnerStacks.
  cbn [App.stacks App.warnings].
  destruct (App.codeConnectionArn i) as [|c a] eqn:Harn; cbn [Str.is_empty negb].
  - split; [split; intros H; congruence|]. split.
    + destruct (App.pipelineOnly i); cbn; split.
      * intros H. congruence.
      * intros [_ H]. discriminate H.
      * intros _. split; reflexivity.
      * intros _. discriminate.
    + split.
      * intros _ Hp. rewrite Hp. cbn. split; reflexivity.
      * intros arn Hctx Hne. unfold App.codeConnectionArn in Harn.
        rewrite Hctx in Harn. destruct arn; [congruence|discriminate Harn].
  - split; [split; intros H; discriminate|]. split.
    + split; [intros H; congruence|intros [H _]; discriminate H].
    + split; [intros H; discriminate H|].
      intros arn Hctx Hne. unfold App.codeConnectionArn in Harn.
      rewrite Hctx in Harn. destruct arn; [congruence|exact (eq_sym Harn)].
Qed.

End AppOutputs.

(* ================================================================= *)
(** ** Properties of the CodeBuild roles and of the pipeline *)

Section CodeBuildRoles.

Import Pipeline PipelineObs.

Lemma when_allows o st :
  length (when o st) = (if flag o then 1 else 0)
  /\ forall x, In x (when o st) -> x = st /\ flag o = true.
Proof.
  unfold when. destruct (flag o); cbn; split; auto.
  - intros x [<-|[]]. auto.
  - intros x [].
Qed.

Lemma granted_statements props st :
  In st (granted props) ->
  effect st = "Allow" /\ statement_resources st = ["*"] /\ actions st <> [].
Proof.
  unfold granted. intros H.
  repeat (apply in_app_or in H as [H|H];
          [apply when_allows in H as [-> _]; repeat split; discriminate|]).
  apply when_allows in H as [-> _]. repeat split; discriminate.
Qed.

Lemma granted_length props : length (granted props) = flags_set props.
Proof.
  unfold granted, flags_set, when. repeat rewrite length_app. cbn [filter].
  destruct (flag (allowSecretsManager props));
    destruct (flag (allowS3Artifacts props));
    destruct (flag (allowCloudFormation props));
    destruct (flag (allowCdkBootstrap props));
    destruct (flag (allowECR props));
    destruct (flag (allowAppRunner props)); reflexivity.
Qed.

(** X21. A CodeBuild role gets one statement per flag that is set, each
    of them an Allow of a non-empty list of actions on every resource,
    followed by the additional policies in the order given; flags that are
    left out count as not set, so a role built without props has no
    statement. *)
Theorem X21_one_allow_statement_per_flag :
  forall (id : string) (props : CodeBuildRoleProps),
    exists g,
      statements (newCodeBuildRole id props)
      = (g ++ match additionalPolicies props with Some l => l | None => [] end)%list
      /\ length g = flags_set props
      /\ (forall st, In st g ->
                     effect st = "Allow"
                     /\ statement_resources st = ["*"]
                     /\ actions st <> [])
      /\ statements (newCodeBuildRole id noProps) = [].
Proof.
  intros id props. exists (granted props).
  split; [reflexivity|]. split; [apply granted_length|].
  split; [apply granted_statements|reflexivity].
Qed.

Lemma when_incl o o' st l l' :
  (flag o = true -> flag o' = true) ->
  incl l l' ->
  incl (when o st ++ l) (when o' st ++ l').
Proof.
  intros Hf Hl x Hx. apply in_app_or in Hx as [Hx|Hx].
  - apply when_allows in Hx as [-> Ho]. apply in_or_app. left.
    unfold when. rewrite (Hf Ho). left. reflexivity.
  - apply in_or_app. right. exact (Hl x Hx).
Qed.

(** X22. Setting more flags never takes a permission away: when every
    flag set in [p] is set in [q] and the additional policies of [p] are
    among those of [q], every statement, and so every action, of the role
    built from [p] is one of the role built from [q]. *)
Theorem X22_more_flags_more_permissions :
  forall (id id' : string) (p q : CodeBuildRoleProps),
    flags_le p q ->
    incl (match additionalPolicies p with Some l => l | None => [] end)
         (match additionalPolicies q with Some l => l | None => [] end) ->
    incl (statements (newCodeBuildRole id p)) (statements (newCodeBuildRole id' q))
    /\ incl (all_actions (newCodeBuildRole id p))
            (all_actions (newCodeBuildRole id' q)).
Proof.
  intros id id' p q (H1 & H2 & H3 & H4 & H5 & H6) Hadd.
  assert (Hst : incl (statements (newCodeBuildRole id p))
                     (statements (newCodeBuildRole id' q))).
  { cbn [statements newCodeBuildRole]. unfold granted.
    repeat rewrite <- app_assoc.
    repeat (apply when_incl; [assumption|]). exact Hadd. }
  split; [exact Hst|].
  unfold all_actions. intros a Ha.
  apply in_flat_map in Ha as (st & Hin & Hact).
  apply in_flat_map. exists st. split; [apply Hst, Hin|exact Hact].
Qed.

Lemma X22_witness :
  incl (all_actions qualityRole) (all_actions buildRole)
  /\ incl (all_actions buildRole) (all_actions deployRole).
Proof.
  split.
  - apply (X22_more_flags_more_permissions "QualityRole" "BuildRole").
    + repeat split; cbn; intros H; try reflexivity; discriminate H.
    + intros x [].
  - apply (X22_more_flags_more_permissions "BuildRole" "DeployRole").
    + repeat split; cbn; intros H; try reflexivity; discriminate H.
    + intros x [].
Defined.

End CodeBuildRoles.

Section RepositoryName.

Import Pipeline PipelineObs.

Lemma split_nonempty s : split s <> [].
Proof.
  destruct s as [|c s]; cbn [split]; [discriminate|].
  destruct (Ascii.eqb c slash); [discriminate|].
  destruct (split s); discriminate.
Qed.

Lemma join_cons x l : l <> [] -> join (x :: l) = x ++ "/" ++ join l.
Proof. destruct l; [congruence|reflexivity]. Qed.

Lemma join_split s : join (split s) = s.
Proof.
  induction s as [|c s IH]; [reflexivity|]. cbn [split].
  destruct (Ascii.eqb c slash) eqn:Hc.
  - apply Ascii.eqb_eq in Hc. subst c.
    rewrite (join_cons _ _ (split_nonempty s)), IH. reflexivity.
  - destruct (split s) as [|piece pieces] eqn:Hs.
    + exfalso. exact (split_nonempty s Hs).
    + destruct pieces as [|p ps].
      * cbn in IH |- *. rewrite IH. reflexivity.
      * rewrite join_cons in IH |- * by discriminate.
        cbn. rewrite <- IH. reflexivity.
Qed.

Lemma split_no_slash s : no_slash s = true -> split s = [s].
Proof.
  induction s as [|c s IH]; [reflexivity|]. cbn [no_slash split].
  destruct (Ascii.eqb c slash); cbn [negb andb]; [discriminate|].
  intros H. rewrite (IH H). reflexivity.
Qed.

Lemma split_at_first_slash o rest :
  no_slash o = true -> split (o ++ "/" ++ rest) = o :: split rest.
Proof.
  induction o as [|c o IH]; [reflexivity|].
  cbn [no_slash]. change ((String c o) ++ "/" ++ rest)
    with (String c (o ++ "/" ++ rest)). cbn [split].
  destruct (Ascii.eqb c slash); cbn [negb andb]; [discriminate|].
  intros H. rewrite (IH H). reflexivity.
Qed.

Lemma split_head s : exists o l, split s = o :: l /\ no_slash o = true.
Proof.
  induction s as [|c s (o & l & Hs & Ho)]; [exists "", []; auto|].
  cbn [split]. destruct (Ascii.eqb c slash) eqn:Hc.
  - exists "", (split s). auto.
  - rewrite Hs. exists (String c o), l. split; [reflexivity|].
    cbn [no_slash]. rewrite Hc, Ho. reflexivity.
Qed.

(** X23. The repository name is cut at its slashes, and joining the
    pieces with slashes gives the name back. The owner is the text before
    the first slash and always defined; the repository is the text between
    the first and the second slash, so that what follows a second slash is
    dropped, and it is undefined when the name has no slash. *)
Theorem X23_owner_and_repo_of_a_repository_name :
  (forall s, join (split s) = s)
  /\ (forall s, exists o, owner s = Some o /\ no_slash o = true)
  /\ (forall o r rest,
         no_slash o = true -> no_slash r = true ->
         (owner (o ++ "/" ++ r) = Some o /\ repo (o ++ "/" ++ r) = Some r)
         /\ repo (o ++ "/" ++ r ++ "/" ++ rest) = Some r)
  /\ (forall s, no_slash s = true -> owner s = Some s /\ repo s = None).
Proof.
  split; [exact join_split|]. split; [|split].
  - intros s. destruct (split_head s) as (o & l & Hs & Ho).
    exists o. unfold owner. rewrite Hs. auto.
  - intros o r rest Ho Hr. unfold owner, repo.
    rewrite !(split_at_first_slash o _ Ho).
    rewrite (split_no_slash r Hr), (split_at_first_slash r rest Hr).
    repeat split; reflexivity.
  - intros s Hs. unfold owner, repo. rewrite (split_no_slash s Hs).
    split; reflexivity.
Qed.

Lemma X23_witness :
  (owner "maria-raluca-st/fastapi-sample-testing" = Some "maria-raluca-st"
   /\ repo "maria-raluca-st/fastapi-sample-testing"
      = Some "fastapi-sample-testing")
  /\ (owner "fastapi-sample-testing" = Some "fastapi-sample-testing"
      /\ repo "fastapi-sample-testing" = None).
Proof.
  destruct X23_owner_and_repo_of_a_repository_name as (_ & _ & Hcut & Hone).
  split.
  - apply (Hcut "maria-raluca-st" "fastapi-sample-testing" ""); reflexivity.
  - apply (Hone "fastapi-sample-testing"). reflexivity.
Defined.

(** X24. Whatever the props, each action of the pipeline reads only
    artifacts that an earlier stage has written, and the only action that
    targets prod stands in a stage after the manual approval, which itself
    comes after the deployment to dev. *)
Theorem X24_pipeline_stages_are_fed_and_gated :
  forall (p : App.PipelineStackProps),
    fed [] (stages p) = true
    /\ gated false (stages p) = true
    /\ map stageName (stages p)
       = [ "Source"; "UpdatePipeline"; "Quality"; "Build"; "DeployDev";
           "ManualApproval"; "DeployProd" ]
    /\ flat_map (fun st => flat_map (fun a => match targetEnvironment a with
                                              | Some e => [(stageName st, e)]
                                              | None => []
                                              end) (stage_actions st))
         (stages p)
       = [ ("DeployDev", "dev"); ("DeployProd", "prod") ].
Proof. intros p. repeat split; reflexivity. Qed.

End RepositoryName.

(* ================================================================= *)
(** ** The text of the probe and the default environment *)

Section ProbeText.

Import Sh Script.

Lemma prefix_spec (p s : string) :
  String.prefix p s = true <-> exists b, s = p ++ b.
Proof.
  revert s. induction p as [|c p IH]; intros s.
  - split; [intros _; exists s; reflexivity|].
    intros _. destruct s; reflexivity.
  - destruct s as [|d s]; cbn.
    + split; [discriminate|intros (b & H); discriminate H].
    + destruct (ascii_dec c d) as [->|Hcd].
      * rewrite IH. split; intros (b & H); exists b.
        -- rewrite H. reflexivity.
        -- inversion H. reflexivity.
      * split; [discriminate|]. intros (b & H). inversion H. congruence.
Qed.

Lemma contains_spec (needle hay : string) :
  Str.contains needle hay = true <-> exists a b, hay = a ++ needle ++ b.
Proof.
  induction hay as [|c hay IH]; cbn [Str.contains].
  - destruct (String.prefix needle "") eqn:Hp.
    + apply prefix_spec in Hp as (b & Hb). split; [|reflexivity].
      intros _. exists "", b. exact Hb.
    + split; [discriminate|]. intros (a & b & H).
      destruct a; [|discriminate H]. cbn in H.
      assert (Hp' : String.prefix needle "" = true)
        by (apply prefix_spec; exists b; exact H).
      congruence.
  - destruct (String.prefix needle (String c hay)) eqn:Hp.
    + apply prefix_spec in Hp as (b & Hb). split; [|reflexivity].
      intros _. exists "", b. exact Hb.
    + rewrite IH. split.
      * intros (a & b & H). exists (String c a), b. rewrite H. reflexivity.
      * intros (a & b & H). destruct a as [|d a].
        -- cbn in H.
           assert (Hp' : String.prefix needle (String c hay) = true)
             by (apply prefix_spec; exists b; exact H).
           congruence.
        -- inversion H. exists a, b. reflexivity.
Qed.

(** X25. The first-deployment test of the scripts holds exactly for
    the text NONE and for the texts that have [does not exist] somewhere
    inside, whatever stands before and after it. *)
Theorem X25_first_deployment_is_a_substring_test :
  forall (stack_exists : string),
    first_deployment stack_exists = true
    <-> stack_exists = "NONE"
        \/ exists before after,
            stack_exists = before ++ "does not exist" ++ after.
Proof.
  intros s. rewrite first_deployment_spec, contains_spec. tauto.
Qed.

(** X26. Without an environment in the context the app resolves a name
    that starts with preview-, so it declares the single preview stack and
    never the dev and prod pair; with one, the resolved name is the
    context value. *)
Theorem X26_default_environment_is_a_preview :
  forall (i : App.Inputs),
    (Str.truthy (App.tryGetContext i "environment") = false ->
     Str.startsWith (App.environment i) "preview-" = true
     /\ (App.pipelineOnly i = false ->
         App.appRunnerStacks i = [App.previewStack i]))
    /\ (Str.truthy (App.tryGetContext i "environment") = true ->
        App.tryGetContext i "environment" = Some (App.environment i)).
Proof.
  intros i. split.
  - intros Hctx.
    assert (Hpre : Str.startsWith (App.environment i) "preview-" = true).
    { unfold App.environment, App.getDefaultEnvironment, Str.startsWith.
      rewrite Hctx. apply prefix_spec.
      destruct (Str.truthy (App.process_env i "USER"));
        [eexists; reflexivity|].
      destruct (App.whoami i); eexists; reflexivity. }
    split; [exact Hpre|].
    intros Hp. unfold App.appRunnerStacks. rewrite Hp, Hpre. reflexivity.
  - intros Hctx. unfold App.environment. rewrite Hctx.
    apply truthy_or_else. exact Hctx.
Qed.

End ProbeText.

(* ================================================================= *)
(** ** The runs of the further scenarios *)

Section MoreWitnesses.

Import Sh Script Obs Stack StackObs.

Lemma X2_witness :
  exit_code (start (workflow (RemoteBuild 1) (Some "dev") None)
               Scenario.nothing_works) = Some 1
  /\ forallb before_identity_message
       (events (start (workflow (RemoteBuild 1) (Some "dev") None)
                  Scenario.nothing_works)) = true.
Proof.
  destruct (X2_identity_check_fails_fast (RemoteBuild 1) (Some "dev") None
              Scenario.nothing_works (failed 255 "denied"))
    as (Hcode & _ & Hall).
  - find_event.
  - reflexivity.
  - split; [exact Hcode|exact Hall].
Defined.

Lemma X3_witness :
  exit_code (start (deploy (Some "dev") None) Scenario.no_docker_daemon) = Some 1
  /\ In (Echo "Docker is not running. Please start Docker first.")
        (events (start (deploy (Some "dev") None) Scenario.no_docker_daemon)).
Proof.
  destruct (X3_docker_check_fails_fast (Some "dev") None
              Scenario.no_docker_daemon (failed 1 ""))
    as (Hcode & Hmsg & _).
  - find_event.
  - reflexivity.
  - split; [exact Hcode|exact Hmsg].
Defined.

Lemma X4_witness :
  (exit_code (start (deploy (Some "dev") None) (Scenario.bootstrap_fails 6))
   = Some 1
   /\ existsb is_probe
        (events (start (deploy (Some "dev") None) (Scenario.bootstrap_fails 6)))
      = false)
  /\ existsb is_probe
       (events (start (deploy_no_docker 1 (Some "dev") None)
                  (Scenario.bootstrap_fails 5))) = true.
Proof.
  destruct X4_bootstrap_failure_is_fatal_only_in_deploy_sh as [Hfatal Hgoes].
  split.
  - apply (Hfatal (Some "dev") None (Scenario.bootstrap_fails 6)
             (failed 1 "bootstrap failed")); [find_event|reflexivity].
  - apply (Hgoes 1 (Some "dev") None (Scenario.bootstrap_fails 5)
             (failed 1 "bootstrap failed")). find_event.
Defined.

Lemma X5_witness :
  exists before after uri rq rp,
    events (start (deploy (Some "dev") None) Sample.no_endpoint)
    = (before ++ after)%list
    /\ In (Ran (CdkDeploy "dev" None) (ok "x")) after
    /\ In (Ran (DescribeStackOutput "FastApiRunner-dev" "RepositoryUri"
                  "us-east-1") rq) before
    /\ succeeded rq = true
    /\ captured rq = uri /\ uri <> "" /\ uri <> "None"
    /\ In (Ran (DockerPush (uri ++ ":latest")) rp) before
    /\ succeeded rp = true.
Proof.
  apply (X5_deploy_sh_deploys_only_after_push (Some "dev") None
           Sample.no_endpoint "dev" (ok "x")).
  find_event.
Defined.

Lemma X6_witness :
  exists before after build rs,
    events (start (deploy_no_docker 1 (Some "dev") None) Scenario.all_succeeded)
    = (before ++ after)%list
    /\ In (Ran (CdkDeploy "dev" None) (ok "SUCCEEDED")) after
    /\ In (Ran (BatchGetBuilds build "us-east-1") rs) before
    /\ succeeded rs = true
    /\ captured rs = "SUCCEEDED".
Proof.
  apply (X6_deploy_no_docker_deploys_only_after_success 1 (Some "dev") None
           Scenario.all_succeeded "dev" (ok "SUCCEEDED")).
  find_event.
Defined.

Lemma X7_witness :
  exists e r,
    In (Ran (CdkDeploy e None) r)
       (events (start (workflow (RemoteBuild 1) (Some "dev") None)
                  Scenario.all_succeeded))
    /\ succeeded r = true.
Proof.
  apply (X7_zero_status_means_deployed (RemoteBuild 1) (Some "dev") None
           Scenario.all_succeeded).
  reflexivity.
Defined.

Lemma X9_witness :
  poll_loop 3 "us-east-1" "fastapi-build-dev" "build:1"
    (Sample.answers ["IN_PROGRESS"; "IN_PROGRESS"; "SUCCEEDED"]) 0
  = {| outcome := Ret tt;
       next := 3;
       events :=
         (flat_map
            (fun i => waiting "us-east-1" "build:1"
                        (Sample.answers ["IN_PROGRESS"; "IN_PROGRESS"; "SUCCEEDED"]
                           (0 + i)))
            (seq 0 2)
          ++ [ Ran (BatchGetBuilds "build:1" "us-east-1") (ok "SUCCEEDED");
               Echo "Build completed successfully!" ])%list |}.
Proof.
  apply (X9_loop_waits_then_succeeds "us-east-1" "fastapi-build-dev" "build:1"
           2 (Sample.answers ["IN_PROGRESS"; "IN_PROGRESS"; "SUCCEEDED"]) 0 0).
  - intros i Hi. destruct i as [|[|i]]; [split; reflexivity..|lia].
  - reflexivity.
  - reflexivity.
Defined.

Lemma X10_witness :
  exit_code (start (deploy_no_docker 5 (Some "dev") None)
               Scenario.status_query_fails) = Some 255
  /\ existsb is_full_deploy
       (events (start (deploy_no_docker 5 (Some "dev") None)
                  Scenario.status_query_fails)) = false.
Proof.
  destruct (X10_failed_status_query_is_not_retried 5 (Some "dev") None
              Scenario.status_query_fails "SUCCEEDED" "us-east-1"
              (failed 255 "timeout"))
    as (Hcode & _ & Hnone).
  - find_event.
  - reflexivity.
  - split; [exact Hcode|exact Hnone].
Defined.

Lemma X11_witness :
  existsb is_project_setup
    (events (start (deploy_no_docker 1 (Some "dev") None) Scenario.all_succeeded))
  = false.
Proof.
  apply (X11_existing_project_is_not_recreated 1 (Some "dev") None
           Scenario.all_succeeded "fastapi-build-dev" "us-east-1"
           (ok "SUCCEEDED")).
  - find_event.
  - discriminate.
Defined.

Lemma X12_witness :
  exit_code (start (workflow LocalBuild (Some "dev") None)
               Scenario.endpoint_query_fails) = Some 0
  /\ In (Echo "Service URL: An error occurred")
        (events (start (workflow LocalBuild (Some "dev") None)
                   Scenario.endpoint_query_fails)).
Proof.
  destruct (X12_any_other_value_is_reported_as_url LocalBuild (Some "dev") None
              Scenario.endpoint_query_fails "FastApiRunner-dev" "us-east-1"
              (failed 255 "An error occurred"))
    as (Hcode & Hurl & _).
  - find_event.
  - discriminate.
  - discriminate.
  - split; [exact Hcode|exact Hurl].
Defined.

Lemma X13_witness :
  exists e,
    e <> ""
    /\ (None = Some e
        \/ (Str.truthy None = false /\ String.prefix "preview-" e = true))
    /\ forallb (targets e (Str.or_else None "us-east-1"))
         (events (start (workflow (RemoteBuild 3) None None)
                    (Sample.all_but "x" 0 (ok "alice")))) = true
    /\ Expansion.unquoted e = Some [e]
    /\ Expansion.unquoted ("FastApiRunner-" ++ e)
       = Some ["FastApiRunner-" ++ e]
    /\ Expansion.unquoted ("fastapi-build-" ++ e)
       = Some ["fastapi-build-" ++ e]
    /\ Expansion.unquoted (Str.or_else None "us-east-1")
       = Some [Str.or_else None "us-east-1"].
Proof.
  apply (X13_one_environment_per_run (RemoteBuild 3) None None
           (Sample.all_but "x" 0 (ok "alice"))).
  - reflexivity.
  - reflexivity.
Defined.

Lemma X14_witness :
  App.appRunnerStacks
    {| App.context := [("pipelineOnly", "true")]; App.env := [];
       App.whoami := None |} = [].
Proof.
  apply (X14_stacks_are_named_after_their_environment
           {| App.context := [("pipelineOnly", "true")]; App.env := [];
              App.whoami := None |}).
  reflexivity.
Defined.

Lemma X15_witness :
  is_some (App.findStack (App.app (App.deployInputs "staging" Sample.bare))
             (stack_name "staging")) = false
  /\ is_some (App.findStack (App.app (App.deployInputs "prod" Sample.bare))
                (stack_name "prod")) = true.
Proof.
  split.
  - apply (X15_stack_looked_up_is_declared_for_preview_dev_prod
             "staging" Sample.bare); [discriminate|reflexivity].
  - apply (X15_stack_looked_up_is_declared_for_preview_dev_prod
             "prod" Sample.bare); [discriminate|reflexivity].
Defined.

Lemma X16_witness :
  has_service
    (App.fixedStack
       {| App.context := [ ("environment", "dev"); ("createService", "false");
                           ("secretsArn", Scenario.secret_arn) ];
          App.env := []; App.whoami := None |} "dev") = true
  /\ roleSecrets "InstanceRole"
       (App.fixedStack
          {| App.context := [ ("environment", "dev"); ("createService", "false");
                              ("secretsArn", Scenario.secret_arn) ];
             App.env := []; App.whoami := None |} "dev") = [].
Proof.
  destruct (X16_context_ignored_outside_preview
              {| App.context := [ ("environment", "dev");
                                  ("createService", "false");
                                  ("secretsArn", Scenario.secret_arn) ];
                 App.env := []; App.whoami := None |}
              (App.fixedStack
                 {| App.context := [ ("environment", "dev");
                                     ("createService", "false");
                                     ("secretsArn", Scenario.secret_arn) ];
                    App.env := []; App.whoami := None |} "dev"))
    as (Hsvc & _ & Hrole & _).
  - reflexivity.
  - left. reflexivity.
  - split; [exact Hsvc|exact Hrole].
Defined.

Lemma X17_witness :
  exists arn,
    secretsArn (Sample.props None (Some Scenario.secret_arn)) = Some arn
    /\ arn <> ""
    /\ roleSecrets "InstanceRole"
         (newAppRunnerStack "FastApiRunner-preview-alice"
            (Sample.props None (Some Scenario.secret_arn))) = [arn]
    /\ map name [ secretRef Scenario.secret_arn "MYSQL_USER";
                  secretRef Scenario.secret_arn "MYSQL_PASSWORD";
                  secretRef Scenario.secret_arn "MYSQL_HOST";
                  secretRef Scenario.secret_arn "MYSQL_DATABASE" ]
       = ["MYSQL_USER"; "MYSQL_PASSWORD"; "MYSQL_HOST"; "MYSQL_DATABASE"]
    /\ (forall kv,
           In kv [ secretRef Scenario.secret_arn "MYSQL_USER";
                   secretRef Scenario.secret_arn "MYSQL_PASSWORD";
                   secretRef Scenario.secret_arn "MYSQL_HOST";
                   secretRef Scenario.secret_arn "MYSQL_DATABASE" ] ->
           value kv = arn ++ ":" ++ name kv ++ "::").
Proof.
  apply (X17_secret_references_match_the_grant "FastApiRunner-preview-alice"
           (Sample.props None (Some Scenario.secret_arn))
           (imageConfig "preview-alice" 8080 [] (Some Scenario.secret_arn))).
  left. reflexivity.
Defined.

Lemma X19_witness :
  has_service
    (App.previewStack
       {| App.context := [ ("environment", "preview-alice");
                           ("createService", "False") ];
          App.env := []; App.whoami := None |}) = false
  <-> Some "False" = Some "false".
Proof.
  apply (X19_only_the_string_false_disables_the_service
           {| App.context := [ ("environment", "preview-alice");
                               ("createService", "False") ];
              App.env := []; App.whoami := None |}).
  - reflexivity.
  - left. reflexivity.
Defined.

Lemma X20_witness :
  App.stacks (App.app {| App.context := [("pipelineOnly", "true")];
                         App.env := []; App.whoami := None |}) = []
  /\ App.warnings (App.app {| App.context := [("pipelineOnly", "true")];
                              App.env := []; App.whoami := None |}) = [].
Proof.
  apply (X20_pipeline_stack_and_warnings
           {| App.context := [("pipelineOnly", "true")]; App.env := [];
              App.whoami := None |}); reflexivity.
Defined.

Lemma X26_witness :
  Str.startsWith (App.environment Sample.bare) "preview-" = true
  /\ (App.pipelineOnly Sample.bare = false ->
      App.appRunnerStacks Sample.bare = [App.previewStack Sample.bare]).
Proof.
  apply (X26_default_environment_is_a_preview Sample.bare). reflexivity.
Defined.

End MoreWitnesses.
